(** * ApplicationsTracker: the React front end, embedded and verified

    The development follows the JavaScript sources of the job-application
    tracker: the [api] service object, the pages [Home], [AllApplications],
    [JobDetail] and the legacy [Dashboard] with its [ApplicationModal].

    - JavaScript primitives are the type [value]; plain objects that are
      spread, extended and sent as JSON are finite maps [gmap string value]
      (an absent key is [undefined]).
    - Rows returned by the backend are records ([Application], [Deadline],
      [Note]) with the fields the pages read.
    - The backend is not part of the front end: it is a parameter, a record
      [Api] of state transformers, exactly one per method of the [api]
      object.  Every call is appended to a request log.
    - Event handlers are written in a state-and-exception monad [M] whose
      state holds the backend, the request log, the React state of the
      component, the router history and the console.  A handler receives
      the state of the render it was created in (its closure) as an
      argument and changes the component through setters. *)

From Stdlib Require Import ZArith Ascii String.
From stdpp Require Import base numbers option list strings pretty gmap fin_maps sorting.

Local Open Scope string_scope.
Local Open Scope Z_scope.

(* ===================================================================== *)
(** ** JavaScript values and objects *)
(* ===================================================================== *)

Module JS.

(** Primitive values found in the JSON bodies and in form state.  A number
    is an integer here; [undefined] is the absence of a value
    ([None : option value]). *)
Inductive value : Type :=
| VNull
| VBool (b : bool)
| VNum (n : Z)
| VStr (s : string).

#[global] Instance value_eq_dec : EqDecision value.
Proof. solve_decision. Defined.

(** Plain objects. *)
Abbreviation obj := (gmap string value).

(** ToBoolean: [undefined], [null], [false], [0] and [''] are falsy. *)
Definition truthy (v : option value) : bool :=
  match v with
  | None => false
  | Some VNull => false
  | Some (VBool b) => b
  | Some (VNum n) => negb (Z.eqb n 0)
  | Some (VStr s) => negb (String.eqb s "")
  end.

(** [a || b] where [b] is defined. *)
Definition js_or (a : option value) (b : value) : value :=
  match a with
  | Some v => if truthy a then v else b
  | None => b
  end.

(** Truthiness of a string held in React state. *)
Definition truthy_str (s : string) : bool := negb (String.eqb s "").

(** A property written in an object literal: a property whose value is
    [undefined] does not appear in the JSON body. *)
Definition set_prop (k : string) (v : option value) (o : obj) : obj :=
  match v with
  | Some x => <[k := x]> o
  | None => delete k o
  end.

(** White space removed by [String.prototype.trim], for strings whose code
    units are below 256 (one [ascii] per code unit): TAB, LF, VT, FF, CR,
    SPACE and NO-BREAK SPACE. *)
Definition is_white_space (a : ascii) : bool :=
  let n := nat_of_ascii a in
  (Nat.eqb n 9 || Nat.eqb n 10 || Nat.eqb n 11 || Nat.eqb n 12 ||
   Nat.eqb n 13 || Nat.eqb n 32 || Nat.eqb n 160)%bool.

Fixpoint trimStart (s : string) : string :=
  match s with
  | EmptyString => EmptyString
  | String a s' => if is_white_space a then trimStart s' else s
  end.

Fixpoint trimEnd (s : string) : string :=
  match s with
  | EmptyString => EmptyString
  | String a s' =>
      match trimEnd s' with
      | EmptyString => if is_white_space a then EmptyString else String a EmptyString
      | t => String a t
      end
  end.

Definition trim (s : string) : string := trimEnd (trimStart s).

(** A string is blank when it is empty or made of white space only. *)
Fixpoint blank (s : string) : bool :=
  match s with
  | EmptyString => true
  | String a s' => is_white_space a && blank s'
  end.

End JS.
Export JS.

(* ===================================================================== *)
(** ** Rows returned by the backend *)
(* ===================================================================== *)

(** A deadline as serialised in an application's [deadlines] array. *)
Record Deadline : Type := mkDeadline {
  deadline_id : Z;
  deadline_type : string;
  deadline_date : string;
  deadline_description : option string;
  is_completed : bool
}.

Record Note : Type := mkNote {
  note_id : Z;
  note_content : string;
  note_created_at : string
}.

(** An application as returned by [GET /applications] and
    [GET /applications/{id}]; the collections may be missing. *)
Record Application : Type := mkApplication {
  app_id : Z;
  company_name : string;
  position_title : string;
  job_url : option string;
  location : option string;
  salary : option string;
  status : string;
  date_applied : string;
  deadlines : option (list Deadline);
  notes : option (list Note)
}.

#[global] Instance deadline_eq_dec : EqDecision Deadline.
Proof. solve_decision. Defined.
#[global] Instance note_eq_dec : EqDecision Note.
Proof. solve_decision. Defined.
#[global] Instance application_eq_dec : EqDecision Application.
Proof. solve_decision. Defined.

(* ===================================================================== *)
(** ** The [api] service and the handler monad *)
(* ===================================================================== *)

(** A request sent by one of the methods of [api]. *)
Inductive request : Type :=
| GetApplications
| GetApplication (id : Z)
| CreateApplication (data : obj)
| UpdateApplication (id : Z) (data : obj)
| DeleteApplication (id : Z)
| CreateJobDetails (applicationId : Z) (data : obj)
| CreateNote (applicationId : Z) (content : string)
| UpdateNote (noteId : Z) (content : string)
| DeleteNote (noteId : Z)
| CreateDeadline (applicationId : Z) (data : obj)
| UpdateDeadline (deadlineId : Z) (data : obj)
| DeleteDeadline (deadlineId : Z)
| ScrapeUrl (url : string)
| ExportToExcel.

#[global] Instance request_eq_dec : EqDecision request.
Proof. solve_decision. Defined.

Definition is_create_request (r : request) : bool :=
  match r with
  | CreateApplication _ | CreateJobDetails _ _ | CreateDeadline _ _ => true
  | _ => false
  end.

Definition is_update_deadline (r : request) : bool :=
  match r with
  | UpdateDeadline _ _ => true
  | _ => false
  end.

Definition is_create_deadline (r : request) : bool :=
  match r with
  | CreateDeadline _ _ => true
  | _ => false
  end.

(** The result of an awaited promise: a value, or a thrown [Error] with its
    [message]. *)
Inductive outcome (A : Type) : Type :=
| Ok (a : A)
| Err (message : string).
Arguments Ok {A} a.
Arguments Err {A} message.

(** The backend behind [API_BASE_URL], one field per method of [api].  [S]
    is the state of the server (and of the network). *)
Record Api (S : Type) : Type := {
  api_getApplications : S -> outcome (list Application) * S;
  api_getApplication : Z -> S -> outcome Application * S;
  api_createApplication : obj -> S -> outcome Application * S;
  api_updateApplication : Z -> obj -> S -> outcome Application * S;
  api_deleteApplication : Z -> S -> outcome unit * S;
  api_createJobDetails : Z -> obj -> S -> outcome unit * S;
  api_createNote : Z -> string -> S -> outcome unit * S;
  api_updateNote : Z -> string -> S -> outcome unit * S;
  api_deleteNote : Z -> S -> outcome unit * S;
  api_createDeadline : Z -> obj -> S -> outcome unit * S;
  api_updateDeadline : Z -> obj -> S -> outcome unit * S;
  api_deleteDeadline : Z -> S -> outcome unit * S;
  api_scrapeUrl : string -> S -> outcome obj * S;
  api_exportToExcel : S -> outcome unit * S
}.
Arguments api_getApplications {S}.
Arguments api_getApplication {S}.
Arguments api_createApplication {S}.
Arguments api_updateApplication {S}.
Arguments api_deleteApplication {S}.
Arguments api_createJobDetails {S}.
Arguments api_createNote {S}.
Arguments api_updateNote {S}.
Arguments api_deleteNote {S}.
Arguments api_createDeadline {S}.
Arguments api_updateDeadline {S}.
Arguments api_deleteDeadline {S}.
Arguments api_scrapeUrl {S}.
Arguments api_exportToExcel {S}.

(** What a handler can observe and change: the server, the log of requests
    sent so far, the React state [U] of the component, the routes pushed
    with [navigate] and the lines written with [console.error]. *)
Record world (S U : Type) : Type := World {
  srv : S;
  log : list request;
  ui : U;
  route : list string;
  console : list string
}.
Arguments World {S U}.
Arguments srv {S U}.
Arguments log {S U}.
Arguments ui {S U}.
Arguments route {S U}.
Arguments console {S U}.

Definition M (S U A : Type) : Type := world S U -> outcome A * world S U.

Section Monad.
Context {S U : Type}.

Definition ret {A} (a : A) : M S U A := fun w => (Ok a, w).

Definition bind {A B} (m : M S U A) (k : A -> M S U B) : M S U B :=
  fun w =>
    match m w with
    | (Ok a, w') => k a w'
    | (Err e, w') => (Err e, w')
    end.

(** [throw new Error(message)] *)
Definition throw {A} (message : string) : M S U A := fun w => (Err message, w).

(** [try { m } catch (err) { h err.message }] *)
Definition try_catch {A} (m : M S U A) (h : string -> M S U A) : M S U A :=
  fun w =>
    match m w with
    | (Ok a, w') => (Ok a, w')
    | (Err e, w') => h e w'
    end.

(** [try { m } finally { f }] where [f] does not throw or return. *)
Definition finally {A} (m : M S U A) (f : M S U unit) : M S U A :=
  fun w =>
    match m w with
    | (r, w') =>
        match f w' with
        | (Ok _, w'') => (r, w'')
        | (Err e, w'') => (Err e, w'')
        end
    end.

(** A React state setter, given as a function on the component state. *)
Definition set_state (f : U -> U) : M S U unit :=
  fun w => (Ok tt, World (srv w) (log w) (f (ui w)) (route w) (console w)).

Definition navigate (path : string) : M S U unit :=
  fun w => (Ok tt, World (srv w) (log w) (ui w) (route w ++ [path]) (console w)).

Definition console_error (label err : string) : M S U unit :=
  fun w => (Ok tt, World (srv w) (log w) (ui w) (route w) (console w ++ [label +:+ " " +:+ err])).

(** One round trip: the request is logged, the backend answers. *)
Definition call {A} (r : request) (f : S -> outcome A * S) : M S U A :=
  fun w =>
    match f (srv w) with
    | (res, s') => (res, World s' (log w ++ [r]) (ui w) (route w) (console w))
    end.

Definition when (b : bool) (m : M S U unit) : M S U unit :=
  if b then m else ret tt.
End Monad.

Declare Scope js_scope.
Delimit Scope js_scope with js.
Notation "x <- m ;; k" := (bind m (fun x => k))
  (at level 100, m at next level, right associativity) : js_scope.
Notation "m ;; k" := (bind m (fun _ => k))
  (at level 100, right associativity) : js_scope.

(* ===================================================================== *)
(** ** Arrays and dates *)
(* ===================================================================== *)

(** [Array.prototype.sort(compare)]: a stable sort.  The comparison returns
    a number, or [None] for [NaN], which the sort treats as [+0].  An
    element is placed before the first element it does not exceed, so equal
    elements keep their order.  For a consistent comparison every stable
    sort returns this array; for an inconsistent one (some date invalid) the
    order is left to the engine, and this is one of the orders. *)
Section Sort.
Context {A : Type} (compare : A -> A -> option Z).

Definition compare_le (x y : A) : bool :=
  match compare x y with
  | Some v => v <=? 0
  | None => true
  end.

Fixpoint sort_insert (x : A) (l : list A) : list A :=
  match l with
  | [] => [x]
  | y :: l' => if compare_le x y then x :: y :: l' else y :: sort_insert x l'
  end.

Fixpoint js_sort (l : list A) : list A :=
  match l with
  | [] => []
  | x :: l' => sort_insert x (js_sort l')
  end.
End Sort.

(** [Array.prototype.find] *)
Fixpoint js_find {A : Type} (p : A -> bool) (l : list A) : option A :=
  match l with
  | [] => None
  | x :: l' => if p x then Some x else js_find p l'
  end.

(** [Math.ceil(n / d)] for [d > 0]. *)
Definition ceil_div (n d : Z) : Z := - ((- n) / d).

Definition ms_per_day : Z := 1000 * 60 * 60 * 24.

Section Dates.
(** [new Date(v)] for a primitive [v]: the time value in milliseconds, or
    [None] for an Invalid Date.  How a string is parsed is left to the
    engine. *)
Variable newDate : value -> option Z.

(** [new Date(a.deadline_date) - new Date(b.deadline_date)] *)
Definition date_diff (a b : Deadline) : option Z :=
  match newDate (VStr (deadline_date a)), newDate (VStr (deadline_date b)) with
  | Some x, Some y => Some (x - y)
  | _, _ => None
  end.

Definition uncompleted (d : Deadline) : bool := negb (is_completed d).

(** The time value of a deadline, when its date is valid, and the order of
    two deadlines with valid dates. *)
Definition deadline_time (d : Deadline) : option Z := newDate (VStr (deadline_date d)).

Definition not_later (a b : Deadline) : Prop :=
  exists x y, deadline_time a = Some x ∧ deadline_time b = Some y ∧ x <= y.

Definition valid_date (d : Deadline) : Prop := is_Some (deadline_time d).

(** The time value as a sort key, for deadlines with a valid date. *)
Definition key_of (d : Deadline) : Z := default 0 (deadline_time d).

(** [ds.filter(d => !d.is_completed).sort((a, b) => new Date(a.deadline_date)
    - new Date(b.deadline_date))[0]], shared by [Home] and
    [AllApplications]; [filter] returns a fresh array, so the stored one is
    not reordered. *)
Definition earliest_uncompleted (ds : list Deadline) : option Deadline :=
  head (js_sort date_diff (filter (fun d => uncompleted d = true) ds)).

(** [Math.ceil((deadlineDate - now) / (1000 * 60 * 60 * 24))], [None] being
    [NaN]. *)
Definition getDaysUntilDeadline (now : Z) (d : Deadline) : option Z :=
  match newDate (VStr (deadline_date d)) with
  | Some t => Some (ceil_div (t - now) ms_per_day)
  | None => None
  end.

(** *** AllApplications.jsx: the two notions of next deadline *)

(** [getNextDeadline], used to display a row. *)
Definition getNextDeadline (app : Application) : option Deadline :=
  match deadlines app with
  | None => None
  | Some ds =>
      if (length ds =? 0)%nat then None else earliest_uncompleted ds
  end.

(** The deadline picked in the [case 'deadline'] branch of the comparison of
    [filterAndSortApplications] (comment: "Get next deadline"):
    [a.deadlines?.find((d) => !d.is_completed)]. *)
Definition sortDeadline (app : Application) : option Deadline :=
  match deadlines app with
  | None => None
  | Some ds => js_find uncompleted ds
  end.

(** The value compared in that branch: [aDeadline ? new
    Date(aDeadline.deadline_date) : new Date('2100-01-01')]. *)
Definition sortDeadlineValue (app : Application) : option Z :=
  match sortDeadline app with
  | Some d => newDate (VStr (deadline_date d))
  | None => newDate (VStr "2100-01-01")
  end.

(** [aValue > bValue] on two dates: false when either is invalid. *)
Definition date_gt (a b : option Z) : bool :=
  match a, b with
  | Some x, Some y => y <? x
  | _, _ => false
  end.

(** The result of the comparison for [sortBy === 'deadline']:
    [aValue > bValue ? 1 : -1] when [sortOrder === 'asc'], otherwise
    [aValue < bValue ? 1 : -1]. *)
Definition compareByDeadline (sortOrder : string) (a b : Application) : Z :=
  let aValue := sortDeadlineValue a in
  let bValue := sortDeadlineValue b in
  if String.eqb sortOrder "asc" then
    if date_gt aValue bValue then 1 else -1
  else
    if date_gt bValue aValue then 1 else -1.

(** The text of a deadline badge: [Overdue], [Today], [Tomorrow] or
    [`${daysUntil} days`]. *)
Inductive badge_text : Type :=
| Overdue
| Today
| Tomorrow
| Days (daysUntil : option Z).

(** The badge shown for the next deadline of a row (lines 421-440); every
    comparison with [NaN] is false. *)
Definition deadlineBadge (daysUntil : option Z) : string * badge_text :=
  match daysUntil with
  | Some n =>
      ((if n <? 0 then "bg-danger" else if n <=? 3 then "bg-warning" else "bg-info"),
       (if n <? 0 then Overdue else if n =? 0 then Today
        else if n =? 1 then Tomorrow else Days daysUntil))
  | None => ("bg-info", Days None)
  end.

(** *** Home.jsx: upcoming deadlines *)

(** [{ ...app, nextDeadline }] *)
Record upcoming : Type := Upcoming {
  upcoming_app : Application;
  nextDeadline : Deadline
}.

Definition has_deadlines (app : Application) : bool :=
  match deadlines app with
  | Some ds => (0 <? length ds)%nat
  | None => false
  end.

Definition with_next_deadline (app : Application) : option upcoming :=
  match earliest_uncompleted (default [] (deadlines app)) with
  | Some d => Some (Upcoming app d)
  | None => None
  end.

Definition upcoming_diff (a b : upcoming) : option Z :=
  date_diff (nextDeadline a) (nextDeadline b).

(** The pipeline of [fetchUpcomingDeadlines]:
    [applications.filter(..).map(..).filter(app => app !== null).sort(..).slice(0, 10)]. *)
Definition appsWithDeadlines (applications : list Application) : list upcoming :=
  take 10
    (js_sort upcoming_diff
       (omap with_next_deadline
          (filter (fun app => has_deadlines app = true) applications))).

(** [getDeadlineStatus] of the home page: text and class. *)
Definition getDeadlineStatus (now : Z) (d : Deadline) : badge_text * string :=
  match getDaysUntilDeadline now d with
  | Some n =>
      if n <? 0 then (Overdue, "danger")
      else if n =? 0 then (Today, "warning")
      else if n =? 1 then (Tomorrow, "warning")
      else if n <=? 3 then (Days (Some n), "warning")
      else if n <=? 7 then (Days (Some n), "info")
      else (Days (Some n), "success")
  | None => (Days None, "success")
  end.

End Dates.

(* ===================================================================== *)
(** ** A reference engine for dates *)
(* ===================================================================== *)

(** [Date] as an engine whose time zone is UTC implements it, for the ISO
    8601 strings the backend and the date inputs produce
    ([YYYY-MM-DD], [YYYY-MM-DDTHH:mm], [YYYY-MM-DDTHH:mm:ss(.sss)(Z)]); any
    other string is an Invalid Date.  The handlers do not depend on it: they
    take [new Date] and [toISOString] as parameters.  It is used to run them
    on concrete inputs. *)
Module Engine.

(** Days between 1970-01-01 and a date of the proleptic Gregorian
    calendar, and back. *)
Definition days_from_civil (y m d : Z) : Z :=
  let y' := if m <=? 2 then y - 1 else y in
  let era := y' / 400 in
  let yoe := y' - era * 400 in
  let doy := (153 * (if 2 <? m then m - 3 else m + 9) + 2) / 5 + d - 1 in
  let doe := yoe * 365 + yoe / 4 - yoe / 100 + doy in
  era * 146097 + doe - 719468.

Definition civil_from_days (z : Z) : Z * Z * Z :=
  let z' := z + 719468 in
  let era := z' / 146097 in
  let doe := z' - era * 146097 in
  let yoe := (doe - doe / 1460 + doe / 36524 - doe / 146096) / 365 in
  let doy := doe - (365 * yoe + yoe / 4 - yoe / 100) in
  let mp := (5 * doy + 2) / 153 in
  let d := doy - (153 * mp + 2) / 5 + 1 in
  let m := if mp <? 10 then mp + 3 else mp - 9 in
  let y := yoe + era * 400 + (if m <=? 2 then 1 else 0) in
  (y, m, d).

Definition days_in_month (y m : Z) : Z :=
  days_from_civil (if m =? 12 then y + 1 else y) (if m =? 12 then 1 else m + 1) 1
  - days_from_civil y m 1.

Definition digit (a : ascii) : option Z :=
  let n := Z.of_nat (nat_of_ascii a) in
  if (48 <=? n) && (n <=? 57) then Some (n - 48) else None.

(** Reads exactly [n] decimal digits. *)
Fixpoint digits (n : nat) (acc : Z) (s : string) : option (Z * string) :=
  match n with
  | O => Some (acc, s)
  | Datatypes.S n' =>
      match s with
      | String a s' =>
          match digit a with
          | Some v => digits n' (acc * 10 + v) s'
          | None => None
          end
      | EmptyString => None
      end
  end.

(** Reads the character [c]. *)
Definition expect (c : ascii) (s : string) : option string :=
  match s with
  | String b s' => if Ascii.eqb c b then Some s' else None
  | EmptyString => None
  end.

Definition parse_date (s : string) : option (Z * string) :=
  '(y, s) ← digits 4 0 s;
  s ← expect "-" s;
  '(m, s) ← digits 2 0 s;
  s ← expect "-" s;
  '(d, s) ← digits 2 0 s;
  if (1 <=? m) && (m <=? 12) && (1 <=? d) && (d <=? days_in_month y m)
  then Some (days_from_civil y m d * ms_per_day, s) else None.

Definition parse_seconds (s : string) : option (Z * string) :=
  match expect ":" s with
  | Some s =>
      '(sec, s) ← digits 2 0 s;
      if sec <=? 59 then
        match expect "." s with
        | Some s => '(ms, s) ← digits 3 0 s; Some (sec * 1000 + ms, s)
        | None => Some (sec * 1000, s)
        end
      else None
  | None => Some (0, s)
  end.

Definition parse_time (s : string) : option (Z * string) :=
  '(h, s) ← digits 2 0 s;
  s ← expect ":" s;
  '(mi, s) ← digits 2 0 s;
  '(sec, s) ← parse_seconds s;
  if (h <=? 23) && (mi <=? 59) then Some (h * 3600000 + mi * 60000 + sec, s) else None.

Definition parse (s : string) : option Z :=
  '(day, s) ← parse_date s;
  match s with
  | EmptyString => Some day
  | _ =>
      s ← expect "T" s;
      '(t, s) ← parse_time s;
      match s with
      | EmptyString | "Z" => Some (day + t)
      | _ => None
      end
  end.

(** [new Date(v)] *)
Definition newDate (v : value) : option Z :=
  match v with
  | VStr s => parse s
  | VNum n => Some n
  | VBool b => Some (if b then 1 else 0)
  | VNull => Some 0
  end.

Fixpoint zeros (n : nat) : string :=
  match n with
  | O => EmptyString
  | Datatypes.S n' => String "0" (zeros n')
  end.

Definition pad (width : nat) (s : string) : string :=
  zeros (width - String.length s) +:+ s.

(** [toISOString] of a valid time value. *)
Definition toISOString (t : Z) : string :=
  let day := t / ms_per_day in
  let r := t mod ms_per_day in
  let '(y, m, d) := civil_from_days day in
  (if (0 <=? y) && (y <=? 9999) then pad 4 (pretty y)
   else (if y <? 0 then "-" else "+") +:+ pad 6 (pretty (Z.abs y)))
  +:+ "-" +:+ pad 2 (pretty m) +:+ "-" +:+ pad 2 (pretty d)
  +:+ "T" +:+ pad 2 (pretty (r / 3600000))
  +:+ ":" +:+ pad 2 (pretty (r mod 3600000 / 60000))
  +:+ ":" +:+ pad 2 (pretty (r mod 60000 / 1000))
  +:+ "." +:+ pad 3 (pretty (r mod 1000)) +:+ "Z".

End Engine.

(* ===================================================================== *)
(** ** services/api.js *)
(* ===================================================================== *)

(** The methods of the [api] object as monadic calls: each sends one
    request and returns the parsed body, or throws. *)
Module Client.
Section Client.
Context {S U : Type} (api : Api S).

Definition getApplications : M S U (list Application) :=
  call GetApplications (api_getApplications api).
Definition getApplication (id : Z) : M S U Application :=
  call (GetApplication id) (api_getApplication api id).
Definition createApplication (data : obj) : M S U Application :=
  call (CreateApplication data) (api_createApplication api data).
Definition updateApplication (id : Z) (data : obj) : M S U Application :=
  call (UpdateApplication id data) (api_updateApplication api id data).
Definition deleteApplication (id : Z) : M S U unit :=
  call (DeleteApplication id) (api_deleteApplication api id).
Definition createJobDetails (applicationId : Z) (data : obj) : M S U unit :=
  call (CreateJobDetails applicationId data) (api_createJobDetails api applicationId data).
Definition createNote (applicationId : Z) (content : string) : M S U unit :=
  call (CreateNote applicationId content) (api_createNote api applicationId content).
Definition updateNote (noteId : Z) (content : string) : M S U unit :=
  call (UpdateNote noteId content) (api_updateNote api noteId content).
Definition deleteNote (noteId : Z) : M S U unit :=
  call (DeleteNote noteId) (api_deleteNote api noteId).
Definition createDeadline (applicationId : Z) (data : obj) : M S U unit :=
  call (CreateDeadline applicationId data) (api_createDeadline api applicationId data).
Definition updateDeadline (deadlineId : Z) (data : obj) : M S U unit :=
  call (UpdateDeadline deadlineId data) (api_updateDeadline api deadlineId data).
Definition deleteDeadline (deadlineId : Z) : M S U unit :=
  call (DeleteDeadline deadlineId) (api_deleteDeadline api deadlineId).
Definition scrapeUrl (url : string) : M S U obj :=
  call (ScrapeUrl url) (api_scrapeUrl api url).
Definition exportToExcel : M S U unit :=
  call ExportToExcel (api_exportToExcel api).

End Client.
End Client.

(** [new Date(v).toISOString()]: throws a [RangeError] on an Invalid Date. *)
Definition date_toISOString {S U : Type} (newDate : value -> option Z)
    (toISOString : Z -> string) (v : option value) : M S U string :=
  match v ≫= newDate with
  | Some t => ret (toISOString t)
  | None => throw "Invalid time value"
  end.

(** Runs a handler created by a render in component state [st]: the closure
    sees [st], the setters act on the component. *)
Definition run_handler {S U A : Type} (h : U -> M S U A) (w : world S U) : outcome A * world S U :=
  h (ui w) w.

(** The requests sent between two worlds. *)
Definition sent {S U V : Type} (w : world S U) (w' : world S V) : list request :=
  drop (length (log w)) (log w').

(** One event of a page: the handler of the current render runs to
    completion (awaited promises included) before the next event. *)
Definition fire {S U E : Type} (step : E -> U -> M S U unit) (e : E)
    (w : world S U) : world S U :=
  snd (run_handler (step e) w).


(** What a component shows after a scrape: the alert [{error && ...}] and
    the field form, when it renders one. *)
Record View : Type := mkView {
  alert : option string;
  entry_form : option obj
}.

Definition shown (error : string) : option string :=
  if truthy_str error then Some error else None.

(** The [scrapedData] set by the [catch] branch of
    [ApplicationModal.handleScrapeUrl]: every field empty but the URL. *)
Definition manual_form (jobUrl : string) : obj :=
  <["company_name" := VStr ""]>
  (<["position_title" := VStr ""]>
  (<["location" := VStr ""]>
  (<["salary" := VStr ""]>
  (<["description" := VStr ""]>
  (<["requirements" := VStr ""]>
  (<["notes" := VStr ""]>
  (<["job_url" := VStr jobUrl]> ∅))))))).

(** Falling back to manual entry after a scrape of [url] failed with
    [message]: no creation request among those sent, the message on
    display, and a field form holding the URL and nothing else. *)
Definition falls_back_to_manual_entry (url message : string)
    (requests : list request) (v : View) : Prop :=
  Forall (fun r => is_create_request r = false) requests
  ∧ (exists text, alert v = Some text ∧ String.prefix message text = true)
  ∧ entry_form v = Some (manual_form url).

(* ===================================================================== *)
(** ** components/ApplicationModal.jsx *)
(* ===================================================================== *)

Module ApplicationModal.

Record State : Type := mkState {
  jobUrl : string;
  isScrapingUrl : bool;
  scrapedData : option obj;
  error : string
}.

Definition setJobUrl (v : string) (st : State) : State :=
  mkState v (isScrapingUrl st) (scrapedData st) (error st).
Definition setIsScrapingUrl (v : bool) (st : State) : State :=
  mkState (jobUrl st) v (scrapedData st) (error st).
Definition setScrapedData (v : option obj) (st : State) : State :=
  mkState (jobUrl st) (isScrapingUrl st) v (error st).
Definition setError (v : string) (st : State) : State :=
  mkState (jobUrl st) (isScrapingUrl st) (scrapedData st) v.

(** The state at mount; the dashboard mounts the modal once, with
    [editingApp = null]. *)
Definition initial : State := mkState "" false None "".

(** The alert (lines 671-675) and the fields (lines 677-763), rendered when
    [scrapedData] is not [null]. *)
Definition view (st : State) : View := mkView (shown (error st)) (scrapedData st).

Section Handlers.
Context {S U : Type} (api : Api S).
(** The modal lives inside its parent: [modal] lifts a change of the modal
    state to the page; [onSave] and [onClose] are the props. *)
Context (modal : (State -> State) -> U -> U).
Context (onSave : obj -> M S U unit) (onClose : M S U unit).

Definition handleScrapeUrl (st : State) : M S U unit :=
  (if negb (truthy_str (trim (jobUrl st))) then
     set_state (modal (setError "Please enter a valid URL"))
   else
     (set_state (modal (setIsScrapingUrl true));;
      set_state (modal (setError ""));;
      finally
        (try_catch
           (data <- Client.scrapeUrl api (jobUrl st);;
            set_state (modal (setScrapedData (Some data)));;
            set_state (modal (setError "")))
           (fun err =>
              set_state (modal (setError (err +:+ ". You can still add manually.")));;
              set_state (modal (setScrapedData (Some (manual_form (jobUrl st)))))))
        (set_state (modal (setIsScrapingUrl false)))))%js.

Definition handleClose : M S U unit :=
  (set_state (modal (setJobUrl ""));;
   set_state (modal (setScrapedData None));;
   set_state (modal (setError ""));;
   onClose)%js.

(** [scrapedData?.k] *)
Definition field (sd : option obj) (k : string) : option value :=
  sd ≫= (fun o => o !! k).

Definition handleSave (st : State) : M S U unit :=
  (if negb (truthy (field (scrapedData st) "company_name"))
      || negb (truthy (field (scrapedData st) "position_title")) then
     set_state (modal (setError "Company name and position title are required"))
   else
     match scrapedData st with
     | None => throw "TypeError"
     | Some sd =>
         let dataToSave := <["status" := js_or (sd !! "status") (VStr "Applied")]> sd in
         onSave dataToSave;;
         handleClose
     end)%js.

End Handlers.
End ApplicationModal.

(* ===================================================================== *)
(** ** pages/Dashboard.jsx *)
(* ===================================================================== *)

Module Dashboard.

Record State : Type := mkState {
  applications : list Application;
  showAddModal : bool;
  editingApp : option Application
}.

(** The page: the dashboard and the modal it renders. *)
Record Page : Type := mkPage {
  dashboard : State;
  modal : ApplicationModal.State
}.

Definition in_dashboard (f : State -> State) (p : Page) : Page :=
  mkPage (f (dashboard p)) (modal p).
Definition in_modal (f : ApplicationModal.State -> ApplicationModal.State) (p : Page) : Page :=
  mkPage (dashboard p) (f (modal p)).

Definition setApplications (v : list Application) (st : State) : State :=
  mkState v (showAddModal st) (editingApp st).
Definition setShowAddModal (v : bool) (st : State) : State :=
  mkState (applications st) v (editingApp st).
Definition setEditingApp (v : option Application) (st : State) : State :=
  mkState (applications st) (showAddModal st) v.

Definition initial : Page := mkPage (mkState [] false None) ApplicationModal.initial.

(** [statusColumns]: id, background and button colour. *)
Definition statusColumns : list (string * string * string) :=
  [("Applied", "bg-primary", "btn-primary");
   ("Pending Interview", "bg-warning", "btn-warning");
   ("Interview Scheduled", "bg-info", "btn-info");
   ("Offer Received", "bg-success", "btn-success");
   ("Rejected", "bg-danger", "btn-danger")].

Definition column_id (column : string * string * string) : string := column.1.1.
Definition bgColor (column : string * string * string) : string := column.1.2.

(** [getApplicationsByStatus]: the cards of one column. *)
Definition getApplicationsByStatus (column : string) (applications : list Application)
    : list Application :=
  filter (fun app => status app = column) applications.

(** [currentStatusColor] of ApplicationCard.jsx:
    [statusColumns.find(s => s.id === application.status)?.bgColor ||
    'bg-secondary']. *)
Definition currentStatusColor (columns : list (string * string * string))
    (application : Application) : string :=
  match js_find (fun s => bool_decide (column_id s = status application)) columns with
  | Some s => if truthy_str (bgColor s) then bgColor s else "bg-secondary"
  | None => "bg-secondary"
  end.

Section Handlers.
Context {S : Type} (api : Api S).
Variable toISOString : Z -> string.

(** [now] is the reading of the clock by [new Date()]. *)
Definition handleSaveApplication (now : Z) (st : State) (data : obj) : M S Page unit :=
  (try_catch
     match editingApp st with
     | Some editing =>
         updated <- Client.updateApplication api (app_id editing) data;;
         set_state (in_dashboard (setApplications
           (map (fun app => if decide (app_id app = app_id editing) then updated else app)
                (applications st))))
     | None =>
         newApp <- Client.createApplication api
                     (<["date_applied" := VStr (toISOString now)]> data);;
         set_state (in_dashboard (setApplications (applications st ++ [newApp])))
     end
     (fun err => console_error "Error saving application:" err))%js.

Definition handleEditApplication (app : Application) : M S Page unit :=
  (set_state (in_dashboard (setEditingApp (Some app)));;
   set_state (in_dashboard (setShowAddModal true)))%js.

Definition handleCloseModal : M S Page unit :=
  (set_state (in_dashboard (setShowAddModal false));;
   set_state (in_dashboard (setEditingApp None)))%js.

(** The modal as the dashboard renders it:
    [<ApplicationModal onClose={handleCloseModal} onSave={handleSaveApplication} />]. *)
Definition modal_handleSave (now : Z) (p : Page) : M S Page unit :=
  ApplicationModal.handleSave in_modal
    (handleSaveApplication now (dashboard p)) handleCloseModal (modal p).

Definition modal_handleScrapeUrl (p : Page) : M S Page unit :=
  ApplicationModal.handleScrapeUrl api in_modal (modal p).

Definition modal_handleClose : M S Page unit :=
  ApplicationModal.handleClose in_modal handleCloseModal.

(** The events of the page: the buttons of the dashboard and the controls
    of the modal.  [ChangeField k v] is typing [v] in the input of field
    [k]: [setScrapedData({ ...scrapedData, [k]: v })]. *)
Inductive Event : Type :=
| ClickAddApplication
| ClickEdit (app : Application)
| ChangeJobUrl (v : string)
| ClickScrapeJob
| ChangeField (k : string) (v : string)
| ClickSave (now : Z)
| ClickClose.

Definition step (e : Event) (p : Page) : M S Page unit :=
  match e with
  | ClickAddApplication => set_state (in_dashboard (setShowAddModal true))
  | ClickEdit app => handleEditApplication app
  | ChangeJobUrl v => set_state (in_modal (ApplicationModal.setJobUrl v))
  | ClickScrapeJob => modal_handleScrapeUrl p
  | ChangeField k v =>
      set_state (in_modal (ApplicationModal.setScrapedData
        (Some (<[k := VStr v]> (default ∅ (ApplicationModal.scrapedData (modal p)))))))
  | ClickSave now => modal_handleSave now p
  | ClickClose => modal_handleClose
  end.

(** [handleDeleteApplication]; [confirmed] is the answer to the [confirm]
    dialog. *)
Definition handleDeleteApplication (confirmed : bool) (appId : Z) (st : State)
    : M S Page unit :=
  (if negb confirmed then ret tt
   else
     try_catch
       (Client.deleteApplication api appId;;
        set_state (in_dashboard (setApplications
          (filter (fun app => app_id app ≠ appId) (applications st)))))
       (fun err => console_error "Error deleting application:" err))%js.

End Handlers.
End Dashboard.

(* ===================================================================== *)
(** ** pages/Home.jsx *)
(* ===================================================================== *)

Module Home.

Record State : Type := mkState {
  url : string;
  loading : bool;
  error : string;
  upcomingDeadlines : list upcoming;
  loadingDeadlines : bool
}.

Definition setUrl (v : string) (st : State) : State :=
  mkState v (loading st) (error st) (upcomingDeadlines st) (loadingDeadlines st).
Definition setLoading (v : bool) (st : State) : State :=
  mkState (url st) v (error st) (upcomingDeadlines st) (loadingDeadlines st).
Definition setError (v : string) (st : State) : State :=
  mkState (url st) (loading st) v (upcomingDeadlines st) (loadingDeadlines st).
Definition setUpcomingDeadlines (v : list upcoming) (st : State) : State :=
  mkState (url st) (loading st) (error st) v (loadingDeadlines st).
Definition setLoadingDeadlines (v : bool) (st : State) : State :=
  mkState (url st) (loading st) (error st) (upcomingDeadlines st) v.

Definition initial : State := mkState "" false "" [] true.

(** The scrape card (lines 338-398): the URL input, the submit button and
    the alert; the page renders no field form. *)
Definition view (st : State) : View := mkView (shown (error st)) None.

(** The body of [api.createApplication] in [handleScrape]. *)
Definition application_payload (jobData : obj) (url : string) : obj :=
  set_prop "company_name" (jobData !! "company_name")
  (set_prop "position_title" (jobData !! "position_title")
  (set_prop "location" (jobData !! "location")
  (set_prop "salary" (jobData !! "salary")
  (<["job_url" := js_or (jobData !! "job_url") (VStr url)]>
  (<["status" := VStr "Applied"]> ∅))))).

(** The body of [api.createJobDetails] in [handleScrape]. *)
Definition job_details_payload (jobData : obj) : obj :=
  set_prop "description" (jobData !! "description")
  (set_prop "requirements" (jobData !! "requirements")
  (set_prop "clean_text_content" (jobData !! "clean_text_content")
  (set_prop "ai_thoughts" (jobData !! "ai_thoughts") ∅))).

(** The body of [api.createDeadline] in [handleScrape]. *)
Definition deadline_payload (iso : string) : obj :=
  <["deadline_type" := VStr "application"]>
  (<["deadline_date" := VStr iso]>
  (<["description" := VStr "Application deadline"]>
  (<["is_completed" := VBool false]> ∅))).

Section Handlers.
Context {S : Type} (api : Api S).
Variable newDate : value -> option Z.
Variable toISOString : Z -> string.

Definition fetchUpcomingDeadlines : M S State unit :=
  (finally
     (try_catch
        (set_state (setLoadingDeadlines true);;
         applications <- Client.getApplications api;;
         set_state (setUpcomingDeadlines (appsWithDeadlines newDate applications)))
        (fun err => console_error "Failed to fetch deadlines:" err))
     (set_state (setLoadingDeadlines false)))%js.

Definition handleScrape (st : State) : M S State unit :=
  (if negb (truthy_str (trim (url st))) then
     set_state (setError "Please enter a job URL")
   else
     (set_state (setLoading true);;
      set_state (setError "");;
      finally
        (try_catch
           (jobData <- Client.scrapeUrl api (url st);;
            newApp <- Client.createApplication api (application_payload jobData (url st));;
            when (truthy (jobData !! "description")
                  || truthy (jobData !! "requirements")
                  || truthy (jobData !! "ai_thoughts"))
              (Client.createJobDetails api (app_id newApp) (job_details_payload jobData));;
            when (truthy (jobData !! "application_deadline"))
              (try_catch
                 (iso <- date_toISOString newDate toISOString
                           (jobData !! "application_deadline");;
                  Client.createDeadline api (app_id newApp) (deadline_payload iso))
                 (fun err => console_error "Failed to create deadline:" err));;
            navigate ("/job/" +:+ pretty (app_id newApp)))
           (fun err => set_state (setError err)))
        (set_state (setLoading false))))%js.

(** What the page shows of its deadlines at time [now]: one status per
    entry of [upcomingDeadlines]. *)
Definition render_deadlines (now : Z) (st : State) : list (upcoming * (badge_text * string)) :=
  map (fun app => (app, getDeadlineStatus newDate now (nextDeadline app)))
      (upcomingDeadlines st).

(** The events of the page. *)
Inductive Event : Type :=
| Mount
| ChangeUrl (v : string)
| SubmitScrape
| Render (now : Z).

Definition step (e : Event) (st : State) : M S State unit :=
  match e with
  | Mount => fetchUpcomingDeadlines
  | ChangeUrl v => set_state (setUrl v)
  | SubmitScrape => handleScrape st
  | Render now => let _ := render_deadlines now st in ret tt
  end.

End Handlers.
End Home.

(* ===================================================================== *)
(** ** Strings and counting used by the lists *)
(* ===================================================================== *)

Module Text.

(** [String.prototype.toLowerCase] on code units below 256: the letters
    A-Z and the Latin-1 capitals from U+00C0 to U+00DE, the multiplication
    sign U+00D7 excepted, move up by 32. *)
Definition lower_char (a : ascii) : ascii :=
  let n := nat_of_ascii a in
  if ((Nat.leb 65 n && Nat.leb n 90)
      || (Nat.leb 192 n && Nat.leb n 222 && negb (Nat.eqb n 215)))%bool
  then ascii_of_nat (n + 32) else a.

Fixpoint toLowerCase (s : string) : string :=
  match s with
  | EmptyString => EmptyString
  | String a s' => String (lower_char a) (toLowerCase s')
  end.

(** [s.includes(q)] *)
Fixpoint includes (q s : string) : bool :=
  (String.prefix q s
   || match s with
      | EmptyString => false
      | String _ s' => includes q s'
      end)%bool.

End Text.

(** An application with at least one deadline that is not completed. *)
Definition has_open_deadline (app : Application) : bool :=
  existsb uncompleted (default [] (deadlines app)).

(* ===================================================================== *)
(** ** pages/AllApplications.jsx *)
(* ===================================================================== *)

Module AllApplications.

(** [filteredApps] is derived from the other fields by
    [filterAndSortApplications], which calls no method of [api]; rows are
    rendered from it. *)
Record State : Type := mkState {
  applications : list Application;
  filteredApps : list Application;
  loading : bool;
  searchQuery : string;
  statusFilter : string;
  sortBy : string;
  sortOrder : string
}.

Definition setApplications (v : list Application) (st : State) : State :=
  mkState v (filteredApps st) (loading st) (searchQuery st) (statusFilter st) (sortBy st) (sortOrder st).
Definition setFilteredApps (v : list Application) (st : State) : State :=
  mkState (applications st) v (loading st) (searchQuery st) (statusFilter st) (sortBy st) (sortOrder st).
Definition setLoading (v : bool) (st : State) : State :=
  mkState (applications st) (filteredApps st) v (searchQuery st) (statusFilter st) (sortBy st) (sortOrder st).
Definition setSearchQuery (v : string) (st : State) : State :=
  mkState (applications st) (filteredApps st) (loading st) v (statusFilter st) (sortBy st) (sortOrder st).
Definition setStatusFilter (v : string) (st : State) : State :=
  mkState (applications st) (filteredApps st) (loading st) (searchQuery st) v (sortBy st) (sortOrder st).
Definition setSortBy (v : string) (st : State) : State :=
  mkState (applications st) (filteredApps st) (loading st) (searchQuery st) (statusFilter st) v (sortOrder st).
Definition setSortOrder (v : string) (st : State) : State :=
  mkState (applications st) (filteredApps st) (loading st) (searchQuery st) (statusFilter st) (sortBy st) v.

Definition initial : State := mkState [] [] true "" "all" "date_applied" "desc".

(** The two filters of [filterAndSortApplications] (lines 50-65), before
    the array is sorted: the search applies when [searchQuery] is not empty,
    the status filter when [statusFilter] is not ['all']. *)
Definition matches_search (searchQuery : string) (app : Application) : bool :=
  (Text.includes (Text.toLowerCase searchQuery) (Text.toLowerCase (company_name app))
   || Text.includes (Text.toLowerCase searchQuery) (Text.toLowerCase (position_title app))
   || match location app with
      | Some l =>
          truthy_str l
          && Text.includes (Text.toLowerCase searchQuery) (Text.toLowerCase l)
      | None => false
      end)%bool.

Definition filterApplications (searchQuery statusFilter : string)
    (applications : list Application) : list Application :=
  let filtered := applications in
  let filtered :=
    if truthy_str searchQuery
    then filter (fun app => matches_search searchQuery app = true) filtered
    else filtered in
  if negb (String.eqb statusFilter "all")
  then filter (fun app => status app = statusFilter) filtered
  else filtered.

Section Handlers.
Context {S : Type} (api : Api S).
Variable newDate : value -> option Z.

Definition fetchApplications : M S State unit :=
  (finally
     (try_catch
        (set_state (setLoading true);;
         data <- Client.getApplications api;;
         set_state (setApplications data))
        (fun err => console_error "Failed to fetch applications:" err))
     (set_state (setLoading false)))%js.

Definition handleExport : M S State unit :=
  (try_catch
     (Client.exportToExcel api)
     (fun err => console_error "Failed to export:" err))%js.

(** A rendered row: the next deadline and its badge (lines 354-356 and
    419-450). *)
Definition render_row (now : Z) (app : Application)
    : option (Deadline * (string * badge_text)) :=
  match getNextDeadline newDate app with
  | Some d => Some (d, deadlineBadge (getDaysUntilDeadline newDate now d))
  | None => None
  end.

Definition render_rows (now : Z) (st : State) :=
  map (render_row now) (filteredApps st).

(** The events of the page.  [Refilter] stands for the effect that runs
    [filterAndSortApplications]: it replaces [filteredApps] by a filtered,
    reordered copy [v] of [applications]. *)
Inductive Event : Type :=
| Mount
| ChangeSearchQuery (v : string)
| ChangeStatusFilter (v : string)
| ChangeSortBy (v : string)
| ChangeSortOrder (v : string)
| Refilter (v : list Application)
| ClickExport
| Render (now : Z).

Definition step (e : Event) (st : State) : M S State unit :=
  match e with
  | Mount => fetchApplications
  | ChangeSearchQuery v => set_state (setSearchQuery v)
  | ChangeStatusFilter v => set_state (setStatusFilter v)
  | ChangeSortBy v => set_state (setSortBy v)
  | ChangeSortOrder v => set_state (setSortOrder v)
  | Refilter v => set_state (setFilteredApps v)
  | ClickExport => handleExport
  | Render now => let _ := render_rows now st in ret tt
  end.

End Handlers.
End AllApplications.

(* ===================================================================== *)
(** ** pages/JobDetail.jsx *)
(* ===================================================================== *)

Module JobDetail.

(** [id] is the route parameter; the other fields are the [useState]
    cells of the component. *)
Record State : Type := mkState {
  id : Z;
  application : option Application;
  loading : bool;
  error : string;
  isEditingStatus : bool;
  newStatus : string;
  showNoteForm : bool;
  noteContent : string;
  editingNote : option Note;
  showDeadlineForm : bool;
  newDeadline : obj;
  editingDeadline : option Deadline
}.

Definition setApplication (v : option Application) (st : State) : State :=
  mkState (id st) v (loading st) (error st) (isEditingStatus st) (newStatus st) (showNoteForm st) (noteContent st) (editingNote st) (showDeadlineForm st) (newDeadline st) (editingDeadline st).
Definition setLoading (v : bool) (st : State) : State :=
  mkState (id st) (application st) v (error st) (isEditingStatus st) (newStatus st) (showNoteForm st) (noteContent st) (editingNote st) (showDeadlineForm st) (newDeadline st) (editingDeadline st).
Definition setError (v : string) (st : State) : State :=
  mkState (id st) (application st) (loading st) v (isEditingStatus st) (newStatus st) (showNoteForm st) (noteContent st) (editingNote st) (showDeadlineForm st) (newDeadline st) (editingDeadline st).
Definition setIsEditingStatus (v : bool) (st : State) : State :=
  mkState (id st) (application st) (loading st) (error st) v (newStatus st) (showNoteForm st) (noteContent st) (editingNote st) (showDeadlineForm st) (newDeadline st) (editingDeadline st).
Definition setNewStatus (v : string) (st : State) : State :=
  mkState (id st) (application st) (loading st) (error st) (isEditingStatus st) v (showNoteForm st) (noteContent st) (editingNote st) (showDeadlineForm st) (newDeadline st) (editingDeadline st).
Definition setShowNoteForm (v : bool) (st : State) : State :=
  mkState (id st) (application st) (loading st) (error st) (isEditingStatus st) (newStatus st) v (noteContent st) (editingNote st) (showDeadlineForm st) (newDeadline st) (editingDeadline st).
Definition setNoteContent (v : string) (st : State) : State :=
  mkState (id st) (application st) (loading st) (error st) (isEditingStatus st) (newStatus st) (showNoteForm st) v (editingNote st) (showDeadlineForm st) (newDeadline st) (editingDeadline st).
Definition setEditingNote (v : option Note) (st : State) : State :=
  mkState (id st) (application st) (loading st) (error st) (isEditingStatus st) (newStatus st) (showNoteForm st) (noteContent st) v (showDeadlineForm st) (newDeadline st) (editingDeadline st).
Definition setShowDeadlineForm (v : bool) (st : State) : State :=
  mkState (id st) (application st) (loading st) (error st) (isEditingStatus st) (newStatus st) (showNoteForm st) (noteContent st) (editingNote st) v (newDeadline st) (editingDeadline st).
Definition setNewDeadline (v : obj) (st : State) : State :=
  mkState (id st) (application st) (loading st) (error st) (isEditingStatus st) (newStatus st) (showNoteForm st) (noteContent st) (editingNote st) (showDeadlineForm st) v (editingDeadline st).

(** The deadline form as first rendered and after a successful add. *)
Definition empty_deadline_form : obj :=
  <["deadline_type" := VStr "application"]>
  (<["deadline_date" := VStr ""]>
  (<["description" := VStr ""]> ∅)).

Definition initial (id : Z) : State :=
  mkState id None true "" false "" false "" None false empty_deadline_form None.

(** The options of the deadline-type [select] (lines 768-773). *)
Inductive DeadlineTypeOption : Type :=
| OptApplication
| OptInterview
| OptAssessment
| OptFollowUp
| OptDecision
| OptOfferResponse.

Definition option_value (o : DeadlineTypeOption) : string :=
  match o with
  | OptApplication => "application"
  | OptInterview => "interview"
  | OptAssessment => "assessment"
  | OptFollowUp => "follow_up"
  | OptDecision => "decision"
  | OptOfferResponse => "offer_response"
  end.

(** The statuses offered by the status [select] (lines 596-602). *)
Definition status_options : list string :=
  ["Applied"; "Pending Interview"; "Interview"; "Interview Scheduled";
   "Offer"; "Offer Received"; "Rejected"].


(** The body of [api.updateDeadline] in [handleToggleDeadline]. *)
Definition toggle_payload (d : Deadline) : obj :=
  <["is_completed" := VBool (negb (is_completed d))]> ∅.


Section Handlers.
Context {S : Type} (api : Api S).
Variable newDate : value -> option Z.
Variable toISOString : Z -> string.

Definition fetchApplication (id : Z) : M S State unit :=
  (finally
     (try_catch
        (set_state (setLoading true);;
         data <- Client.getApplication api id;;
         set_state (setApplication (Some data));;
         set_state (setNewStatus (status data)))
        (fun err => set_state (setError err)))
     (set_state (setLoading false)))%js.

Definition handleUpdateStatus (st : State) : M S State unit :=
  (try_catch
     (_ <- Client.updateApplication api (id st) (<["status" := VStr (newStatus st)]> ∅);;
      set_state (setIsEditingStatus false);;
      fetchApplication (id st))
     (fun err => console_error "Failed to update status:" err))%js.

(** [confirmed] is the answer to the [confirm] dialog. *)
Definition handleDeleteApplication (confirmed : bool) (st : State) : M S State unit :=
  (if negb confirmed then ret tt
   else
     try_catch
       (Client.deleteApplication api (id st);;
        navigate "/applications")
       (fun err => console_error "Failed to delete application:" err))%js.

Definition handleAddNote (st : State) : M S State unit :=
  (if negb (truthy_str (trim (noteContent st))) then ret tt
   else
     try_catch
       (Client.createNote api (id st) (noteContent st);;
        set_state (setNoteContent "");;
        set_state (setShowNoteForm false);;
        fetchApplication (id st))
       (fun err => console_error "Failed to add note:" err))%js.

Definition handleUpdateNote (noteId : Z) (st : State) : M S State unit :=
  (if negb (truthy_str (trim (noteContent st))) then ret tt
   else
     try_catch
       (Client.updateNote api noteId (noteContent st);;
        set_state (setNoteContent "");;
        set_state (setEditingNote None);;
        fetchApplication (id st))
       (fun err => console_error "Failed to update note:" err))%js.

Definition handleDeleteNote (noteId : Z) (confirmed : bool) (st : State) : M S State unit :=
  (if negb confirmed then ret tt
   else
     try_catch
       (Client.deleteNote api noteId;;
        fetchApplication (id st))
       (fun err => console_error "Failed to delete note:" err))%js.

Definition handleAddDeadline (st : State) : M S State unit :=
  (if negb (truthy (newDeadline st !! "deadline_date")) then ret tt
   else
     try_catch
       (iso <- date_toISOString newDate toISOString (newDeadline st !! "deadline_date");;
        Client.createDeadline api (id st)
          (<["is_completed" := VBool false]>
           (<["deadline_date" := VStr iso]> (newDeadline st)));;
        set_state (setNewDeadline empty_deadline_form);;
        set_state (setShowDeadlineForm false);;
        fetchApplication (id st))
       (fun err => console_error "Failed to add deadline:" err))%js.

Definition handleToggleDeadline (deadline : Deadline) (st : State) : M S State unit :=
  (try_catch
     (Client.updateDeadline api (deadline_id deadline) (toggle_payload deadline);;
      fetchApplication (id st))
     (fun err => console_error "Failed to toggle deadline:" err))%js.

Definition handleDeleteDeadline (deadlineId : Z) (confirmed : bool) (st : State) : M S State unit :=
  (if negb confirmed then ret tt
   else
     try_catch
       (Client.deleteDeadline api deadlineId;;
        fetchApplication (id st))
       (fun err => console_error "Failed to delete deadline:" err))%js.

(** Rendering the deadline column (lines 797-802):
    [application.deadlines.sort(..)] reorders the array held in the state,
    then every deadline gets its [getDaysUntilDeadline]. *)
Definition sort_deadlines (app : Application) : Application :=
  mkApplication (app_id app) (company_name app) (position_title app) (job_url app)
    (location app) (salary app) (status app) (date_applied app)
    (match deadlines app with
     | Some ds => Some (js_sort (date_diff newDate) ds)
     | None => None
     end)
    (notes app).

Definition rendered_deadlines (now : Z) (st : State) : list (Deadline * option Z) :=
  match application st with
  | Some app =>
      map (fun d => (d, getDaysUntilDeadline newDate now d))
          (default [] (deadlines (sort_deadlines app)))
  | None => []
  end.

Definition render (now : Z) (st : State) : M S State unit :=
  if loading st then ret tt
  else if (truthy_str (error st) || negb (bool_decide (is_Some (application st))))%bool then ret tt
  else
    let _ := rendered_deadlines now st in
    set_state (fun u => setApplication (sort_deadlines <$> application u) u).

(** The events of the page: the mount effect, one event per control, and
    rendering at a given time. *)
Inductive Event : Type :=
| Mount
| ClickChangeStatus
| ChangeNewStatus (v : string)
| ClickSaveStatus
| ClickCancelStatus
| ClickDeleteApplication (confirmed : bool)
| ClickDeadlineForm
| ChangeDeadlineType (o : DeadlineTypeOption)
| ChangeDeadlineDate (v : string)
| ChangeDeadlineDescription (v : string)
| ClickAddDeadline
| ClickCancelDeadline
| ClickToggleDeadline (deadline : Deadline)
| ClickDeleteDeadline (deadlineId : Z) (confirmed : bool)
| ClickNoteForm
| ChangeNoteContent (v : string)
| ClickSubmitNote
| ClickCancelNote
| ClickEditNote (note : Note)
| ClickDeleteNote (noteId : Z) (confirmed : bool)
| Render (now : Z).

Definition step (e : Event) (st : State) : M S State unit :=
  (match e with
   | Mount => fetchApplication (id st)
   | ClickChangeStatus => set_state (setIsEditingStatus true)
   | ChangeNewStatus v => set_state (setNewStatus v)
   | ClickSaveStatus => handleUpdateStatus st
   | ClickCancelStatus => set_state (setIsEditingStatus false)
   | ClickDeleteApplication confirmed => handleDeleteApplication confirmed st
   | ClickDeadlineForm => set_state (setShowDeadlineForm (negb (showDeadlineForm st)))
   | ChangeDeadlineType o =>
       set_state (setNewDeadline (<["deadline_type" := VStr (option_value o)]> (newDeadline st)))
   | ChangeDeadlineDate v =>
       set_state (setNewDeadline (<["deadline_date" := VStr v]> (newDeadline st)))
   | ChangeDeadlineDescription v =>
       set_state (setNewDeadline (<["description" := VStr v]> (newDeadline st)))
   | ClickAddDeadline => handleAddDeadline st
   | ClickCancelDeadline => set_state (setShowDeadlineForm false)
   | ClickToggleDeadline deadline => handleToggleDeadline deadline st
   | ClickDeleteDeadline deadlineId confirmed => handleDeleteDeadline deadlineId confirmed st
   | ClickNoteForm =>
       set_state (setShowNoteForm (negb (showNoteForm st)));;
       set_state (setEditingNote None);;
       set_state (setNoteContent "")
   | ChangeNoteContent v => set_state (setNoteContent v)
   | ClickSubmitNote =>
       match editingNote st with
       | Some n => handleUpdateNote (note_id n) st
       | None => handleAddNote st
       end
   | ClickCancelNote =>
       set_state (setShowNoteForm false);;
       set_state (setEditingNote None);;
       set_state (setNoteContent "")
   | ClickEditNote note =>
       set_state (setEditingNote (Some note));;
       set_state (setNoteContent (note_content note));;
       set_state (setShowNoteForm false)
   | ClickDeleteNote noteId confirmed => handleDeleteNote noteId confirmed st
   | Render now => render now st
   end)%js.

(** The badge of a deadline in the deadline column (lines 832-836), shown
    while the deadline is not completed: class and text. *)
Definition deadline_badge (now : Z) (d : Deadline) : option (string * badge_text) :=
  if negb (is_completed d) then
    Some (match getDaysUntilDeadline newDate now d with
          | Some n =>
              ((if n <? 0 then "danger" else if n <=? 3 then "warning" else "info"),
               (if n <? 0 then Overdue else if n =? 0 then Today
                else if n =? 1 then Tomorrow else Days (Some n)))
          | None => ("info", Days None)
          end)
  else None.

End Handlers.
End JobDetail.

(* ===================================================================== *)
(** ** An in-memory backend *)
(* ===================================================================== *)

(** Modelled from the spec: the backend (request layer, Tracking Store,
    Activity Recorder and extraction pipeline) is not among the sources;
    this in-memory store follows sections 3, 4.3 and 4.4 of the
    specification: every mutation is one transaction that changes its rows,
    sets their updated timestamp and appends its entry to the activity
    history.  A failed request is answered with the message the [api]
    object throws.  The rows returned to the pages are those of the records
    above.  It is used to run the handlers on concrete inputs. *)
Module Store.

(** An entry of the activity history (section 3): append-only, ordered by
    creation time. *)
Record Activity : Type := mkActivity {
  activity_id : Z;
  activity_application : Z;
  activity_type : string;
  activity_description : string;
  activity_created_at : Z
}.

Record State : Type := mkState {
  apps : list Application;
  job_details : gmap Z obj;
  next_id : Z;
  (** the clock, in milliseconds since the epoch *)
  now : Z;
  (** the extraction capability: the candidate record found at a URL *)
  pages : gmap string obj;
  (** the activity history, oldest entry first *)
  activities : list Activity;
  (** the updated timestamp of the rows, by table and identifier *)
  updated_at : gmap (string * Z) Z
}.

Definition with_apps (v : list Application) (s : State) : State :=
  mkState v (job_details s) (next_id s) (now s) (pages s) (activities s) (updated_at s).
Definition with_job_details (v : gmap Z obj) (s : State) : State :=
  mkState (apps s) v (next_id s) (now s) (pages s) (activities s) (updated_at s).
Definition fresh (s : State) : State :=
  mkState (apps s) (job_details s) (next_id s + 1) (now s) (pages s) (activities s)
    (updated_at s).

(** The Activity Recorder (section 4.4), a step of the mutation itself: the
    entry takes the next identifier and the time of the transaction. *)
Definition record (application : Z) (kind description : string) (s : State) : State :=
  mkState (apps s) (job_details s) (next_id s + 1) (now s) (pages s)
    (activities s ++ [mkActivity (next_id s) application kind description (now s)])
    (updated_at s).

(** The updated timestamp of a row that is written, and of one that is
    removed. *)
Definition touch (table : string) (id : Z) (s : State) : State :=
  mkState (apps s) (job_details s) (next_id s) (now s) (pages s) (activities s)
    (<[(table, id) := now s]> (updated_at s)).
Definition forget (rows : list (string * Z)) (s : State) : State :=
  mkState (apps s) (job_details s) (next_id s) (now s) (pages s) (activities s)
    (foldr (fun row m => delete row m) (updated_at s) rows).

(** The end of a transaction: the next one happens later. *)
Definition commit (s : State) : State :=
  mkState (apps s) (job_details s) (next_id s) (now s + 1) (pages s) (activities s)
    (updated_at s).

Definition str_field (o : obj) (k : string) : option string :=
  match o !! k with
  | Some (VStr s) => Some s
  | _ => None
  end.

Definition bool_field (o : obj) (k : string) : option bool :=
  match o !! k with
  | Some (VBool b) => Some b
  | _ => None
  end.

Definition find_app (id : Z) (s : State) : option Application :=
  js_find (fun a => bool_decide (app_id a = id)) (apps s).

Definition map_app (id : Z) (f : Application -> Application) (s : State) : State :=
  with_apps (map (fun a => if decide (app_id a = id) then f a else a) (apps s)) s.

Definition with_deadlines (f : list Deadline -> list Deadline) (a : Application) : Application :=
  mkApplication (app_id a) (company_name a) (position_title a) (job_url a) (location a)
    (salary a) (status a) (date_applied a) (Some (f (default [] (deadlines a)))) (notes a).

Definition with_notes (f : list Note -> list Note) (a : Application) : Application :=
  mkApplication (app_id a) (company_name a) (position_title a) (job_url a) (location a)
    (salary a) (status a) (date_applied a) (deadlines a) (Some (f (default [] (notes a)))).

Definition all_deadlines (s : State) : list Deadline :=
  concat (map (fun a => default [] (deadlines a)) (apps s)).
Definition all_notes (s : State) : list Note :=
  concat (map (fun a => default [] (notes a)) (apps s)).

Definition find_deadline (id : Z) (s : State) : option Deadline :=
  js_find (fun d => bool_decide (deadline_id d = id)) (all_deadlines s).
Definition find_note (id : Z) (s : State) : option Note :=
  js_find (fun n => bool_decide (note_id n = id)) (all_notes s).

(** The application that owns a deadline or a note. *)
Definition deadline_owner (id : Z) (s : State) : option Z :=
  app_id <$> js_find (fun a => existsb (fun d => bool_decide (deadline_id d = id))
                                 (default [] (deadlines a))) (apps s).
Definition note_owner (id : Z) (s : State) : option Z :=
  app_id <$> js_find (fun a => existsb (fun n => bool_decide (note_id n = id))
                                 (default [] (notes a))) (apps s).

(** The rows owned by an application, for the cascade. *)
Definition rows_of (a : Application) : list (string * Z) :=
  ("applications", app_id a) :: ("job_details", app_id a)
  :: (map (fun d => ("deadlines", deadline_id d)) (default [] (deadlines a))
      ++ map (fun n => ("notes", note_id n)) (default [] (notes a)))%list.

Definition getApplications (s : State) : outcome (list Application) * State :=
  (Ok (apps s), s).

Definition getApplication (id : Z) (s : State) : outcome Application * State :=
  match find_app id s with
  | Some a => (Ok a, s)
  | None => (Err "Failed to fetch application", s)
  end.

(** Create Application: requires non-empty company name and position
    title; assigns the identifier and the timestamps; the status defaults to
    [Applied] and the date applied to the creation time; emits
    [application_created]. *)
Definition createApplication (data : obj) (s : State) : outcome Application * State :=
  match str_field data "company_name", str_field data "position_title" with
  | Some c, Some t =>
      if truthy_str c && truthy_str t then
        let a := mkApplication (next_id s) c t (str_field data "job_url")
                   (str_field data "location") (str_field data "salary")
                   (default "Applied" (str_field data "status"))
                   (default (Engine.toISOString (now s)) (str_field data "date_applied"))
                   (Some []) (Some []) in
        (Ok a,
         commit (record (app_id a) "application_created"
                   ("Application created for " +:+ t +:+ " at " +:+ c)
                   (touch "applications" (app_id a) (fresh (with_apps (apps s ++ [a]) s)))))
      else (Err "Failed to create application", s)
  | _, _ => (Err "Failed to create application", s)
  end.

(** Update Application: partial field update; a change of status emits
    [status_change], naming the old and the new status; other edits emit
    nothing. *)
Definition update_fields (data : obj) (a : Application) : Application :=
  mkApplication (app_id a)
    (default (company_name a) (str_field data "company_name"))
    (default (position_title a) (str_field data "position_title"))
    (match str_field data "job_url" with Some v => Some v | None => job_url a end)
    (match str_field data "location" with Some v => Some v | None => location a end)
    (match str_field data "salary" with Some v => Some v | None => salary a end)
    (default (status a) (str_field data "status"))
    (default (date_applied a) (str_field data "date_applied"))
    (deadlines a) (notes a).

Definition updateApplication (id : Z) (data : obj) (s : State) : outcome Application * State :=
  match find_app id s with
  | Some a =>
      let s' := touch "applications" id (map_app id (update_fields data) s) in
      (Ok (update_fields data a),
       commit (match str_field data "status" with
               | Some new =>
                   if bool_decide (new = status a) then s'
                   else record id "status_change"
                          ("Status changed from " +:+ status a +:+ " to " +:+ new) s'
               | None => s'
               end))
  | None => (Err "Failed to update application", s)
  end.

(** Delete Application: the owned rows and the activity history of the
    application go with it, in the same transaction. *)
Definition deleteApplication (id : Z) (s : State) : outcome unit * State :=
  match find_app id s with
  | Some _ =>
      (Ok tt,
       commit (forget (concat (map rows_of (filter (fun a => app_id a = id) (apps s))))
                 (mkState (filter (fun a => app_id a ≠ id) (apps s))
                    (delete id (job_details s)) (next_id s) (now s) (pages s)
                    (filter (fun r => activity_application r ≠ id) (activities s))
                    (updated_at s))))
  | None => (Err "Failed to delete application", s)
  end.

(** Job details: one per application; emits [details_added] the first time
    and [details_updated] afterwards. *)
Definition createJobDetails (id : Z) (data : obj) (s : State) : outcome unit * State :=
  match find_app id s with
  | Some _ =>
      (Ok tt,
       commit (record id
                 (if bool_decide (is_Some (job_details s !! id))
                  then "details_updated" else "details_added")
                 "Job details saved"
                 (touch "job_details" id (with_job_details (<[id := data]> (job_details s)) s))))
  | None => (Err "Failed to create job details", s)
  end.

(** Note CRUD: create and update require non-empty content; each operation
    emits the matching activity. *)
Definition createNote (id : Z) (content : string) (s : State) : outcome unit * State :=
  match find_app id s with
  | Some _ =>
      if truthy_str content then
        (Ok tt,
         commit (record id "note_added" ("Note added: " +:+ content)
                   (touch "notes" (next_id s)
                      (fresh (map_app id
                                (with_notes (fun ns =>
                                   (ns ++ [mkNote (next_id s) content
                                             (Engine.toISOString (now s))])%list)) s)))))
      else (Err "Failed to create note", s)
  | None => (Err "Failed to create note", s)
  end.

Definition map_notes (f : Note -> Note) (s : State) : State :=
  with_apps (map (fun a => match notes a with
                           | Some _ => with_notes (map f) a
                           | None => a
                           end) (apps s)) s.

Definition updateNote (noteId : Z) (content : string) (s : State) : outcome unit * State :=
  match find_note noteId s, note_owner noteId s with
  | Some _, Some owner =>
      if truthy_str content then
        (Ok tt,
         commit (record owner "note_updated" ("Note updated: " +:+ content)
                   (touch "notes" noteId
                      (map_notes (fun n => if decide (note_id n = noteId)
                                           then mkNote (note_id n) content (note_created_at n)
                                           else n) s))))
      else (Err "Failed to update note", s)
  | _, _ => (Err "Failed to update note", s)
  end.

Definition deleteNote (noteId : Z) (s : State) : outcome unit * State :=
  match find_note noteId s, note_owner noteId s with
  | Some n, Some owner =>
      (Ok tt,
       commit (record owner "note_deleted" ("Note deleted: " +:+ note_content n)
                 (forget [("notes", noteId)]
                    (with_apps (map (fun a => match notes a with
                                              | Some _ => with_notes (filter (fun n => note_id n ≠ noteId)) a
                                              | None => a
                                              end) (apps s)) s))))
  | _, _ => (Err "Failed to delete note", s)
  end.

(** Deadline CRUD: create requires a valid date-time and a type; the
    completion flag defaults to false; emits [deadline_added]. *)
Definition createDeadline (id : Z) (data : obj) (s : State) : outcome unit * State :=
  match find_app id s, str_field data "deadline_type", str_field data "deadline_date" with
  | Some _, Some ty, Some date =>
      if truthy_str ty && bool_decide (is_Some (Engine.newDate (VStr date))) then
        let d := mkDeadline (next_id s) ty date (str_field data "description")
                   (default false (bool_field data "is_completed")) in
        (Ok tt,
         commit (record id "deadline_added" ("Deadline added: " +:+ ty)
                   (touch "deadlines" (next_id s)
                      (fresh (map_app id (with_deadlines (fun ds => (ds ++ [d])%list)) s)))))
      else (Err "Failed to create deadline", s)
  | _, _, _ => (Err "Failed to create deadline", s)
  end.

(** Update Deadline: partial update; the completion flag becomes the one
    sent.  A change of the completion flag emits [deadline_completed] or
    [deadline_reopened], depending on direction. *)
Definition update_deadline (data : obj) (d : Deadline) : Deadline :=
  mkDeadline (deadline_id d)
    (default (deadline_type d) (str_field data "deadline_type"))
    (default (deadline_date d) (str_field data "deadline_date"))
    (match str_field data "description" with Some v => Some v | None => deadline_description d end)
    (default (is_completed d) (bool_field data "is_completed")).

Definition map_deadlines (f : Deadline -> Deadline) (s : State) : State :=
  with_apps (map (fun a => match deadlines a with
                           | Some _ => with_deadlines (map f) a
                           | None => a
                           end) (apps s)) s.

Definition completion_kind (completed : bool) : string :=
  if completed then "deadline_completed" else "deadline_reopened".

Definition updateDeadline (deadlineId : Z) (data : obj) (s : State) : outcome unit * State :=
  match find_deadline deadlineId s, deadline_owner deadlineId s with
  | Some d, Some owner =>
      let s' := touch "deadlines" deadlineId
                  (map_deadlines (fun x => if decide (deadline_id x = deadlineId)
                                           then update_deadline data x else x) s) in
      (Ok tt,
       commit (match bool_field data "is_completed" with
               | Some completed =>
                   if bool_decide (completed = is_completed d) then s'
                   else record owner (completion_kind completed)
                          ("Deadline " +:+ deadline_type d) s'
               | None => s'
               end))
  | _, _ => (Err "Failed to update deadline", s)
  end.

Definition deleteDeadline (deadlineId : Z) (s : State) : outcome unit * State :=
  match find_deadline deadlineId s, deadline_owner deadlineId s with
  | Some d, Some owner =>
      (Ok tt,
       commit (record owner "deadline_deleted" ("Deadline deleted: " +:+ deadline_type d)
                 (forget [("deadlines", deadlineId)]
                    (with_apps (map (fun a => match deadlines a with
                                              | Some _ => with_deadlines (filter (fun d => deadline_id d ≠ deadlineId)) a
                                              | None => a
                                              end) (apps s)) s))))
  | _, _ => (Err "Failed to delete deadline", s)
  end.

(** Scrape: the candidate record of the page, or a failure. *)
Definition scrapeUrl (url : string) (s : State) : outcome obj * State :=
  match pages s !! url with
  | Some candidate => (Ok candidate, s)
  | None => (Err "Failed to scrape URL", s)
  end.

Definition exportToExcel (s : State) : outcome unit * State := (Ok tt, s).

Definition api : Api State :=
  Build_Api State getApplications getApplication createApplication updateApplication
    deleteApplication createJobDetails createNote updateNote deleteNote
    createDeadline updateDeadline deleteDeadline scrapeUrl exportToExcel.

(** The clock of the examples: 1 January 2025, 00:00 UTC. *)
Definition new_year : Z := 1735689600000.

Definition empty : State := mkState [] ∅ 1 new_year ∅ [] ∅.

End Store.

(** A fresh world: nothing sent, nothing navigated, nothing printed. *)
Definition start {S U : Type} (s : S) (u : U) : world S U := World s [] u [] [].


(* ===================================================================== *)
(** ** Concrete inputs *)
(* ===================================================================== *)

Module Examples.

(** The application form filled with a company and a title. *)
Definition acme_form : obj :=
  <["company_name" := VStr "Acme"]> (<["position_title" := VStr "Engineer"]> ∅).

Definition form_page (sd : option obj) : Dashboard.Page :=
  Dashboard.mkPage (Dashboard.mkState [] true None)
    (ApplicationModal.mkState "" false sd "").

(** A form whose title is still empty. *)
Definition untitled_form : obj :=
  <["company_name" := VStr "Acme"]> (<["position_title" := VStr ""]> ∅).

(** A posting whose extraction found a deadline, and one without. *)
Definition posting : obj :=
  <["company_name" := VStr "TechCorp"]>
  (<["position_title" := VStr "Senior Software Engineer"]>
  (<["application_deadline" := VStr "2025-02-01"]> ∅)).

Definition posting_without_deadline : obj :=
  <["company_name" := VStr "TechCorp"]>
  (<["position_title" := VStr "Senior Software Engineer"]>
  (<["application_deadline" := VNull]> ∅)).

Definition job_link : string := "https://example.com/job".

(** A backend that can extract the page at [job_link]. *)
Definition store_with_page (candidate : obj) : Store.State :=
  Store.mkState [] ∅ 1 Store.new_year {[ job_link := candidate ]} [] ∅.

(** The home page with [job_link] typed in. *)
Definition home_page : Home.State := Home.setUrl job_link Home.initial.

(** The modal with [job_link] typed in. *)
Definition scrape_page : Dashboard.Page :=
  Dashboard.mkPage (Dashboard.mkState [] true None)
    (ApplicationModal.mkState job_link false None "").

(** An application with two open deadlines, stored with the later one
    first. *)
Definition march : Deadline :=
  mkDeadline 11 "interview" "2025-03-01T00:00:00" None false.
Definition january : Deadline :=
  mkDeadline 12 "application" "2025-01-01T00:00:00" None false.

Definition tracked : Application :=
  mkApplication 1 "Acme" "Engineer" None None None "Applied" "2024-12-01T00:00:00"
    (Some [march; january]) (Some []).

(** Another application, with one open deadline in February. *)
Definition february : Deadline :=
  mkDeadline 13 "assessment" "2025-02-01T00:00:00" None false.

Definition other : Application :=
  mkApplication 2 "Globex" "Analyst" None None None "Applied" "2024-12-02T00:00:00"
    (Some [february]) (Some []).

Definition tracking_store : Store.State :=
  Store.mkState [tracked] ∅ 20 Store.new_year ∅ [] ∅.

(** The detail page of [tracked], loaded. *)
Definition job_page : JobDetail.State :=
  JobDetail.setLoading false
    (JobDetail.setNewStatus "Applied"
       (JobDetail.setApplication (Some tracked) (JobDetail.initial 1))).


End Examples.

(** Further inputs. *)
Module MoreExamples.

(** The home page with only spaces typed in. *)
Definition blank_home : Home.State := Home.setUrl "   " Home.initial.

(** A posting with a description, and one whose deadline is not a date. *)
Definition described_posting : obj :=
  <["description" := VStr "Build things"]> Examples.posting.

Definition vague_posting : obj :=
  <["application_deadline" := VStr "soon"]> Examples.posting.

(** A backend that extracts a posting nobody can store: no company. *)
Definition nameless_posting : obj :=
  <["position_title" := VStr "Engineer"]> ∅.

(** Applications on the board. *)
Definition applied : Application :=
  mkApplication 3 "Initech" "Developer" None (Some "Leeds") None "Applied"
    "2024-12-03T00:00:00" (Some []) (Some []).

Definition interviewing : Application :=
  mkApplication 4 "Hooli" "Engineer" None None None "Interview"
    "2024-12-04T00:00:00" (Some []) (Some []).

Definition board_store : Store.State :=
  Store.mkState [applied; interviewing] ∅ 20 Store.new_year ∅ [] ∅.

Definition board_page : Dashboard.Page :=
  Dashboard.mkPage (Dashboard.mkState [applied; interviewing] false None)
    ApplicationModal.initial.

(** A detail page whose application does not exist. *)
Definition missing_page : JobDetail.State := JobDetail.initial 99.

(** The in-memory backend with its job-details endpoint down. *)
Definition details_down : Api Store.State :=
  Build_Api Store.State Store.getApplications Store.getApplication Store.createApplication
    Store.updateApplication Store.deleteApplication
    (fun _ _ s => (Err "Failed to create job details", s))
    Store.createNote Store.updateNote Store.deleteNote
    Store.createDeadline Store.updateDeadline Store.deleteDeadline
    Store.scrapeUrl Store.exportToExcel.

(** The in-memory backend with its deadline endpoint down. *)
Definition deadlines_down : Api Store.State :=
  Build_Api Store.State Store.getApplications Store.getApplication Store.createApplication
    Store.updateApplication Store.deleteApplication Store.createJobDetails
    Store.createNote Store.updateNote Store.deleteNote
    (fun _ _ s => (Err "Failed to create deadline", s))
    Store.updateDeadline Store.deleteDeadline
    Store.scrapeUrl Store.exportToExcel.

(** Twelve applications with one open deadline each, due from 1 to 12
    February 2025; the one due last was added first. *)
Definition due (day : Z) (date : string) : Deadline :=
  mkDeadline (100 + day) "application" date None false.

Definition applicant (day : Z) (date : string) : Application :=
  mkApplication (200 + day) "Company" "Role" None None None "Applied"
    "2025-01-01T00:00:00" (Some [due day date]) (Some []).

Definition crowd : list Application :=
  [applicant 12 "2025-02-12T00:00:00"; applicant 1 "2025-02-01T00:00:00";
   applicant 2 "2025-02-02T00:00:00"; applicant 3 "2025-02-03T00:00:00";
   applicant 4 "2025-02-04T00:00:00"; applicant 5 "2025-02-05T00:00:00";
   applicant 6 "2025-02-06T00:00:00"; applicant 7 "2025-02-07T00:00:00";
   applicant 8 "2025-02-08T00:00:00"; applicant 9 "2025-02-09T00:00:00";
   applicant 10 "2025-02-10T00:00:00"; applicant 11 "2025-02-11T00:00:00"].

(** The in-memory backend refusing every change. *)
Definition read_only : Api Store.State :=
  Build_Api Store.State Store.getApplications Store.getApplication
    (fun _ s => (Err "Failed to create application", s))
    (fun _ _ s => (Err "Failed to update application", s))
    (fun _ s => (Err "Failed to delete application", s))
    (fun _ _ s => (Err "Failed to create job details", s))
    (fun _ _ s => (Err "Failed to create note", s))
    (fun _ _ s => (Err "Failed to update note", s))
    (fun _ s => (Err "Failed to delete note", s))
    (fun _ _ s => (Err "Failed to create deadline", s))
    (fun _ _ s => (Err "Failed to update deadline", s))
    (fun _ s => (Err "Failed to delete deadline", s))
    Store.scrapeUrl Store.exportToExcel.

End MoreExamples.

(* ===================================================================== *)
(** * Proofs *)
(* ===================================================================== *)

(** ** Running handlers symbolically *)

Lemma sent_app {S U V} (w : world S U) (w' : world S V) l :
  log w' = (log w ++ l)%list -> sent w w' = l.
Proof. intros H. unfold sent. rewrite H. by rewrite drop_app_length. Qed.

Lemma sent_none {S U V} (w : world S U) (w' : world S V) :
  log w' = log w -> sent w w' = [].
Proof. intros H. apply sent_app. by rewrite app_nil_r. Qed.

Lemma sent_refl {S U} (w : world S U) : sent w w = [].
Proof. by apply sent_none. Qed.

(** Unfolds the monad; [run] then splits on every answer of the backend
    and on every test, leaving one goal per path through the handler. *)
Ltac unfold_monad :=
  unfold fire, run_handler, date_toISOString,
    Client.getApplications, Client.getApplication, Client.createApplication,
    Client.updateApplication, Client.deleteApplication, Client.createJobDetails,
    Client.createNote, Client.updateNote, Client.deleteNote, Client.createDeadline,
    Client.updateDeadline, Client.deleteDeadline, Client.scrapeUrl, Client.exportToExcel in *;
  unfold when in *;
  unfold bind, ret, throw, try_catch, finally, set_state, navigate,
    console_error, call in *.

Ltac world_simpl := cbn beta iota zeta delta [srv log ui route console fst snd] in *.

Ltac no_match x :=
  lazymatch x with
  | context [match _ with _ => _ end] => fail
  | context [let (_, _) := _ in _] => fail
  | context [if _ then _ else _] => fail
  | _ => idtac
  end.

Ltac split_step :=
  match goal with
  | |- context [let (_, _) := ?x in _] =>
      no_match x; let E := fresh "E" in destruct x as [[?|?] ?] eqn:E
  | |- context [if ?b then _ else _] =>
      no_match b; let E := fresh "E" in destruct b eqn:E
  | |- context [match ?o with Some _ => _ | None => _ end] =>
      no_match o; let E := fresh "E" in destruct o eqn:E
  end.

Ltac run := unfold_monad; world_simpl; repeat (split_step; world_simpl).

(** Computes [sent w w'] once [log w'] is [log w] followed by requests. *)
Ltac sent_eval :=
  first [ rewrite sent_none by reflexivity
        | erewrite sent_app by (rewrite <- ?app_assoc; reflexivity) ].

(** Inverts membership in an explicit list of requests. *)
Ltac elem_inv :=
  repeat match goal with
         | H : _ ∈ [] |- _ => by apply elem_of_nil in H
         | H : _ ∈ (_ ++ _)%list |- _ => apply elem_of_app in H; destruct H as [H|H]
         | H : _ ∈ (_ :: _) |- _ => apply elem_of_cons in H; destruct H as [H|H]
         | H : @eq request ?x _ |- _ =>
             first [discriminate H | is_var x; subst x | injection H as ?; subst]
         end.

Lemma truthy_str_trim (s : string) : truthy_str (trim s) = negb (blank s).
Proof.
  unfold truthy_str, trim. induction s as [|a s IH]; [done|].
  cbn [trimStart blank]. destruct (is_white_space a) eqn:Ea; [done|].
  cbn [andb negb]. cbn [trimEnd]. destruct (trimEnd s); [by rewrite Ea|done].
Qed.

(** ** The application form (ApplicationModal and Dashboard) *)

Section Form.
Context {S : Type} (api : Api S) (toISOString : Z -> string).

Local Abbreviation step := (Dashboard.step api toISOString).

(** C1.  A save attempt from the application form with an empty company
    name or an empty position title is rejected: nothing is sent, the
    backend is untouched and the form shows "Company name and position
    title are required".  With both filled in, exactly one request is sent:
    when no application is being edited it is the create request, carrying
    every field of the form, the status of the form or [Applied], and the
    date applied; when one is being edited it is the update request. *)
Theorem handleSave_requires_company_and_title (now : Z) (w : world S Dashboard.Page) :
  let sd := ApplicationModal.scrapedData (Dashboard.modal (ui w)) in
  let w' := fire step (Dashboard.ClickSave now) w in
  (truthy (ApplicationModal.field sd "company_name") = false
   ∨ truthy (ApplicationModal.field sd "position_title") = false ->
   sent w w' = []
   ∧ srv w' = srv w
   ∧ ui w' = Dashboard.in_modal
               (ApplicationModal.setError "Company name and position title are required")
               (ui w))
  ∧ (forall d,
       sd = Some d ->
       truthy (d !! "company_name") = true ->
       truthy (d !! "position_title") = true ->
       match Dashboard.editingApp (Dashboard.dashboard (ui w)) with
       | None =>
           exists body,
             sent w w' = [CreateApplication body]
             ∧ body !! "status" = Some (js_or (d !! "status") (VStr "Applied"))
             ∧ body !! "date_applied" = Some (VStr (toISOString now))
             ∧ forall k, k ≠ "status" -> k ≠ "date_applied" -> body !! k = d !! k
       | Some editing =>
           exists body,
             sent w w' = [UpdateApplication (app_id editing) body]
             ∧ body !! "status" = Some (js_or (d !! "status") (VStr "Applied"))
             ∧ forall k, k ≠ "status" -> body !! k = d !! k
       end).
Proof.
  intros sd w'. subst w'. split.
  - intros H.
    assert (Hc : (negb (truthy (ApplicationModal.field sd "company_name"))
                 || negb (truthy (ApplicationModal.field sd "position_title")))%bool = true).
    { destruct H as [-> | ->]; simpl; [done | by rewrite orb_true_r]. }
    unfold fire, run_handler. cbn [Dashboard.step].
    unfold Dashboard.modal_handleSave, ApplicationModal.handleSave.
    fold sd. rewrite Hc. unfold_monad. world_simpl. split; [|done].
    by sent_eval.
  - intros d Hd Hc Ht.
    unfold fire, run_handler. cbn [Dashboard.step].
    unfold Dashboard.modal_handleSave, ApplicationModal.handleSave.
    fold sd. rewrite Hd. cbn [ApplicationModal.field mbind option_bind].
    rewrite Hc, Ht. cbn [negb orb].
    unfold Dashboard.handleSaveApplication, ApplicationModal.handleClose,
      Dashboard.handleCloseModal.
    destruct (Dashboard.editingApp (Dashboard.dashboard (ui w))) as [editing|].
    + eexists. split; [|split].
      * run; sent_eval; reflexivity.
      * by rewrite lookup_insert_eq.
      * intros k Hk. by rewrite lookup_insert_ne.
    + eexists. split; [|split; [|split]].
      * run; sent_eval; reflexivity.
      * rewrite lookup_insert_ne by done. by rewrite lookup_insert_eq.
      * by rewrite lookup_insert_eq.
      * intros k Hk1 Hk2. rewrite lookup_insert_ne by done. by rewrite lookup_insert_ne.
Qed.

(** The create requests a save sends carry the status of the form, or
    [Applied] when the form has none. *)
Lemma handleSave_status (now : Z) (w : world S Dashboard.Page) (body : obj) :
  CreateApplication body ∈ sent w (fire step (Dashboard.ClickSave now) w) ->
  exists d,
    ApplicationModal.scrapedData (Dashboard.modal (ui w)) = Some d
    ∧ body !! "status" = Some (js_or (d !! "status") (VStr "Applied"))
    ∧ (truthy (d !! "status") = false -> body !! "status" = Some (VStr "Applied")).
Proof.
  unfold fire, run_handler. cbn [Dashboard.step].
  unfold Dashboard.modal_handleSave, ApplicationModal.handleSave,
    Dashboard.handleSaveApplication, ApplicationModal.handleClose,
    Dashboard.handleCloseModal.
  destruct (ApplicationModal.scrapedData (Dashboard.modal (ui w))) as [d|] eqn:Hd.
  2:{ cbn. unfold_monad. world_simpl. sent_eval. intros H. elem_inv. }
  destruct (Dashboard.editingApp (Dashboard.dashboard (ui w))) as [editing|];
    run; sent_eval; intros H; elem_inv.
  all: exists d; split; [done|].
  all: rewrite lookup_insert_ne by done; rewrite lookup_insert_eq; split; [done|].
  all: intros Hs; unfold js_or; rewrite Hs; by destruct (d !! "status").
Qed.

End Form.

(** Witness of C1: the form of Acme is saved, the form without a title is
    rejected. *)
Lemma handleSave_requires_company_and_title_witness :
  (exists body,
     sent (start Store.empty (Examples.form_page (Some Examples.acme_form)))
       (fire (Dashboard.step Store.api Engine.toISOString) (Dashboard.ClickSave 0)
          (start Store.empty (Examples.form_page (Some Examples.acme_form))))
     = [CreateApplication body]
     ∧ body !! "status" = Some (VStr "Applied")
     ∧ body !! "date_applied" = Some (VStr "1970-01-01T00:00:00.000Z")
     ∧ forall k, k ≠ "status" -> k ≠ "date_applied" -> body !! k = Examples.acme_form !! k)
  ∧ sent (start Store.empty (Examples.form_page (Some Examples.untitled_form)))
       (fire (Dashboard.step Store.api Engine.toISOString) (Dashboard.ClickSave 0)
          (start Store.empty (Examples.form_page (Some Examples.untitled_form))))
     = [].
Proof.
  split.
  - exact (proj2 (handleSave_requires_company_and_title Store.api Engine.toISOString 0
             (start Store.empty (Examples.form_page (Some Examples.acme_form))))
             Examples.acme_form eq_refl eq_refl eq_refl).
  - exact (proj1 (proj1 (handleSave_requires_company_and_title Store.api Engine.toISOString 0
             (start Store.empty (Examples.form_page (Some Examples.untitled_form))))
             (or_intror eq_refl))).
Defined.

(** ** The home page: scrape and create *)

Section Scrape.
Context {S : Type} (api : Api S).
Context (newDate : value -> option Z) (toISOString : Z -> string).

Local Abbreviation step := (Home.step api newDate toISOString).

(** The deadline requests of the scrape-and-create flow: each comes from a
    truthy [application_deadline] of the scrape result that is a valid
    date. *)
Lemma handleScrape_createDeadline (w : world S Home.State) (appId : Z) (body : obj) :
  CreateDeadline appId body ∈ sent w (fire step Home.SubmitScrape w) ->
  exists jobData s1 v t,
    api_scrapeUrl api (Home.url (ui w)) (srv w) = (Ok jobData, s1)
    ∧ jobData !! "application_deadline" = Some v
    ∧ truthy (Some v) = true
    ∧ newDate v = Some t
    ∧ body = Home.deadline_payload (toISOString t).
Proof.
  unfold fire, run_handler. cbn [Home.step]. unfold Home.handleScrape.
  run; sent_eval; intros Hin; elem_inv.
  all: match goal with
       | H : ?a !! "application_deadline" ≫= newDate = Some ?z |- _ =>
           destruct (a !! "application_deadline") as [v|] eqn:Ev;
           cbn in H; [|discriminate H]; exists a; eexists; exists v, z
       end.
  all: split; [reflexivity|]; repeat (split; [done|]); reflexivity.
Qed.

(** C2.  A create-deadline request is sent by the scrape-and-create flow
    only when the scrape returned a truthy [application_deadline] that is a
    valid date, and then with type [application] and that date in ISO form;
    when the field is absent (or [null]) no deadline is created. *)
Theorem scrape_deadline_only_when_returned (w : world S Home.State) :
  let w' := fire step Home.SubmitScrape w in
  (forall appId body,
     CreateDeadline appId body ∈ sent w w' ->
     exists jobData s1 v t,
       api_scrapeUrl api (Home.url (ui w)) (srv w) = (Ok jobData, s1)
       ∧ jobData !! "application_deadline" = Some v
       ∧ truthy (Some v) = true
       ∧ newDate v = Some t
       ∧ body = Home.deadline_payload (toISOString t)
       ∧ body !! "deadline_type" = Some (VStr "application")
       ∧ body !! "deadline_date" = Some (VStr (toISOString t)))
  ∧ (forall jobData s1,
       api_scrapeUrl api (Home.url (ui w)) (srv w) = (Ok jobData, s1) ->
       truthy (jobData !! "application_deadline") = false ->
       forall r, r ∈ sent w w' -> is_create_deadline r = false).
Proof.
  intros w'. split.
  - intros appId body Hin.
    destruct (handleScrape_createDeadline w appId body Hin)
      as (jobData & s1 & v & t & Hs & Hv & Ht & Hd & ->).
    exists jobData, s1, v, t. by repeat (split; [done|]).
  - intros jobData s1 Hs Hf r Hr.
    destruct r; try done.
    destruct (handleScrape_createDeadline w _ _ Hr) as (jd & s1' & v & t & Hs' & Hv & Ht & _).
    rewrite Hs in Hs'. injection Hs' as <- <-. rewrite Hv in Hf. congruence.
Qed.

(** The create request of the scrape-and-create flow has status
    [Applied], whatever was extracted. *)
Lemma application_payload_status (jobData : obj) (u : string) :
  Home.application_payload jobData u !! "status" = Some (VStr "Applied").
Proof.
  unfold Home.application_payload, set_prop.
  repeat match goal with
         | |- context [match ?o with Some _ => _ | None => _ end] => destruct o
         end;
    by simplify_map_eq.
Qed.

(** C5.  An application created without an explicit status has status
    [Applied].  Once the posting is extracted, the scrape-and-create flow
    sends its create request, and sends it with status [Applied] whatever
    the extraction returned.  A save of a valid form that edits no
    application sends one create request, with the status of the form data,
    which is [Applied] when the form data has none.  Neither sends a create
    request with another status. *)
Theorem created_status_defaults_to_Applied :
  (forall (w : world S Home.State) jobData s1,
     blank (Home.url (ui w)) = false ->
     api_scrapeUrl api (Home.url (ui w)) (srv w) = (Ok jobData, s1) ->
     exists body rest,
       sent w (fire step Home.SubmitScrape w)
       = ScrapeUrl (Home.url (ui w)) :: CreateApplication body :: rest
       ∧ body = Home.application_payload jobData (Home.url (ui w))
       ∧ body !! "status" = Some (VStr "Applied"))
  ∧ (forall now (w : world S Dashboard.Page) d,
       ApplicationModal.scrapedData (Dashboard.modal (ui w)) = Some d ->
       truthy (d !! "company_name") = true ->
       truthy (d !! "position_title") = true ->
       Dashboard.editingApp (Dashboard.dashboard (ui w)) = None ->
       exists body,
         sent w (fire (Dashboard.step api toISOString) (Dashboard.ClickSave now) w)
         = [CreateApplication body]
         ∧ body !! "status" = Some (js_or (d !! "status") (VStr "Applied"))
         ∧ (truthy (d !! "status") = false -> body !! "status" = Some (VStr "Applied")))
  ∧ (forall (w : world S Home.State) body,
       CreateApplication body ∈ sent w (fire step Home.SubmitScrape w) ->
       body !! "status" = Some (VStr "Applied"))
  ∧ (forall now (w : world S Dashboard.Page) body,
       CreateApplication body
         ∈ sent w (fire (Dashboard.step api toISOString) (Dashboard.ClickSave now) w) ->
       exists d,
         ApplicationModal.scrapedData (Dashboard.modal (ui w)) = Some d
         ∧ body !! "status" = Some (js_or (d !! "status") (VStr "Applied"))
         ∧ (truthy (d !! "status") = false -> body !! "status" = Some (VStr "Applied"))).
Proof.
  split; [|split; [|split]].
  - intros w jobData s1 Hb Hs. unfold fire, run_handler. cbn [Home.step].
    unfold Home.handleScrape. rewrite truthy_str_trim, Hb. cbn [negb].
    unfold_monad. world_simpl. rewrite Hs. world_simpl.
    repeat (split_step; world_simpl).
    all: eexists _, _; split; [sent_eval; reflexivity|].
    all: split; [reflexivity|apply application_payload_status].
  - intros now w d Hd Hc Ht He. unfold fire, run_handler. cbn [Dashboard.step].
    unfold Dashboard.modal_handleSave, ApplicationModal.handleSave.
    rewrite Hd. cbn [ApplicationModal.field mbind option_bind].
    rewrite Hc, Ht. cbn [negb orb].
    unfold Dashboard.handleSaveApplication, ApplicationModal.handleClose,
      Dashboard.handleCloseModal.
    rewrite He.
    assert (Hst : (<["date_applied" := VStr (toISOString now)]>
                     (<["status" := js_or (d !! "status") (VStr "Applied")]> d) : obj)
                  !! "status" = Some (js_or (d !! "status") (VStr "Applied"))).
    { rewrite lookup_insert_ne by done. by rewrite lookup_insert_eq. }
    eexists. split; [run; sent_eval; reflexivity|]. split; [exact Hst|].
    intros Hs. rewrite Hst. unfold js_or. rewrite Hs. by destruct (d !! "status").
  - intros w body. unfold fire, run_handler. cbn [Home.step]. unfold Home.handleScrape.
    run; sent_eval; intros Hin; elem_inv.
    all: apply application_payload_status.
  - intros now w body. apply handleSave_status.
Qed.

(** C3, as amended.  When the scrape fails, neither caller sends a creation
    request and both put the message on display.  The application form
    appends ". You can still add manually." and opens the field form with
    the URL as [job_url] and every other field empty.  The home page keeps
    the URL in its input and renders no field form. *)
Theorem scrape_failure_fallback :
  (forall (w : world S Home.State) e s1,
     truthy_str (trim (Home.url (ui w))) = true ->
     api_scrapeUrl api (Home.url (ui w)) (srv w) = (Err e, s1) ->
     let w' := fire step Home.SubmitScrape w in
     sent w w' = [ScrapeUrl (Home.url (ui w))]
     ∧ Home.error (ui w') = e
     ∧ Home.url (ui w') = Home.url (ui w)
     ∧ entry_form (Home.view (ui w')) = None
     ∧ route w' = route w)
  ∧ (forall (w : world S Dashboard.Page) e s1,
       let u := ApplicationModal.jobUrl (Dashboard.modal (ui w)) in
       truthy_str (trim u) = true ->
       api_scrapeUrl api u (srv w) = (Err e, s1) ->
       let w' := fire (Dashboard.step api toISOString) Dashboard.ClickScrapeJob w in
       sent w w' = [ScrapeUrl u]
       ∧ ApplicationModal.error (Dashboard.modal (ui w')) = e +:+ ". You can still add manually."
       ∧ entry_form (ApplicationModal.view (Dashboard.modal (ui w'))) = Some (manual_form u)
       ∧ manual_form u !! "job_url" = Some (VStr u)
       ∧ forall k, k ∈ ["company_name"; "position_title"; "location"; "salary";
                        "description"; "requirements"; "notes"] ->
                   manual_form u !! k = Some (VStr "")).
Proof.
  split.
  - intros w e s1 Hu He w'. subst w'. unfold fire, run_handler. cbn [Home.step].
    unfold Home.handleScrape. rewrite Hu. cbn [negb].
    unfold_monad. world_simpl. rewrite He. world_simpl.
    repeat split; try done. by sent_eval.
  - intros w e s1 u Hu He w'. subst w'. unfold fire, run_handler. cbn [Dashboard.step].
    unfold Dashboard.modal_handleScrapeUrl, ApplicationModal.handleScrapeUrl.
    fold u. rewrite Hu. cbn [negb].
    unfold_monad. world_simpl. rewrite He. world_simpl.
    repeat split; try done.
    + by sent_eval.
    + intros k Hk. unfold manual_form. elem_inv; subst; by simplify_map_eq.
Qed.

End Scrape.

(** Witness of C2: the posting with a deadline creates it, as
    [2025-02-01T00:00:00.000Z]; the posting without one creates none. *)
Lemma scrape_deadline_only_when_returned_witness :
  (exists jobData s1 v t,
     api_scrapeUrl Store.api Examples.job_link (Examples.store_with_page Examples.posting)
       = (Ok jobData, s1)
     ∧ jobData !! "application_deadline" = Some v
     ∧ truthy (Some v) = true
     ∧ Engine.newDate v = Some t
     ∧ Home.deadline_payload "2025-02-01T00:00:00.000Z"
       = Home.deadline_payload (Engine.toISOString t)
     ∧ Home.deadline_payload "2025-02-01T00:00:00.000Z" !! "deadline_type"
       = Some (VStr "application")
     ∧ Home.deadline_payload "2025-02-01T00:00:00.000Z" !! "deadline_date"
       = Some (VStr (Engine.toISOString t)))
  ∧ forall r,
      r ∈ sent (start (Examples.store_with_page Examples.posting_without_deadline)
                  Examples.home_page)
            (fire (Home.step Store.api Engine.newDate Engine.toISOString) Home.SubmitScrape
               (start (Examples.store_with_page Examples.posting_without_deadline)
                  Examples.home_page)) ->
      is_create_deadline r = false.
Proof.
  split.
  - apply (proj1 (scrape_deadline_only_when_returned Store.api Engine.newDate
                    Engine.toISOString
                    (start (Examples.store_with_page Examples.posting) Examples.home_page))
             1 (Home.deadline_payload "2025-02-01T00:00:00.000Z")).
    apply (list_elem_of_lookup_2 _ 2%nat). reflexivity.
  - exact (proj2 (scrape_deadline_only_when_returned Store.api Engine.newDate
                    Engine.toISOString
                    (start (Examples.store_with_page Examples.posting_without_deadline)
                       Examples.home_page))
             Examples.posting_without_deadline
             (Examples.store_with_page Examples.posting_without_deadline)
             eq_refl eq_refl).
Defined.

(** Witness of C5: the scrape-and-create flow on the posting of TechCorp
    and the save of the form of Acme, which has no status, each send a
    create request with status [Applied]. *)
Lemma created_status_defaults_to_Applied_witness :
  (exists body rest,
     sent (start (Examples.store_with_page Examples.posting) Examples.home_page)
       (fire (Home.step Store.api Engine.newDate Engine.toISOString) Home.SubmitScrape
          (start (Examples.store_with_page Examples.posting) Examples.home_page))
     = ScrapeUrl Examples.job_link :: CreateApplication body :: rest
     ∧ body = Home.application_payload Examples.posting Examples.job_link
     ∧ body !! "status" = Some (VStr "Applied"))
  ∧ (exists body,
       sent (start Store.empty (Examples.form_page (Some Examples.acme_form)))
         (fire (Dashboard.step Store.api Engine.toISOString) (Dashboard.ClickSave 0)
            (start Store.empty (Examples.form_page (Some Examples.acme_form))))
       = [CreateApplication body]
       ∧ body !! "status" = Some (VStr "Applied")).
Proof.
  split.
  - exact (proj1 (created_status_defaults_to_Applied Store.api Engine.newDate
                    Engine.toISOString)
             (start (Examples.store_with_page Examples.posting) Examples.home_page)
             Examples.posting _ eq_refl eq_refl).
  - destruct (proj1 (proj2 (created_status_defaults_to_Applied Store.api Engine.newDate
                              Engine.toISOString)) 0
                (start Store.empty (Examples.form_page (Some Examples.acme_form)))
                Examples.acme_form eq_refl eq_refl eq_refl eq_refl)
      as (body & Hsent & _ & Happlied).
    exists body. split; [exact Hsent|exact (Happlied eq_refl)].
Defined.

(** C3, as stated, fails on the home page: the scrape of [job_link] fails,
    the message is shown, nothing is created, but the page has no
    manual-entry form to fall back to. *)
Lemma home_scrape_failure_has_no_manual_form :
  api_scrapeUrl Store.api Examples.job_link Store.empty
    = (Err "Failed to scrape URL", Store.empty)
  ∧ ¬ falls_back_to_manual_entry Examples.job_link "Failed to scrape URL"
        (sent (start Store.empty Examples.home_page)
           (fire (Home.step Store.api Engine.newDate Engine.toISOString) Home.SubmitScrape
              (start Store.empty Examples.home_page)))
        (Home.view
           (ui (fire (Home.step Store.api Engine.newDate Engine.toISOString)
                  Home.SubmitScrape (start Store.empty Examples.home_page)))).
Proof.
  split; [reflexivity|].
  intros (_ & _ & Hform). cbn in Hform. discriminate Hform.
Qed.

(** Witness of the amended C3, on both callers. *)
Lemma scrape_failure_fallback_witness :
  (sent (start Store.empty Examples.home_page)
     (fire (Home.step Store.api Engine.newDate Engine.toISOString) Home.SubmitScrape
        (start Store.empty Examples.home_page))
   = [ScrapeUrl Examples.job_link]
   ∧ Home.error
       (ui (fire (Home.step Store.api Engine.newDate Engine.toISOString) Home.SubmitScrape
              (start Store.empty Examples.home_page)))
     = "Failed to scrape URL")
  ∧ (sent (start Store.empty Examples.scrape_page)
       (fire (Dashboard.step Store.api Engine.toISOString) Dashboard.ClickScrapeJob
          (start Store.empty Examples.scrape_page))
     = [ScrapeUrl Examples.job_link]
     ∧ entry_form
         (ApplicationModal.view
            (Dashboard.modal
               (ui (fire (Dashboard.step Store.api Engine.toISOString)
                      Dashboard.ClickScrapeJob
                      (start Store.empty Examples.scrape_page)))))
       = Some (manual_form Examples.job_link)).
Proof.
  split.
  - pose proof (proj1 (scrape_failure_fallback Store.api Engine.newDate Engine.toISOString)
                  (start Store.empty Examples.home_page) "Failed to scrape URL" Store.empty
                  eq_refl eq_refl) as (H1 & H2 & _).
    exact (conj H1 H2).
  - pose proof (proj2 (scrape_failure_fallback Store.api Engine.newDate Engine.toISOString)
                  (start Store.empty Examples.scrape_page) "Failed to scrape URL" Store.empty
                  eq_refl eq_refl) as (H1 & _ & H3 & _).
    exact (conj H1 H3).
Defined.

(** ** The detail page *)

Section Detail.
Context {S : Type} (api : Api S).
Context (newDate : value -> option Z) (toISOString : Z -> string).

Local Abbreviation step := (JobDetail.step api newDate toISOString).

(** C6.  Submitting the note form with empty or white-space-only content
    changes nothing: no request, the same backend, the same page.  With any
    other content the first request sent is the create (or, when a note is
    being edited, the update) carrying the content as typed; it is followed
    at most by the reload of the application. *)
Theorem note_requires_content (w : world S JobDetail.State) :
  let st := ui w in
  let w' := fire step JobDetail.ClickSubmitNote w in
  (blank (JobDetail.noteContent st) = true -> w' = w)
  ∧ (blank (JobDetail.noteContent st) = false ->
     exists rest,
       sent w w' =
         match JobDetail.editingNote st with
         | None => CreateNote (JobDetail.id st) (JobDetail.noteContent st)
         | Some n => UpdateNote (note_id n) (JobDetail.noteContent st)
         end :: rest
       ∧ Forall (fun r => r = GetApplication (JobDetail.id st)) rest).
Proof.
  intros st w'. subst st w'. unfold fire, run_handler. cbn [JobDetail.step].
  unfold JobDetail.handleUpdateNote, JobDetail.handleAddNote, JobDetail.fetchApplication.
  rewrite !truthy_str_trim. split; intros Hb; rewrite Hb; cbn [negb].
  - destruct (JobDetail.editingNote (ui w)); unfold_monad; by destruct w.
  - destruct (JobDetail.editingNote (ui w)); run; sent_eval; eexists;
      (split; [reflexivity|]); repeat constructor.
Qed.






(** C8.  Completion changes only by the user's toggle.  On the detail page
    an update of a deadline is sent by no event but the click on its toggle,
    and then it carries the negation of the flag on display.  The home page
    and the list of applications never send one.  Rendering a page at any
    time [now], which computes the days left and the overdue badges, sends
    nothing and leaves the backend as it is, in any state. *)
Theorem completion_changes_only_by_toggle :
  (forall e (w : world S JobDetail.State) deadlineId body,
     UpdateDeadline deadlineId body ∈ sent w (fire step e w) ->
     exists d, e = JobDetail.ClickToggleDeadline d
               ∧ deadlineId = deadline_id d
               ∧ body = JobDetail.toggle_payload d
               ∧ body !! "is_completed" = Some (VBool (negb (is_completed d))))
  ∧ (forall e (w : world S Home.State) r,
       r ∈ sent w (fire (Home.step api newDate toISOString) e w) ->
       is_update_deadline r = false)
  ∧ (forall e (w : world S AllApplications.State) r,
       r ∈ sent w (fire (AllApplications.step api newDate) e w) ->
       is_update_deadline r = false)
  ∧ (forall now (w : world S JobDetail.State),
       sent w (fire step (JobDetail.Render now) w) = []
       ∧ srv (fire step (JobDetail.Render now) w) = srv w)
  ∧ (forall now (w : world S Home.State),
       fire (Home.step api newDate toISOString) (Home.Render now) w = w)
  ∧ (forall now (w : world S AllApplications.State),
       fire (AllApplications.step api newDate) (AllApplications.Render now) w = w).
Proof.
  split; [|split; [|split; [|split; [|split]]]].
  - intros e w deadlineId body. unfold fire, run_handler.
    destruct e; cbn [JobDetail.step];
      unfold JobDetail.handleUpdateStatus, JobDetail.handleDeleteApplication,
        JobDetail.handleAddNote, JobDetail.handleUpdateNote, JobDetail.handleDeleteNote,
        JobDetail.handleAddDeadline, JobDetail.handleToggleDeadline,
        JobDetail.handleDeleteDeadline, JobDetail.render, JobDetail.fetchApplication;
      run; sent_eval; intros Hin; elem_inv.
    all: eexists; repeat split; reflexivity.
  - intros e w r. unfold fire, run_handler.
    destruct e; cbn [Home.step]; unfold Home.fetchUpcomingDeadlines, Home.handleScrape;
      run; sent_eval; intros Hin; elem_inv; reflexivity.
  - intros e w r. unfold fire, run_handler.
    destruct e; cbn [AllApplications.step];
      unfold AllApplications.fetchApplications, AllApplications.handleExport;
      run; sent_eval; intros Hin; elem_inv; reflexivity.
  - intros now w. unfold fire, run_handler. cbn [JobDetail.step]. unfold JobDetail.render.
    run; (split; [by sent_eval|done]).
  - intros now w. unfold fire, run_handler. cbn [Home.step]. unfold_monad. by destruct w.
  - intros now w. unfold fire, run_handler. cbn [AllApplications.step]. unfold_monad.
    by destruct w.
Qed.

End Detail.

(** Witness of C6: a note made of spaces is not sent, ["follow up"] is. *)
Lemma note_requires_content_witness :
  fire (JobDetail.step Store.api Engine.newDate Engine.toISOString) JobDetail.ClickSubmitNote
    (start Examples.tracking_store (JobDetail.setNoteContent "   " Examples.job_page))
  = start Examples.tracking_store (JobDetail.setNoteContent "   " Examples.job_page)
  ∧ exists rest,
      sent (start Examples.tracking_store (JobDetail.setNoteContent "follow up" Examples.job_page))
        (fire (JobDetail.step Store.api Engine.newDate Engine.toISOString)
           JobDetail.ClickSubmitNote
           (start Examples.tracking_store
              (JobDetail.setNoteContent "follow up" Examples.job_page)))
      = CreateNote 1 "follow up" :: rest
      ∧ Forall (fun r => r = GetApplication 1) rest.
Proof.
  split.
  - exact (proj1 (note_requires_content Store.api Engine.newDate Engine.toISOString
                    (start Examples.tracking_store
                       (JobDetail.setNoteContent "   " Examples.job_page))) eq_refl).
  - exact (proj2 (note_requires_content Store.api Engine.newDate Engine.toISOString
                    (start Examples.tracking_store
                       (JobDetail.setNoteContent "follow up" Examples.job_page))) eq_refl).
Defined.


(** Witness of C8: the update sent by clicking the toggle of the March
    deadline. *)
Lemma completion_changes_only_by_toggle_witness :
  exists d, JobDetail.ClickToggleDeadline Examples.march = JobDetail.ClickToggleDeadline d
            ∧ 11 = deadline_id d
            ∧ JobDetail.toggle_payload Examples.march = JobDetail.toggle_payload d
            ∧ JobDetail.toggle_payload Examples.march !! "is_completed"
              = Some (VBool (negb (is_completed d))).
Proof.
  apply (proj1 (completion_changes_only_by_toggle Store.api Engine.newDate Engine.toISOString)
           (JobDetail.ClickToggleDeadline Examples.march)
           (start Examples.tracking_store Examples.job_page)).
  apply (list_elem_of_lookup_2 _ 0%nat). reflexivity.
Defined.

(** ** Toggling a deadline, against the in-memory backend *)

Section Toggle.
Context (newDate : value -> option Z) (toISOString : Z -> string).

Local Abbreviation step := (JobDetail.step Store.api newDate toISOString).














End Toggle.



(** ** Sorting and next deadlines *)

Section SortFacts.
Context {A : Type} (compare : A -> A -> option Z).
(** On the elements satisfying [valid], the comparison is the difference of
    a key. *)
Context (key : A -> Z) (valid : A -> Prop).
Hypothesis compare_key :
  forall x y, valid x -> valid y -> compare x y = Some (key x - key y).

Lemma sort_insert_perm (x : A) (l : list A) : sort_insert compare x l ≡ₚ x :: l.
Proof.
  induction l as [|y l IH]; [done|].
  cbn [sort_insert]. destruct (compare_le compare x y); [done|].
  by rewrite IH, Permutation_swap.
Qed.

Lemma js_sort_perm (l : list A) : js_sort compare l ≡ₚ l.
Proof.
  induction l as [|x l IH]; [done|].
  cbn [js_sort]. by rewrite sort_insert_perm, IH.
Qed.

Lemma compare_le_valid (x y : A) :
  valid x -> valid y -> compare_le compare x y = bool_decide (key x <= key y).
Proof.
  intros Hx Hy. unfold compare_le. rewrite compare_key by done.
  destruct (Z.leb_spec (key x - key y) 0).
  - by rewrite bool_decide_eq_true_2 by lia.
  - by rewrite bool_decide_eq_false_2 by lia.
Qed.

Lemma sort_insert_sorted (x : A) (l : list A) :
  valid x -> Forall valid l ->
  StronglySorted (fun a b => key a <= key b) l ->
  StronglySorted (fun a b => key a <= key b) (sort_insert compare x l).
Proof.
  intros Hx Hl Hs. induction l as [|y l IH]; cbn [sort_insert].
  - repeat constructor.
  - apply Forall_cons in Hl as [Hy Hl].
    apply StronglySorted_cons in Hs as [Hyl Hs].
    rewrite compare_le_valid by done. case_bool_decide as Hxy.
    + apply StronglySorted_cons. split.
      * constructor; [done|]. eapply Forall_impl; [exact Hyl|]. cbn. intros; lia.
      * by apply StronglySorted_cons.
    + apply StronglySorted_cons. split; [|by apply IH].
      rewrite sort_insert_perm. constructor; [lia|done].
Qed.

Lemma js_sort_sorted (l : list A) :
  Forall valid l -> StronglySorted (fun a b => key a <= key b) (js_sort compare l).
Proof.
  induction l as [|x l IH]; intros Hl; cbn [js_sort]; [constructor|].
  apply Forall_cons in Hl as [Hx Hl].
  apply sort_insert_sorted; [done| |by apply IH].
  by rewrite js_sort_perm.
Qed.

(** The first element of the sorted array is one of the elements and has
    the least key. *)
Lemma js_sort_head (l : list A) (m : A) :
  Forall valid l -> head (js_sort compare l) = Some m ->
  m ∈ l ∧ forall x, x ∈ l -> key m <= key x.
Proof.
  intros Hl Hm. pose proof (js_sort_sorted l Hl) as Hs.
  apply head_Some in Hm as [l' Hm]. rewrite Hm in Hs.
  apply StronglySorted_cons in Hs as [Hall _].
  assert (Hp : forall x, x ∈ l <-> x ∈ m :: l').
  { intros x. by rewrite <- Hm, js_sort_perm. }
  split; [apply Hp; by left|].
  intros x Hx. apply Hp in Hx. apply elem_of_cons in Hx as [->|Hx]; [lia|].
  rewrite Forall_forall in Hall. by apply Hall.
Qed.

(** Sorting an array that is already in order leaves it as it is. *)
Lemma js_sort_sorted_id (l : list A) :
  Forall valid l -> StronglySorted (fun a b => key a <= key b) l -> js_sort compare l = l.
Proof.
  induction l as [|x l IH]; intros Hl Hs; [done|].
  apply Forall_cons in Hl as [Hx Hl].
  apply StronglySorted_cons in Hs as [Hxl Hs].
  cbn [js_sort]. rewrite IH by done.
  destruct l as [|y l]; [done|]. cbn [sort_insert].
  apply Forall_cons in Hl as [Hy _]. apply Forall_cons in Hxl as [Hxy _].
  rewrite compare_le_valid by done. by rewrite bool_decide_eq_true_2.
Qed.

End SortFacts.

Section NextDeadline.
Context (newDate : value -> option Z).

Local Abbreviation key := (key_of newDate).
Local Abbreviation valid := (valid_date newDate).

Lemma date_diff_key (x y : Deadline) :
  valid x -> valid y -> date_diff newDate x y = Some (key x - key y).
Proof.
  unfold valid_date, key_of, date_diff, deadline_time. intros [a ->] [b ->]. done.
Qed.

Lemma not_later_key (x y : Deadline) :
  valid x -> valid y -> key x <= key y -> not_later newDate x y.
Proof.
  unfold valid_date, key_of, not_later. intros [a Ha] [b Hb]. rewrite Ha, Hb. cbn.
  intros H. by exists a, b.
Qed.

(** The earliest uncompleted deadline of an array whose uncompleted
    deadlines have valid dates. *)
Lemma earliest_uncompleted_spec (ds : list Deadline) (m : Deadline) :
  (forall d, d ∈ ds -> is_completed d = false -> valid d) ->
  earliest_uncompleted newDate ds = Some m ->
  m ∈ ds ∧ is_completed m = false
  ∧ forall d, d ∈ ds -> is_completed d = false -> not_later newDate m d.
Proof.
  intros Hv Hm. unfold earliest_uncompleted in Hm.
  assert (Hf : Forall valid (filter (fun d => uncompleted d = true) ds)).
  { apply Forall_forall. intros d Hd. apply list_elem_of_filter in Hd as [Hu Hd].
    apply Hv; [done|]. unfold uncompleted in Hu. by destruct (is_completed d). }
  destruct (js_sort_head (date_diff newDate) key valid date_diff_key _ _ Hf Hm)
    as [Hin Hmin].
  apply list_elem_of_filter in Hin as [Hu Hin].
  assert (Hc : is_completed m = false).
  { unfold uncompleted in Hu. by destruct (is_completed m). }
  split; [done|]. split; [done|].
  intros d Hd Hdc. apply not_later_key; [by apply Hv|by apply Hv|].
  apply Hmin. apply list_elem_of_filter. split; [|done].
  unfold uncompleted. by rewrite Hdc.
Qed.

(** When the stored array is in date order, the deadline picked for sorting
    is the one displayed. *)
Lemma next_deadline_agree_when_ordered (app : Application) :
  (forall ds d, deadlines app = Some ds -> d ∈ ds -> valid d) ->
  (forall ds, deadlines app = Some ds ->
              StronglySorted (fun a b => key a <= key b) ds) ->
  sortDeadline app = getNextDeadline newDate app.
Proof.
  unfold sortDeadline, getNextDeadline. destruct (deadlines app) as [ds|]; [|done].
  intros Hv Hs. specialize (Hv ds). specialize (Hs ds eq_refl).
  assert (Hall : Forall valid ds).
  { apply Forall_forall. intros d Hd. by apply Hv. }
  clear Hv. destruct ds as [|d0 ds0]; [done|]. cbn [length Nat.eqb].
  generalize dependent (d0 :: ds0). clear d0 ds0. intros ds Hs Hall.
  unfold earliest_uncompleted.
  rewrite (js_sort_sorted_id (date_diff newDate) key valid date_diff_key).
  - induction ds as [|d ds IH]; [done|].
    apply StronglySorted_cons in Hs as [_ Hs]. apply Forall_cons in Hall as [_ Hall].
    cbn [js_find]. unfold uncompleted at 1. destruct (is_completed d) eqn:Hc; cbn [negb].
    + rewrite filter_cons_False; [by apply IH|]. unfold uncompleted. by rewrite Hc.
    + rewrite filter_cons_True; [done|]. unfold uncompleted. by rewrite Hc.
  - apply Forall_forall. intros d Hd. apply list_elem_of_filter in Hd as [_ Hd].
    rewrite Forall_forall in Hall. by apply Hall.
  - clear Hall. induction Hs as [|d ds Hs IH Hd]; [constructor|].
    destruct (decide (uncompleted d = true)) as [Hu|Hu].
    + rewrite filter_cons_True by done. constructor; [done|].
      apply Forall_forall. intros x Hx. apply list_elem_of_filter in Hx as [_ Hx].
      rewrite Forall_forall in Hd. by apply Hd.
    + by rewrite filter_cons_False.
Qed.

(** The properties of the list computed by [fetchUpcomingDeadlines]. *)
Lemma appsWithDeadlines_spec (apps : list Application) :
  (forall app ds d, app ∈ apps -> deadlines app = Some ds -> d ∈ ds ->
                    is_completed d = false -> valid d) ->
  let l := appsWithDeadlines newDate apps in
  (length l <= 10)%nat
  ∧ Forall (fun e =>
              upcoming_app e ∈ apps
              ∧ exists ds, deadlines (upcoming_app e) = Some ds
                           ∧ nextDeadline e ∈ ds
                           ∧ is_completed (nextDeadline e) = false
                           ∧ forall d, d ∈ ds -> is_completed d = false ->
                                       not_later newDate (nextDeadline e) d) l
  ∧ StronglySorted (fun a b => not_later newDate (nextDeadline a) (nextDeadline b)) l.
Proof.
  intros Hv l. subst l. unfold appsWithDeadlines.
  set (X := omap (with_next_deadline newDate)
              (filter (fun app => has_deadlines app = true) apps)).
  assert (HX : forall e, e ∈ X ->
             upcoming_app e ∈ apps
             ∧ exists ds, deadlines (upcoming_app e) = Some ds
                          ∧ nextDeadline e ∈ ds
                          ∧ is_completed (nextDeadline e) = false
                          ∧ forall d, d ∈ ds -> is_completed d = false ->
                                      not_later newDate (nextDeadline e) d).
  { intros e He. apply list_elem_of_omap in He as (app & Happ & He).
    apply list_elem_of_filter in Happ as [Hhas Happ].
    unfold with_next_deadline in He.
    destruct (earliest_uncompleted newDate (default [] (deadlines app))) as [m|] eqn:Hm;
      [|done].
    injection He as <-. cbn [upcoming_app nextDeadline]. split; [done|].
    unfold has_deadlines in Hhas. destruct (deadlines app) as [ds|] eqn:Hds; [|done].
    exists ds. split; [done|]. cbn [default] in Hm.
    apply earliest_uncompleted_spec; [|done]. intros d Hd Hc. by eapply Hv. }
  assert (HXv : Forall (fun e => valid (nextDeadline e)) X).
  { apply Forall_forall. intros e He.
    destruct (HX e He) as (Happ & ds & Hds & Hin & Hc & _). by eapply Hv. }
  pose proof (js_sort_sorted (upcoming_diff newDate) (fun e => key (nextDeadline e))
                (fun e => valid (nextDeadline e))
                (fun x y Hx Hy => date_diff_key _ _ Hx Hy) X HXv) as Hs.
  set (L := js_sort (upcoming_diff newDate) X) in *.
  assert (HL : forall e, e ∈ take 10 L -> e ∈ X).
  { intros e He. apply subseteq_take in He. unfold L in He. by rewrite js_sort_perm in He. }
  split; [|split].
  - rewrite length_take. lia.
  - apply Forall_forall. intros e He. apply HX. by apply HL.
  - rewrite <- (take_drop 10 L) in Hs. apply StronglySorted_app_1_l in Hs.
    revert HL. induction Hs as [|e l Hs IH He]; intros HL; [constructor|].
    constructor.
    + apply IH. intros x Hx. apply HL. by right.
    + apply Forall_forall. intros x Hx. rewrite Forall_forall in He.
      rewrite Forall_forall in HXv.
      apply not_later_key; [apply HXv, HL; by left|apply HXv, HL; by right|by apply He].
Qed.

End NextDeadline.

(** C9, at its failing input.  The tracked application stores its March
    deadline before its January deadline, both open.  The comparison of
    [filterAndSortApplications] takes the March deadline as the next one
    and sorts the row by 1 March 2025, while [getNextDeadline] and the home
    page display the January deadline: the two notions of next deadline
    disagree.  Sorted by deadline in ascending order, the row comes after an
    application whose only deadline is in February, although the deadline it
    displays is earlier. *)
Theorem next_deadline_definitions_disagree :
  sortDeadline Examples.tracked = Some Examples.march
  ∧ sortDeadlineValue Engine.newDate Examples.tracked = Some 1740787200000
  ∧ getNextDeadline Engine.newDate Examples.tracked = Some Examples.january
  ∧ deadline_time Engine.newDate Examples.january = Some 1735689600000
  ∧ (nextDeadline <$> appsWithDeadlines Engine.newDate [Examples.tracked])
    = [Examples.january]
  ∧ sortDeadline Examples.tracked ≠ getNextDeadline Engine.newDate Examples.tracked
  ∧ getNextDeadline Engine.newDate Examples.other = Some Examples.february
  ∧ deadline_time Engine.newDate Examples.february = Some 1738368000000
  ∧ compareByDeadline Engine.newDate "asc" Examples.tracked Examples.other = 1.
Proof.
  split; [reflexivity|]. split; [reflexivity|]. split; [reflexivity|].
  split; [reflexivity|]. split; [reflexivity|]. split; [discriminate|].
  split; [reflexivity|]. split; reflexivity.
Qed.

Section Upcoming.
Context {S : Type} (api : Api S).
Context (newDate : value -> option Z) (toISOString : Z -> string).

(** C10.  When the backend returns the applications [apps], whose
    uncompleted deadlines all have valid dates, the list of upcoming
    deadlines of the home page is the one computed from [apps]; it has at
    most 10 entries; every entry is an application of [apps] with an
    uncompleted deadline, paired with an uncompleted deadline of its own that
    is not later than any other; and the entries are in ascending order of
    that deadline. *)
Theorem upcoming_deadlines_top_ten (w : world S Home.State)
    (apps : list Application) (s1 : S) :
  api_getApplications api (srv w) = (Ok apps, s1) ->
  (forall app ds d, app ∈ apps -> deadlines app = Some ds -> d ∈ ds ->
                    is_completed d = false -> valid_date newDate d) ->
  let l := Home.upcomingDeadlines
             (ui (fire (Home.step api newDate toISOString) Home.Mount w)) in
  l = appsWithDeadlines newDate apps
  ∧ (length l <= 10)%nat
  ∧ Forall (fun e =>
              upcoming_app e ∈ apps
              ∧ exists ds, deadlines (upcoming_app e) = Some ds
                           ∧ nextDeadline e ∈ ds
                           ∧ is_completed (nextDeadline e) = false
                           ∧ forall d, d ∈ ds -> is_completed d = false ->
                                       not_later newDate (nextDeadline e) d) l
  ∧ StronglySorted (fun a b => not_later newDate (nextDeadline a) (nextDeadline b)) l.
Proof.
  intros Hget Hv l.
  assert (Hl : l = appsWithDeadlines newDate apps).
  { subst l. unfold fire, run_handler. cbn [Home.step]. unfold Home.fetchUpcomingDeadlines.
    unfold_monad. world_simpl. rewrite Hget. world_simpl. reflexivity. }
  split; [done|]. rewrite Hl. by apply appsWithDeadlines_spec.
Qed.

End Upcoming.

(** Witness of C10: the home page in front of the tracking store shows the
    tracked application with its January deadline. *)
Lemma upcoming_deadlines_top_ten_witness :
  Home.upcomingDeadlines
    (ui (fire (Home.step Store.api Engine.newDate Engine.toISOString) Home.Mount
           (start Examples.tracking_store Home.initial)))
  = [Upcoming Examples.tracked Examples.january].
Proof.
  assert (Hv : forall app ds d, app ∈ [Examples.tracked] -> deadlines app = Some ds ->
                 d ∈ ds -> is_completed d = false -> valid_date Engine.newDate d).
  { intros app ds d Happ Hds Hd _. apply list_elem_of_singleton in Happ. subst app.
    injection Hds as <-.
    apply elem_of_cons in Hd as [->|Hd]; [by eexists|].
    apply list_elem_of_singleton in Hd. subst d. by eexists. }
  exact (proj1 (upcoming_deadlines_top_ten Store.api Engine.newDate Engine.toISOString
                  (start Examples.tracking_store Home.initial) [Examples.tracked]
                  Examples.tracking_store eq_refl Hv)).
Defined.

(* ===================================================================== *)

(* ===================================================================== *)
(** * Further properties of the pages *)
(* ===================================================================== *)

(** ** Scrape and create, path by path *)

Section ScrapePaths.
Context {S : Type} (api : Api S).
Context (newDate : value -> option Z) (toISOString : Z -> string).

Local Abbreviation step := (Home.step api newDate toISOString).
Local Abbreviation dstep := (Dashboard.step api toISOString).

(** X1.  A URL that is empty or made of white space is rejected before
    anything is sent: the home page only shows "Please enter a job URL", the
    application form only shows "Please enter a valid URL"; the loading
    flags, the backend and the router are untouched. *)
Theorem blank_url_is_rejected :
  (forall w : world S Home.State,
     blank (Home.url (ui w)) = true ->
     fire step Home.SubmitScrape w
     = World (srv w) (log w) (Home.setError "Please enter a job URL" (ui w))
         (route w) (console w))
  ∧ (forall w : world S Dashboard.Page,
       blank (ApplicationModal.jobUrl (Dashboard.modal (ui w))) = true ->
       fire dstep Dashboard.ClickScrapeJob w
       = World (srv w) (log w)
           (Dashboard.in_modal (ApplicationModal.setError "Please enter a valid URL") (ui w))
           (route w) (console w)).
Proof.
  split; intros w Hb; unfold fire, run_handler.
  - cbn [Home.step]. unfold Home.handleScrape. rewrite truthy_str_trim, Hb. reflexivity.
  - cbn [Dashboard.step]. unfold Dashboard.modal_handleScrapeUrl, ApplicationModal.handleScrapeUrl.
    rewrite truthy_str_trim, Hb. reflexivity.
Qed.

(** X2.  The scrape-and-create flow stops at the first failing call and
    shows its message.  When the application cannot be created, nothing else
    is sent.  When the job details cannot be stored, the application has
    already been created: the page shows the error, creates no deadline and
    does not navigate to the new application. *)
Theorem handleScrape_stops_at_first_failure (w : world S Home.State)
    (jobData : obj) (s1 : S) :
  let u := Home.url (ui w) in
  let w' := fire step Home.SubmitScrape w in
  blank u = false ->
  api_scrapeUrl api u (srv w) = (Ok jobData, s1) ->
  (forall e s2,
     api_createApplication api (Home.application_payload jobData u) s1 = (Err e, s2) ->
     sent w w' = [ScrapeUrl u; CreateApplication (Home.application_payload jobData u)]
     ∧ Home.error (ui w') = e
     ∧ Home.loading (ui w') = false
     ∧ route w' = route w
     ∧ srv w' = s2)
  ∧ (forall newApp s2 e s3,
       api_createApplication api (Home.application_payload jobData u) s1 = (Ok newApp, s2) ->
       (truthy (jobData !! "description") || truthy (jobData !! "requirements")
        || truthy (jobData !! "ai_thoughts"))%bool = true ->
       api_createJobDetails api (app_id newApp) (Home.job_details_payload jobData) s2
         = (Err e, s3) ->
       sent w w' = [ScrapeUrl u; CreateApplication (Home.application_payload jobData u);
                    CreateJobDetails (app_id newApp) (Home.job_details_payload jobData)]
       ∧ Home.error (ui w') = e
       ∧ Home.loading (ui w') = false
       ∧ route w' = route w
       ∧ srv w' = s3).
Proof.
  intros u w' Hb Hs. subst w'. unfold fire, run_handler. cbn [Home.step].
  unfold Home.handleScrape. fold u. rewrite truthy_str_trim, Hb. cbn [negb].
  unfold_monad. world_simpl. rewrite Hs. world_simpl. split.
  - intros e s2 Hc. rewrite Hc. world_simpl.
    split; [by sent_eval|done].
  - intros newApp s2 e s3 Hc Hn Hd. rewrite Hc. world_simpl. rewrite Hn. world_simpl. rewrite Hd. world_simpl.
    split; [by sent_eval|done].
Qed.

(** X3.  Once the application and, when there are any, its job details are
    stored, the flow navigates to the new application whatever happens to
    the deadline, and the page shows no error.  Without a deadline in the
    extraction nothing more is sent and the console stays as it is.  A
    deadline text that is not a date sends no deadline request and leaves
    "Invalid time value" on the console.  A deadline that is a date is sent
    as the last request: when the backend stores it the console stays as it
    is, and when the backend refuses it the console gets the line "Failed to
    create deadline:" with the message of the refusal, and nothing else
    shows the failure. *)
Theorem handleScrape_navigates_despite_deadline (w : world S Home.State)
    (jobData : obj) (s1 : S) (newApp : Application) (s2 s3 : S) :
  let u := Home.url (ui w) in
  let w' := fire step Home.SubmitScrape w in
  let details := (truthy (jobData !! "description") || truthy (jobData !! "requirements")
                  || truthy (jobData !! "ai_thoughts"))%bool in
  let stored :=
    ScrapeUrl u :: CreateApplication (Home.application_payload jobData u)
    :: (if details
        then [CreateJobDetails (app_id newApp) (Home.job_details_payload jobData)]
        else []) in
  blank u = false ->
  api_scrapeUrl api u (srv w) = (Ok jobData, s1) ->
  api_createApplication api (Home.application_payload jobData u) s1 = (Ok newApp, s2) ->
  (details = false ∧ s3 = s2
   ∨ details = true
     ∧ api_createJobDetails api (app_id newApp) (Home.job_details_payload jobData) s2
       = (Ok tt, s3)) ->
  route w' = (route w ++ ["/job/" +:+ pretty (app_id newApp)])%list
  ∧ Home.error (ui w') = ""
  ∧ Home.loading (ui w') = false
  ∧ (truthy (jobData !! "application_deadline") = false ->
     sent w w' = stored ∧ console w' = console w ∧ srv w' = s3)
  ∧ (truthy (jobData !! "application_deadline") = true ->
     jobData !! "application_deadline" ≫= newDate = None ->
     sent w w' = stored
     ∧ console w' = (console w ++ ["Failed to create deadline:" +:+ " " +:+ "Invalid time value"])%list
     ∧ srv w' = s3
     ∧ forall r, r ∈ sent w w' -> is_create_deadline r = false)
  ∧ (forall t r s4,
       truthy (jobData !! "application_deadline") = true ->
       jobData !! "application_deadline" ≫= newDate = Some t ->
       api_createDeadline api (app_id newApp) (Home.deadline_payload (toISOString t)) s3
         = (r, s4) ->
       sent w w'
       = (stored ++ [CreateDeadline (app_id newApp)
                       (Home.deadline_payload (toISOString t))])%list
       ∧ srv w' = s4
       ∧ match r with
         | Ok _ => console w' = console w
         | Err e =>
             console w' = (console w ++ ["Failed to create deadline:" +:+ " " +:+ e])%list
         end).
Proof.
  intros u w' details stored Hb Hs Hc Hd. subst w' stored.
  unfold fire, run_handler. cbn [Home.step].
  unfold Home.handleScrape. fold u. rewrite truthy_str_trim, Hb. cbn [negb].
  unfold_monad. world_simpl. rewrite Hs. world_simpl. rewrite Hc. world_simpl.
  fold details.
  destruct Hd as [[Hn ->]|[Hn Hd]]; rewrite Hn; world_simpl; [|rewrite Hd; world_simpl].
  all: destruct (truthy (jobData !! "application_deadline")) eqn:Ht; world_simpl.
  all: destruct (jobData !! "application_deadline" ≫= newDate) as [t|] eqn:Hv; world_simpl.
  all: try (destruct (api_createDeadline api (app_id newApp)
                        (Home.deadline_payload (toISOString t)) _) as [[[]|e] s4] eqn:Hcd;
            world_simpl).
  all: split; [reflexivity|]; split; [reflexivity|]; split; [reflexivity|].
  all: split; [intros Hf; first [discriminate Hf | split; [by sent_eval|done]]|].
  all: split; [intros Ht' Hv';
               first [discriminate
                     | split; [by sent_eval|]; split; [reflexivity|]; split; [reflexivity|];
                       sent_eval; intros r Hr; elem_inv; reflexivity]|].
  all: intros t' r s4' Ht' Hv' Hcd'; try discriminate.
  all: injection Hv' as <-; rewrite Hcd in Hcd'; injection Hcd' as <- <-.
  all: split; [by sent_eval|done].
Qed.

End ScrapePaths.

(** Witness of X1: three spaces. *)
Lemma blank_url_is_rejected_witness :
  sent (start Store.empty MoreExamples.blank_home)
    (fire (Home.step Store.api Engine.newDate Engine.toISOString) Home.SubmitScrape
       (start Store.empty MoreExamples.blank_home)) = []
  ∧ Home.error (ui (fire (Home.step Store.api Engine.newDate Engine.toISOString)
                      Home.SubmitScrape (start Store.empty MoreExamples.blank_home)))
    = "Please enter a job URL".
Proof.
  rewrite (proj1 (blank_url_is_rejected Store.api Engine.newDate Engine.toISOString)
             (start Store.empty MoreExamples.blank_home) eq_refl).
  split; reflexivity.
Defined.

(** Witness of X2: a posting without a company is refused by the store; a
    described posting meets a backend whose job details are down. *)
Lemma handleScrape_stops_at_first_failure_witness :
  Home.error
    (ui (fire (Home.step Store.api Engine.newDate Engine.toISOString) Home.SubmitScrape
           (start (Examples.store_with_page MoreExamples.nameless_posting) Examples.home_page)))
  = "Failed to create application"
  ∧ route
      (fire (Home.step MoreExamples.details_down Engine.newDate Engine.toISOString)
         Home.SubmitScrape
         (start (Examples.store_with_page MoreExamples.described_posting) Examples.home_page))
    = [].
Proof.
  split.
  - pose proof (proj1 (handleScrape_stops_at_first_failure Store.api Engine.newDate
                         Engine.toISOString
                         (start (Examples.store_with_page MoreExamples.nameless_posting)
                            Examples.home_page)
                         MoreExamples.nameless_posting
                         (Examples.store_with_page MoreExamples.nameless_posting)
                         eq_refl eq_refl)
                  "Failed to create application"
                  (Examples.store_with_page MoreExamples.nameless_posting) eq_refl)
      as (_ & H & _).
    exact H.
  - pose proof (proj2 (handleScrape_stops_at_first_failure MoreExamples.details_down
                         Engine.newDate Engine.toISOString
                         (start (Examples.store_with_page MoreExamples.described_posting)
                            Examples.home_page)
                         MoreExamples.described_posting
                         (Examples.store_with_page MoreExamples.described_posting)
                         eq_refl eq_refl)
                  _ _ "Failed to create job details" _ eq_refl eq_refl eq_refl)
      as (_ & _ & _ & H & _).
    exact H.
Defined.

(** Witness of X3: a deadline that reads "soon", and a deadline that the
    backend refuses. *)
Lemma handleScrape_navigates_despite_deadline_witness :
  (route (fire (Home.step Store.api Engine.newDate Engine.toISOString) Home.SubmitScrape
            (start (Examples.store_with_page MoreExamples.vague_posting)
               Examples.home_page))
   = ["/job/1"]
   ∧ console (fire (Home.step Store.api Engine.newDate Engine.toISOString) Home.SubmitScrape
                (start (Examples.store_with_page MoreExamples.vague_posting)
                   Examples.home_page))
     = ["Failed to create deadline: Invalid time value"])
  ∧ (route (fire (Home.step MoreExamples.deadlines_down Engine.newDate Engine.toISOString)
              Home.SubmitScrape
              (start (Examples.store_with_page Examples.posting) Examples.home_page))
     = ["/job/1"]
     ∧ console (fire (Home.step MoreExamples.deadlines_down Engine.newDate
                        Engine.toISOString)
                  Home.SubmitScrape
                  (start (Examples.store_with_page Examples.posting) Examples.home_page))
       = ["Failed to create deadline: Failed to create deadline"]).
Proof.
  split.
  - pose proof (handleScrape_navigates_despite_deadline Store.api Engine.newDate
                  Engine.toISOString
                  (start (Examples.store_with_page MoreExamples.vague_posting)
                     Examples.home_page)
                  MoreExamples.vague_posting _ _ _ _
                  eq_refl eq_refl eq_refl (or_introl (conj eq_refl eq_refl)))
      as (H1 & _ & _ & _ & H5 & _).
    split; [exact H1|]. exact (proj1 (proj2 (H5 eq_refl eq_refl))).
  - pose proof (handleScrape_navigates_despite_deadline MoreExamples.deadlines_down
                  Engine.newDate Engine.toISOString
                  (start (Examples.store_with_page Examples.posting) Examples.home_page)
                  Examples.posting _ _ _ _
                  eq_refl eq_refl eq_refl (or_introl (conj eq_refl eq_refl)))
      as (H1 & _ & _ & _ & _ & H6).
    split; [exact H1|].
    exact (proj2 (proj2 (H6 _ (Err "Failed to create deadline") _ eq_refl eq_refl eq_refl))).
Defined.


(** ** Upcoming deadlines and next deadlines, beyond the top ten *)

Section Lists.
Context (newDate : value -> option Z).

Lemma js_sort_length {A : Type} (compare : A -> A -> option Z) (l : list A) :
  length (js_sort compare l) = length l.
Proof. by rewrite js_sort_perm. Qed.

(** The deadline picked by filter, sort and [[0]]: there is one exactly
    when some deadline is not completed, and it is one of those. *)
Lemma earliest_uncompleted_is_Some (ds : list Deadline) :
  is_Some (earliest_uncompleted newDate ds) <-> existsb uncompleted ds = true.
Proof.
  unfold earliest_uncompleted.
  set (l := filter (fun d => uncompleted d = true) ds).
  assert (Hl : l ≠ [] <-> existsb uncompleted ds = true).
  { subst l. rewrite existsb_exists. split.
    - intros Hne. destruct (filter _ ds) as [|d l'] eqn:Hf; [done|].
      assert (Hd : d ∈ filter (fun d => uncompleted d = true) ds) by (rewrite Hf; by left).
      apply list_elem_of_filter in Hd as [Hu Hd]. exists d. split; [|done].
      by apply list_elem_of_In.
    - intros (d & Hd & Hu) Hf.
      assert (Hin : d ∈ filter (fun d => uncompleted d = true) ds).
      { apply list_elem_of_filter. split; [done|]. by apply list_elem_of_In. }
      rewrite Hf in Hin. by apply elem_of_nil in Hin. }
  rewrite <- Hl. pose proof (js_sort_length (date_diff newDate) l) as Hlen.
  destruct (js_sort (date_diff newDate) l) as [|m l'] eqn:Hs; destruct l as [|d l0];
    cbn in Hlen |- *; done.
Qed.

Lemma earliest_uncompleted_elem (ds : list Deadline) (m : Deadline) :
  earliest_uncompleted newDate ds = Some m -> m ∈ ds ∧ is_completed m = false.
Proof.
  unfold earliest_uncompleted. intros Hm. apply head_Some_elem_of in Hm.
  rewrite js_sort_perm in Hm. apply list_elem_of_filter in Hm as [Hu Hm].
  split; [done|]. unfold uncompleted in Hu. by destruct (is_completed m).
Qed.

(** X4.  [getNextDeadline] shows nothing exactly for the applications
    without an uncompleted deadline (no deadlines at all, an empty array, or
    all of them completed); what it shows is always an uncompleted deadline
    of the application, valid date or not. *)
Theorem getNextDeadline_none_iff (app : Application) :
  (getNextDeadline newDate app = None <-> has_open_deadline app = false)
  ∧ (forall m, getNextDeadline newDate app = Some m ->
               m ∈ default [] (deadlines app) ∧ is_completed m = false).
Proof.
  unfold getNextDeadline, has_open_deadline.
  destruct (deadlines app) as [ds|]; [|by split].
  change (default [] (Some ds)) with ds.
  destruct ds as [|d ds]; [by split|]. cbn [length Nat.eqb].
  split.
  - pose proof (earliest_uncompleted_is_Some (d :: ds)) as H.
    destruct (earliest_uncompleted newDate (d :: ds)) as [m|].
    + split; [done|]. intros Hf. destruct H as [H _]. rewrite Hf in H.
      by specialize (H (mk_is_Some _ _ eq_refl)).
    + split; [|done]. intros _. destruct (existsb uncompleted (d :: ds)); [|done].
      destruct H as [_ H]. by destruct (H eq_refl).
  - intros m. apply earliest_uncompleted_elem.
Qed.

Lemma with_next_deadline_Some (app : Application) :
  has_deadlines app = true ->
  is_Some (with_next_deadline newDate app) <-> has_open_deadline app = true.
Proof.
  intros _. unfold with_next_deadline, has_open_deadline.
  rewrite <- earliest_uncompleted_is_Some.
  destruct (earliest_uncompleted newDate (default [] (deadlines app))); split;
    intros [? H]; first [discriminate H | by eexists].
Qed.

Lemma has_open_has_deadlines (app : Application) :
  has_open_deadline app = true -> has_deadlines app = true.
Proof.
  unfold has_open_deadline, has_deadlines.
  destruct (deadlines app) as [[|d ds]|]; done.
Qed.

Lemma candidates_length (apps : list Application) :
  length (omap (with_next_deadline newDate)
            (filter (fun app => has_deadlines app = true) apps))
  = length (filter (fun app => has_open_deadline app = true) apps).
Proof.
  induction apps as [|app apps IH]; [done|].
  destruct (has_open_deadline app) eqn:Ho.
  - pose proof (has_open_has_deadlines app Ho) as Hd.
    rewrite (filter_cons_True _ app apps) by done.
    rewrite (filter_cons_True (fun app => has_open_deadline app = true) app apps) by done.
    destruct (proj2 (with_next_deadline_Some app Hd) Ho) as [e He].
    cbn [omap list_omap]. rewrite He. cbn [length]. by rewrite <- IH.
  - rewrite (filter_cons_False (fun app => has_open_deadline app = true) app apps)
      by (rewrite Ho; done).
    destruct (has_deadlines app) eqn:Hd.
    + rewrite (filter_cons_True _ app apps) by done.
      cbn [omap list_omap].
      destruct (with_next_deadline newDate app) as [e|] eqn:He; [|exact IH].
      pose proof (proj1 (with_next_deadline_Some app Hd) (mk_is_Some _ _ He)). congruence.
    + rewrite (filter_cons_False _ app apps) by (rewrite Hd; done). exact IH.
Qed.

(** X5.  The home page lists as many applications as have an uncompleted
    deadline, up to ten: applications without deadlines or with all
    deadlines completed take no place, and no application with an open
    deadline is left out while there is room.  Invalid dates do not change
    the count. *)
Theorem upcoming_count (apps : list Application) :
  length (appsWithDeadlines newDate apps)
  = Nat.min 10 (length (filter (fun app => has_open_deadline app = true) apps)).
Proof.
  unfold appsWithDeadlines. by rewrite length_take, js_sort_length, candidates_length.
Qed.

(** X6.  Every entry of the home page shows, for its application, the very
    deadline the list of applications shows for it: the display of
    [fetchUpcomingDeadlines] and [getNextDeadline] agree. *)
Theorem home_and_list_show_same_deadline (apps : list Application) (e : upcoming) :
  e ∈ appsWithDeadlines newDate apps ->
  upcoming_app e ∈ apps
  ∧ getNextDeadline newDate (upcoming_app e) = Some (nextDeadline e).
Proof.
  unfold appsWithDeadlines. intros He. apply subseteq_take in He.
  rewrite js_sort_perm in He. apply list_elem_of_omap in He as (app & Happ & He).
  apply list_elem_of_filter in Happ as [Hd Happ].
  unfold with_next_deadline in He.
  destruct (earliest_uncompleted newDate (default [] (deadlines app))) as [m|] eqn:Hm;
    [|done].
  injection He as <-. cbn [upcoming_app nextDeadline]. split; [done|].
  unfold getNextDeadline. unfold has_deadlines in Hd.
  destruct (deadlines app) as [[|d ds]|]; try done.
Qed.

(** X7.  The ten entries shown are the most urgent ones: an application
    with an open deadline that is not shown has its next deadline not
    earlier than the deadline of any entry shown (all open deadlines having
    valid dates). *)
Theorem upcoming_most_urgent (apps : list Application) (app : Application) (c : upcoming) :
  (forall a ds d, a ∈ apps -> deadlines a = Some ds -> d ∈ ds ->
                  is_completed d = false -> valid_date newDate d) ->
  app ∈ apps ->
  has_deadlines app = true ->
  with_next_deadline newDate app = Some c ->
  c ∈ appsWithDeadlines newDate apps
  ∨ forall e, e ∈ appsWithDeadlines newDate apps ->
              not_later newDate (nextDeadline e) (nextDeadline c).
Proof.
  intros Hv Happ Hd Hc. unfold appsWithDeadlines.
  set (X := omap (with_next_deadline newDate)
              (filter (fun app => has_deadlines app = true) apps)).
  assert (HcX : c ∈ X).
  { apply list_elem_of_omap. exists app. split; [|done]. by apply list_elem_of_filter. }
  assert (HXv : Forall (fun e => valid_date newDate (nextDeadline e)) X).
  { apply Forall_forall. intros e He. apply list_elem_of_omap in He as (a & Ha & He).
    apply list_elem_of_filter in Ha as [Hda Ha]. unfold with_next_deadline in He.
    destruct (earliest_uncompleted newDate (default [] (deadlines a))) as [m|] eqn:Hm;
      [|done].
    injection He as <-. cbn [nextDeadline].
    apply earliest_uncompleted_elem in Hm as [Hin Hcm].
    unfold has_deadlines in Hda. destruct (deadlines a) as [ds|] eqn:Hds; [|done].
    by eapply Hv. }
  pose proof (js_sort_sorted (upcoming_diff newDate)
                (fun e => key_of newDate (nextDeadline e))
                (fun e => valid_date newDate (nextDeadline e))
                (fun x y Hx Hy => date_diff_key newDate _ _ Hx Hy) X HXv) as Hs.
  set (L := js_sort (upcoming_diff newDate) X) in *.
  assert (HcL : c ∈ L) by (unfold L; by rewrite js_sort_perm).
  rewrite <- (take_drop 10 L) in HcL, Hs. apply elem_of_app in HcL as [HcL|HcL]; [by left|].
  right. intros e He.
  assert (HeX : e ∈ X).
  { apply subseteq_take in He. unfold L in He. by rewrite js_sort_perm in He. }
  rewrite Forall_forall in HXv.
  apply not_later_key; [by apply HXv|by apply HXv|].
  by apply (StronglySorted_app_1_elem_of _ _ _ _ _ Hs).
Qed.

End Lists.

(** Witness of X7: of twelve applications due on twelve consecutive days,
    the one due last is not among the ten shown, although it was loaded
    first, and every entry shown is due no later than it. *)
Lemma upcoming_most_urgent_witness :
  length (appsWithDeadlines Engine.newDate MoreExamples.crowd) = 10%nat
  ∧ (Upcoming (MoreExamples.applicant 12 "2025-02-12T00:00:00")
       (MoreExamples.due 12 "2025-02-12T00:00:00")
     ∉ appsWithDeadlines Engine.newDate MoreExamples.crowd)
  ∧ (forall e, e ∈ appsWithDeadlines Engine.newDate MoreExamples.crowd ->
               not_later Engine.newDate (nextDeadline e)
                 (MoreExamples.due 12 "2025-02-12T00:00:00")).
Proof.
  assert (Hv : forall a ds d, a ∈ MoreExamples.crowd -> deadlines a = Some ds ->
                 d ∈ ds -> is_completed d = false -> valid_date Engine.newDate d).
  { intros a ds d Ha Hds Hd _. unfold MoreExamples.crowd in Ha.
    repeat (apply elem_of_cons in Ha as [->|Ha]); [..|by apply elem_of_nil in Ha].
    all: injection Hds as <-; apply list_elem_of_singleton in Hd; subst d; by eexists. }
  assert (Hout : Upcoming (MoreExamples.applicant 12 "2025-02-12T00:00:00")
                   (MoreExamples.due 12 "2025-02-12T00:00:00")
                 ∉ appsWithDeadlines Engine.newDate MoreExamples.crowd).
  { intros Hin. vm_compute in Hin.
    repeat (apply elem_of_cons in Hin as [Hin|Hin]; [discriminate Hin|]).
    by apply elem_of_nil in Hin. }
  split; [reflexivity|]. split; [exact Hout|].
  destruct (upcoming_most_urgent Engine.newDate MoreExamples.crowd
              (MoreExamples.applicant 12 "2025-02-12T00:00:00")
              (Upcoming (MoreExamples.applicant 12 "2025-02-12T00:00:00")
                 (MoreExamples.due 12 "2025-02-12T00:00:00"))
              Hv (list_elem_of_here _ _) eq_refl eq_refl) as [Hin|Hall].
  - destruct (Hout Hin).
  - exact Hall.
Defined.

(** Witness of X6: the entry of the tracked application. *)
Lemma home_and_list_show_same_deadline_witness :
  Examples.tracked ∈ [Examples.tracked]
  ∧ getNextDeadline Engine.newDate Examples.tracked = Some Examples.january.
Proof.
  apply (home_and_list_show_same_deadline Engine.newDate [Examples.tracked]
           (Upcoming Examples.tracked Examples.january)).
  by left.
Defined.

(** Witness of X4: the next deadline of the tracked application. *)
Lemma getNextDeadline_none_iff_witness :
  Examples.january ∈ [Examples.march; Examples.january]
  ∧ is_completed Examples.january = false.
Proof.
  exact (proj2 (getNextDeadline_none_iff Engine.newDate Examples.tracked)
           Examples.january eq_refl).
Defined.


(** ** Days left and badges *)

Section Badges.
Context (newDate : value -> option Z).

Lemma ceil_div_bounds (n d : Z) :
  0 < d -> (ceil_div n d - 1) * d < n <= ceil_div n d * d.
Proof.
  intros Hd. unfold ceil_div.
  pose proof (Z.div_mod (- n) d ltac:(lia)) as Hdm.
  pose proof (Z.mod_pos_bound (- n) d Hd) as Hm. nia.
Qed.

(** X8.  The days left are rounded up, so the labels of the home page
    change a full day after the deadline, not at the deadline: a deadline is
    [Overdue] only once it is at least 24 hours past, [Today] from the
    deadline itself until then, and [Tomorrow] during the 24 hours before
    it.  A date that cannot be parsed is shown as [NaN days] in the colour
    of the deadlines that are far away. *)
Theorem overdue_only_after_a_full_day (now : Z) (d : Deadline) :
  (forall t,
     deadline_time newDate d = Some t ->
     (fst (getDeadlineStatus newDate now d) = Overdue <-> t + ms_per_day <= now)
     ∧ (fst (getDeadlineStatus newDate now d) = Today <-> now - ms_per_day < t <= now)
     ∧ (fst (getDeadlineStatus newDate now d) = Tomorrow <-> now < t <= now + ms_per_day)
     ∧ (forall n, fst (getDeadlineStatus newDate now d) = Days n ->
                  exists k, n = Some k ∧ 2 <= k
                            ∧ (k - 1) * ms_per_day < t - now <= k * ms_per_day))
  ∧ (deadline_time newDate d = None ->
     getDeadlineStatus newDate now d = (Days None, "success")).
Proof.
  unfold getDeadlineStatus, getDaysUntilDeadline, deadline_time. split.
  - intros t ->.
    pose proof (ceil_div_bounds (t - now) ms_per_day ltac:(done)) as Hb.
    set (n := ceil_div (t - now) ms_per_day) in *.
    assert (Hday : ms_per_day = 86400000) by reflexivity.
    destruct (Z.ltb_spec n 0); cbn [fst].
    { split; [split; [intros _; lia|done]|].
      split; [split; [done|intros; lia]|].
      split; [split; [done|intros; lia]|]. done. }
    destruct (Z.eqb_spec n 0); cbn [fst].
    { split; [split; [done|intros; lia]|].
      split; [split; [intros _; lia|done]|].
      split; [split; [done|intros; lia]|]. done. }
    destruct (Z.eqb_spec n 1); cbn [fst].
    { split; [split; [done|intros; lia]|].
      split; [split; [done|intros; lia]|].
      split; [split; [intros _; lia|done]|]. done. }
    assert (Hn : forall m, fst (if n <=? 3 then (Days (Some n), "warning")
                                else if n <=? 7 then (Days (Some n), "info")
                                else (Days (Some n), "success")) = m -> m = Days (Some n)).
    { intros m <-. by repeat case_match. }
    split; [split; [intros H'; apply Hn in H'; done|intros; lia]|].
    split; [split; [intros H'; apply Hn in H'; done|intros; lia]|].
    split; [split; [intros H'; apply Hn in H'; done|intros; lia]|].
    intros m Hm. apply Hn in Hm. injection Hm as ->. exists n. split; [done|]. lia.
  - by intros ->.
Qed.

(** X9.  The three pages give a deadline the same label at the same time.
    The list and the detail page also use the same colour; the home page
    uses the same colour up to seven days, and a different one beyond
    ([success] where the others use [info]). *)
Theorem badge_labels_agree (now : Z) (d : Deadline) :
  let home := getDeadlineStatus newDate now d in
  let list := deadlineBadge (getDaysUntilDeadline newDate now d) in
  fst home = snd list
  ∧ (is_completed d = false ->
     exists class, JobDetail.deadline_badge newDate now d = Some (class, snd list)
                   ∧ fst list = "bg-" +:+ class)
  ∧ (is_completed d = true -> JobDetail.deadline_badge newDate now d = None)
  ∧ (forall n, getDaysUntilDeadline newDate now d = Some n ->
               (fst list = "bg-" +:+ snd home <-> n <= 7)).
Proof.
  unfold getDeadlineStatus, deadlineBadge, JobDetail.deadline_badge.
  destruct (getDaysUntilDeadline newDate now d) as [n|].
  - split; [|split; [|split]].
    + destruct (Z.ltb_spec n 0); [done|]. destruct (Z.eqb_spec n 0); [done|].
      destruct (Z.eqb_spec n 1); [done|]. by repeat case_match.
    + intros ->. cbn [negb]. eexists. split; [reflexivity|].
      by repeat case_match.
    + by intros ->.
    + intros m [= <-].
      destruct (Z.ltb_spec n 0); cbn [fst snd]; [split; [lia|done]|].
      destruct (Z.eqb_spec n 0); cbn [fst snd].
      { subst n. by split. }
      destruct (Z.eqb_spec n 1); cbn [fst snd].
      { subst n. by split. }
      destruct (Z.leb_spec n 3); cbn [fst snd]; [split; [lia|done]|].
      destruct (Z.leb_spec n 7); cbn [fst snd]; [split; [lia|done]|].
      split; [done|lia].
  - split; [done|]. split; [|split; [|done]].
    + intros ->. cbn [negb]. by eexists.
    + by intros ->.
Qed.

End Badges.

(** Witness of X8: at noon of 2 January 2025 the January deadline, twelve
    hours past, is labelled [Today]. *)
Lemma overdue_only_after_a_full_day_witness :
  fst (getDeadlineStatus Engine.newDate 1735732800000 Examples.january) = Today
  <-> 1735732800000 - ms_per_day < 1735689600000 <= 1735732800000.
Proof.
  exact (proj1 (proj2 (proj1 (overdue_only_after_a_full_day Engine.newDate 1735732800000
                                Examples.january) 1735689600000 eq_refl))).
Defined.

(** Witness of X9: the March deadline seen on new year's day. *)
Lemma badge_labels_agree_witness :
  exists class,
    JobDetail.deadline_badge Engine.newDate 1735689600000 Examples.march
      = Some (class, snd (deadlineBadge (getDaysUntilDeadline Engine.newDate 1735689600000
                                           Examples.march)))
    ∧ fst (deadlineBadge (getDaysUntilDeadline Engine.newDate 1735689600000 Examples.march))
      = "bg-" +:+ class.
Proof.
  exact (proj1 (proj2 (badge_labels_agree Engine.newDate 1735689600000 Examples.march))
           eq_refl).
Defined.


(** ** The detail page, failures and edges *)

Section DetailEdges.
Context {S : Type} (api : Api S).
Context (newDate : value -> option Z) (toISOString : Z -> string).

Local Abbreviation step := (JobDetail.step api newDate toISOString).

(** X10.  Deleting from the detail page.  Declining the confirmation
    dialog cancels the deletion entirely: nothing is sent and nothing
    changes.  A confirmed deletion sends exactly one delete request.  When it
    succeeds, deleting the application navigates to the list, and deleting a
    deadline or a note reloads the application, the console staying as it
    is.  When it fails, the page stays as it is, without navigation or
    reload, and the console gets one line: "Failed to delete application:",
    "Failed to delete deadline:" or "Failed to delete note:" with the
    message of the failure. *)
Theorem deletion_outcome (w : world S JobDetail.State) :
  let st := ui w in
  (fire step (JobDetail.ClickDeleteApplication false) w = w
   ∧ (forall deadlineId, fire step (JobDetail.ClickDeleteDeadline deadlineId false) w = w)
   ∧ (forall noteId, fire step (JobDetail.ClickDeleteNote noteId false) w = w))
  ∧ (forall r s1,
     api_deleteApplication api (JobDetail.id st) (srv w) = (r, s1) ->
     let w' := fire step (JobDetail.ClickDeleteApplication true) w in
     sent w w' = [DeleteApplication (JobDetail.id st)]
     ∧ ui w' = st
     ∧ match r with
       | Ok _ => route w' = (route w ++ ["/applications"])%list ∧ console w' = console w
       | Err e => route w' = route w
                  ∧ console w' = (console w ++ ["Failed to delete application:" +:+ " " +:+ e])%list
       end)
  ∧ (forall deadlineId e s1,
       api_deleteDeadline api deadlineId (srv w) = (Err e, s1) ->
       let w' := fire step (JobDetail.ClickDeleteDeadline deadlineId true) w in
       sent w w' = [DeleteDeadline deadlineId] ∧ ui w' = st ∧ route w' = route w
       ∧ console w' = (console w ++ ["Failed to delete deadline:" +:+ " " +:+ e])%list)
  ∧ (forall deadlineId s1,
       api_deleteDeadline api deadlineId (srv w) = (Ok tt, s1) ->
       let w' := fire step (JobDetail.ClickDeleteDeadline deadlineId true) w in
       sent w w' = [DeleteDeadline deadlineId; GetApplication (JobDetail.id st)]
       ∧ route w' = route w ∧ console w' = console w)
  ∧ (forall noteId e s1,
       api_deleteNote api noteId (srv w) = (Err e, s1) ->
       let w' := fire step (JobDetail.ClickDeleteNote noteId true) w in
       sent w w' = [DeleteNote noteId] ∧ ui w' = st ∧ route w' = route w
       ∧ console w' = (console w ++ ["Failed to delete note:" +:+ " " +:+ e])%list)
  ∧ (forall noteId s1,
       api_deleteNote api noteId (srv w) = (Ok tt, s1) ->
       let w' := fire step (JobDetail.ClickDeleteNote noteId true) w in
       sent w w' = [DeleteNote noteId; GetApplication (JobDetail.id st)]
       ∧ route w' = route w ∧ console w' = console w).
Proof.
  intros st. subst st.
  split; [|split; [|split; [|split; [|split]]]].
  - split; [reflexivity|]. split; intros; reflexivity.
  - intros r s1 H w'. subst w'. unfold fire, run_handler. cbn [JobDetail.step].
    unfold JobDetail.handleDeleteApplication. cbn [negb].
    unfold_monad. world_simpl. rewrite H. destruct r as [[]|e]; world_simpl.
    + split; [by sent_eval|]. done.
    + split; [by sent_eval|]. done.
  - intros deadlineId e s1 H w'. subst w'. unfold fire, run_handler. cbn [JobDetail.step].
    unfold JobDetail.handleDeleteDeadline, JobDetail.fetchApplication. cbn [negb].
    unfold_monad. world_simpl. rewrite H. world_simpl.
    split; [by sent_eval|]. done.
  - intros deadlineId s1 H w'. subst w'. unfold fire, run_handler. cbn [JobDetail.step].
    unfold JobDetail.handleDeleteDeadline, JobDetail.fetchApplication. cbn [negb].
    unfold_monad. world_simpl. rewrite H. world_simpl.
    repeat (split_step; world_simpl); (split; [by sent_eval|done]).
  - intros noteId e s1 H w'. subst w'. unfold fire, run_handler. cbn [JobDetail.step].
    unfold JobDetail.handleDeleteNote, JobDetail.fetchApplication. cbn [negb].
    unfold_monad. world_simpl. rewrite H. world_simpl.
    split; [by sent_eval|]. done.
  - intros noteId s1 H w'. subst w'. unfold fire, run_handler. cbn [JobDetail.step].
    unfold JobDetail.handleDeleteNote, JobDetail.fetchApplication. cbn [negb].
    unfold_monad. world_simpl. rewrite H. world_simpl.
    repeat (split_step; world_simpl); (split; [by sent_eval|done]).
Qed.

(** X11.  Saving the status on the detail page sends a partial update that
    carries the status and nothing else.  When the update fails, the status
    editor stays open with the chosen status and the application is not
    reloaded; when it succeeds, the editor closes and the application is
    reloaded. *)
Theorem handleUpdateStatus_sends_only_status (w : world S JobDetail.State) :
  let st := ui w in
  let w' := fire step JobDetail.ClickSaveStatus w in
  (exists body rest,
     sent w w' = UpdateApplication (JobDetail.id st) body :: rest
     ∧ body !! "status" = Some (VStr (JobDetail.newStatus st))
     ∧ (forall k, k ≠ "status" -> body !! k = None))
  ∧ (forall e s1,
       api_updateApplication api (JobDetail.id st)
         (<["status" := VStr (JobDetail.newStatus st)]> ∅) (srv w) = (Err e, s1) ->
       ui w' = st
       ∧ sent w w' = [UpdateApplication (JobDetail.id st)
                        (<["status" := VStr (JobDetail.newStatus st)]> ∅)])
  ∧ (forall a s1,
       api_updateApplication api (JobDetail.id st)
         (<["status" := VStr (JobDetail.newStatus st)]> ∅) (srv w) = (Ok a, s1) ->
       JobDetail.isEditingStatus (ui w') = false
       ∧ sent w w' = [UpdateApplication (JobDetail.id st)
                        (<["status" := VStr (JobDetail.newStatus st)]> ∅);
                      GetApplication (JobDetail.id st)]).
Proof.
  intros st w'. subst st w'. unfold fire, run_handler. cbn [JobDetail.step].
  unfold JobDetail.handleUpdateStatus, JobDetail.fetchApplication.
  split; [|split].
  - exists (<["status" := VStr (JobDetail.newStatus (ui w))]> ∅).
    assert (Hk : forall k, k ≠ "status" ->
                 (<["status" := VStr (JobDetail.newStatus (ui w))]> ∅ : obj) !! k = None).
    { intros k Hk. by rewrite lookup_insert_ne. }
    run; sent_eval; eexists; (split; [reflexivity|]); split;
      first [by rewrite lookup_insert_eq | exact Hk].
  - intros e s1 H. unfold_monad. world_simpl. rewrite H. world_simpl.
    split; [done|by sent_eval].
  - intros a s1 H. unfold_monad. world_simpl. rewrite H. world_simpl.
    repeat (split_step; world_simpl); (split; [done|by sent_eval]).
Qed.

(** X12.  No event of the detail page clears its error: after any event the
    error is the one it was, or the message of a load that just failed.  A
    load that succeeds after a failed one therefore leaves the page on
    "Application Not Found", where rendering changes nothing. *)
Theorem no_event_clears_the_error (e : JobDetail.Event) (w : world S JobDetail.State) :
  let w' := fire step e w in
  (JobDetail.error (ui w') = JobDetail.error (ui w)
   ∨ exists s s', api_getApplication api (JobDetail.id (ui w)) s
                  = (Err (JobDetail.error (ui w')), s'))
  ∧ (truthy_str (JobDetail.error (ui w)) = true ->
     forall now, fire step (JobDetail.Render now) w = w).
Proof.
  intros w'. subst w'. split.
  - unfold fire, run_handler.
    destruct e; cbn [JobDetail.step];
      unfold JobDetail.handleUpdateStatus, JobDetail.handleDeleteApplication,
        JobDetail.handleAddNote, JobDetail.handleUpdateNote, JobDetail.handleDeleteNote,
        JobDetail.handleAddDeadline, JobDetail.handleToggleDeadline,
        JobDetail.handleDeleteDeadline, JobDetail.render, JobDetail.fetchApplication;
      run; first [by left | right; by eauto].
  - intros He now. unfold fire, run_handler. cbn [JobDetail.step]. unfold JobDetail.render.
    rewrite He. cbn [orb]. destruct (JobDetail.loading (ui w)); reflexivity.
Qed.

(** X13.  A failed add loses nothing the user typed.  When creating a note
    fails, the note form stays open with its content; when it succeeds, the
    form is emptied and closed.  When creating a deadline fails, or when the
    date entered is not a date (then nothing is sent at all), the deadline
    form keeps its fields; when it succeeds, the form goes back to its
    defaults and closes. *)
Theorem failed_add_keeps_the_form (w : world S JobDetail.State) :
  let st := ui w in
  (JobDetail.editingNote st = None ->
   blank (JobDetail.noteContent st) = false ->
   forall r s1,
     api_createNote api (JobDetail.id st) (JobDetail.noteContent st) (srv w) = (r, s1) ->
     let w' := fire step JobDetail.ClickSubmitNote w in
     match r with
     | Err e => ui w' = st
     | Ok _ => JobDetail.noteContent (ui w') = "" ∧ JobDetail.showNoteForm (ui w') = false
     end)
  ∧ (truthy (JobDetail.newDeadline st !! "deadline_date") = true ->
     let w' := fire step JobDetail.ClickAddDeadline w in
     match JobDetail.newDeadline st !! "deadline_date" ≫= newDate with
     | None =>
         w' = World (srv w) (log w) st (route w)
                (console w ++ ["Failed to add deadline:" +:+ " " +:+ "Invalid time value"])
     | Some t =>
         forall r s1,
           api_createDeadline api (JobDetail.id st)
             (<["is_completed" := VBool false]>
                (<["deadline_date" := VStr (toISOString t)]> (JobDetail.newDeadline st)))
             (srv w) = (r, s1) ->
           match r with
           | Err e => ui w' = st
           | Ok _ => JobDetail.newDeadline (ui w') = JobDetail.empty_deadline_form
                     ∧ JobDetail.showDeadlineForm (ui w') = false
           end
     end).
Proof.
  intros st. subst st. split.
  - intros Hn Hb r s1 H w'. subst w'. unfold fire, run_handler. cbn [JobDetail.step].
    rewrite Hn. unfold JobDetail.handleAddNote, JobDetail.fetchApplication.
    rewrite truthy_str_trim, Hb. cbn [negb].
    unfold_monad. world_simpl. rewrite H. destruct r as [[]|e]; world_simpl; [|done].
    repeat (split_step; world_simpl); done.
  - intros Hd w'. subst w'. unfold fire, run_handler. cbn [JobDetail.step].
    unfold JobDetail.handleAddDeadline, JobDetail.fetchApplication.
    rewrite Hd. cbn [negb]. unfold_monad. world_simpl.
    destruct (JobDetail.newDeadline (ui w) !! "deadline_date" ≫= newDate) as [t|];
      world_simpl; [|done].
    intros r s1 H. rewrite H. destruct r as [[]|e]; world_simpl; [|done].
    repeat (split_step; world_simpl); done.
Qed.

End DetailEdges.

(** Witness of X10: deleting against a backend that refuses. *)
Lemma deletion_outcome_witness :
  sent (start Examples.tracking_store Examples.job_page)
    (fire (JobDetail.step MoreExamples.read_only Engine.newDate Engine.toISOString)
       (JobDetail.ClickDeleteDeadline 11 true)
       (start Examples.tracking_store Examples.job_page))
  = [DeleteDeadline 11]
  ∧ ui (fire (JobDetail.step MoreExamples.read_only Engine.newDate Engine.toISOString)
          (JobDetail.ClickDeleteDeadline 11 true)
          (start Examples.tracking_store Examples.job_page))
    = Examples.job_page
  ∧ route (fire (JobDetail.step MoreExamples.read_only Engine.newDate Engine.toISOString)
             (JobDetail.ClickDeleteDeadline 11 true)
             (start Examples.tracking_store Examples.job_page))
    = []
  ∧ console (fire (JobDetail.step MoreExamples.read_only Engine.newDate Engine.toISOString)
               (JobDetail.ClickDeleteDeadline 11 true)
               (start Examples.tracking_store Examples.job_page))
    = ["Failed to delete deadline: Failed to delete deadline"].
Proof.
  exact (proj1 (proj2 (proj2 (deletion_outcome MoreExamples.read_only Engine.newDate
                                Engine.toISOString
                                (start Examples.tracking_store Examples.job_page))))
           11 "Failed to delete deadline" Examples.tracking_store eq_refl).
Defined.

(** Witness of X11: a status that the backend refuses to store. *)
Lemma handleUpdateStatus_sends_only_status_witness :
  ui (fire (JobDetail.step MoreExamples.read_only Engine.newDate Engine.toISOString)
        JobDetail.ClickSaveStatus (start Examples.tracking_store Examples.job_page))
  = Examples.job_page
  ∧ sent (start Examples.tracking_store Examples.job_page)
      (fire (JobDetail.step MoreExamples.read_only Engine.newDate Engine.toISOString)
         JobDetail.ClickSaveStatus (start Examples.tracking_store Examples.job_page))
    = [UpdateApplication 1 (<["status" := VStr "Applied"]> ∅)].
Proof.
  exact (proj1 (proj2 (handleUpdateStatus_sends_only_status MoreExamples.read_only
                         Engine.newDate Engine.toISOString
                         (start Examples.tracking_store Examples.job_page)))
           "Failed to update application" Examples.tracking_store eq_refl).
Defined.

(** Witness of X12: the page of an application that does not exist, once
    its load has failed, renders nothing. *)
Lemma no_event_clears_the_error_witness :
  fire (JobDetail.step Store.api Engine.newDate Engine.toISOString) (JobDetail.Render 0)
    (fire (JobDetail.step Store.api Engine.newDate Engine.toISOString) JobDetail.Mount
       (start Examples.tracking_store MoreExamples.missing_page))
  = fire (JobDetail.step Store.api Engine.newDate Engine.toISOString) JobDetail.Mount
      (start Examples.tracking_store MoreExamples.missing_page).
Proof.
  exact (proj2 (no_event_clears_the_error Store.api Engine.newDate Engine.toISOString
                  JobDetail.Mount
                  (fire (JobDetail.step Store.api Engine.newDate Engine.toISOString)
                     JobDetail.Mount
                     (start Examples.tracking_store MoreExamples.missing_page)))
           eq_refl 0).
Defined.

(** Witness of X13: a note that the backend refuses stays in the form. *)
Lemma failed_add_keeps_the_form_witness :
  ui (fire (JobDetail.step MoreExamples.read_only Engine.newDate Engine.toISOString)
        JobDetail.ClickSubmitNote
        (start Examples.tracking_store
           (JobDetail.setNoteContent "follow up" Examples.job_page)))
  = JobDetail.setNoteContent "follow up" Examples.job_page.
Proof.
  exact (proj1 (failed_add_keeps_the_form MoreExamples.read_only Engine.newDate
                  Engine.toISOString
                  (start Examples.tracking_store
                     (JobDetail.setNoteContent "follow up" Examples.job_page)))
           eq_refl eq_refl (Err "Failed to create note") Examples.tracking_store eq_refl).
Defined.


(** ** Rendering the detail page and loading *)

Section RenderAndLoad.
Context {S : Type} (api : Api S).
Context (newDate : value -> option Z) (toISOString : Z -> string).

Local Abbreviation step := (JobDetail.step api newDate toISOString).

(** X14.  Rendering the detail page sorts the deadlines held in its state
    in place: the application in the state keeps every one of its other
    fields (identifier, company, title, URL, location, salary, status, date
    applied and notes), the deadlines are the same ones in ascending order
    of date (all dates being valid), nothing else in the page changes,
    nothing is sent, navigated or printed, and rendering again, at any time,
    changes nothing more. *)
Theorem render_sorts_deadlines_in_place (w : world S JobDetail.State) (now : Z)
    (app : Application) (ds : list Deadline) :
  JobDetail.loading (ui w) = false ->
  JobDetail.error (ui w) = "" ->
  JobDetail.application (ui w) = Some app ->
  deadlines app = Some ds ->
  Forall (valid_date newDate) ds ->
  let w' := fire step (JobDetail.Render now) w in
  exists app' ds',
    JobDetail.application (ui w') = Some app'
    ∧ deadlines app' = Some ds'
    ∧ ds' ≡ₚ ds
    ∧ StronglySorted (not_later newDate) ds'
    ∧ app' = mkApplication (app_id app) (company_name app) (position_title app)
               (job_url app) (location app) (salary app) (status app)
               (date_applied app) (Some ds') (notes app)
    ∧ w' = World (srv w) (log w) (JobDetail.setApplication (Some app') (ui w))
             (route w) (console w)
    ∧ srv w' = srv w ∧ log w' = log w
    ∧ forall later, fire step (JobDetail.Render later) w' = w'.
Proof.
  intros Hl He Ha Hd Hv w'.
  assert (Hw' : w' = World (srv w) (log w)
                  (JobDetail.setApplication (Some (JobDetail.sort_deadlines newDate app)) (ui w))
                  (route w) (console w)).
  { subst w'. unfold fire, run_handler. cbn [JobDetail.step]. unfold JobDetail.render.
    rewrite Hl, He, Ha. cbn. unfold set_state. cbn. by rewrite Ha. }
  assert (Hsorted : StronglySorted (fun a b => key_of newDate a <= key_of newDate b)
                      (js_sort (date_diff newDate) ds)).
  { by apply (js_sort_sorted (date_diff newDate) (key_of newDate) (valid_date newDate)
               (date_diff_key newDate)). }
  assert (Hvs : Forall (valid_date newDate) (js_sort (date_diff newDate) ds)).
  { by rewrite js_sort_perm. }
  assert (Hds : deadlines (JobDetail.sort_deadlines newDate app)
                = Some (js_sort (date_diff newDate) ds)).
  { unfold JobDetail.sort_deadlines. by rewrite Hd. }
  assert (Hidem : JobDetail.sort_deadlines newDate (JobDetail.sort_deadlines newDate app)
                  = JobDetail.sort_deadlines newDate app).
  { unfold JobDetail.sort_deadlines at 1. rewrite Hds.
    rewrite (js_sort_sorted_id (date_diff newDate) (key_of newDate) (valid_date newDate)
               (date_diff_key newDate)) by done.
    rewrite <- Hds. by destruct (JobDetail.sort_deadlines newDate app). }
  exists (JobDetail.sort_deadlines newDate app), (js_sort (date_diff newDate) ds).
  rewrite Hw'. cbn [ui srv log].
  split; [reflexivity|]. split; [exact Hds|]. split; [apply js_sort_perm|]. split.
  { clear -Hsorted Hvs. induction Hsorted as [|d l Hs IH Hd]; [constructor|].
    apply Forall_cons in Hvs as [Hdv Hlv]. constructor; [by apply IH|].
    rewrite Forall_forall in Hd, Hlv. apply Forall_forall. intros x Hx.
    apply not_later_key; [done|by apply Hlv|by apply Hd]. }
  split; [unfold JobDetail.sort_deadlines; by rewrite Hd|].
  split; [reflexivity|]. split; [reflexivity|]. split; [reflexivity|].
  intros later. unfold fire, run_handler. cbn [JobDetail.step]. unfold JobDetail.render.
  cbn [ui JobDetail.loading JobDetail.error JobDetail.application JobDetail.setApplication].
  rewrite Hl, He. cbn [truthy_str String.eqb negb orb].
  rewrite bool_decide_eq_true_2 by by eexists. cbn [negb].
  unfold set_state. cbn [snd srv log ui route console]. f_equal.
  unfold JobDetail.setApplication.
  cbn [JobDetail.id JobDetail.application JobDetail.loading JobDetail.error
       JobDetail.isEditingStatus JobDetail.newStatus JobDetail.showNoteForm
       JobDetail.noteContent JobDetail.editingNote JobDetail.showDeadlineForm
       JobDetail.newDeadline JobDetail.editingDeadline fmap option_fmap option_map].
  by rewrite Hidem.
Qed.

(** X15.  A load that fails keeps what the page was showing.  The home
    page keeps its list of upcoming deadlines and the list of applications
    keeps its applications, the failure going to the console; the detail page
    keeps its application and records the message as its error.  In every
    case the loading flag is down again afterwards. *)
Theorem failed_load_keeps_what_is_shown (e : string) :
  (forall (w : world S Home.State) s1,
     api_getApplications api (srv w) = (Err e, s1) ->
     let w' := fire (Home.step api newDate toISOString) Home.Mount w in
     ui w' = Home.setLoadingDeadlines false (ui w)
     ∧ console w' = (console w ++ ["Failed to fetch deadlines:" +:+ " " +:+ e])%list)
  ∧ (forall (w : world S AllApplications.State) s1,
       api_getApplications api (srv w) = (Err e, s1) ->
       let w' := fire (AllApplications.step api newDate) AllApplications.Mount w in
       ui w' = AllApplications.setLoading false (ui w)
       ∧ console w' = (console w ++ ["Failed to fetch applications:" +:+ " " +:+ e])%list)
  ∧ (forall (w : world S JobDetail.State) s1,
       api_getApplication api (JobDetail.id (ui w)) (srv w) = (Err e, s1) ->
       let w' := fire step JobDetail.Mount w in
       ui w' = JobDetail.setLoading false (JobDetail.setError e (ui w))
       ∧ JobDetail.application (ui w') = JobDetail.application (ui w)
       ∧ console w' = console w).
Proof.
  split; [|split]; intros w s1 H w'; subst w'; unfold fire, run_handler.
  - cbn [Home.step]. unfold Home.fetchUpcomingDeadlines. unfold_monad. world_simpl.
    rewrite H. world_simpl. done.
  - cbn [AllApplications.step]. unfold AllApplications.fetchApplications. unfold_monad.
    world_simpl. rewrite H. world_simpl. done.
  - cbn [JobDetail.step]. unfold JobDetail.fetchApplication. unfold_monad. world_simpl.
    rewrite H. world_simpl. done.
Qed.

End RenderAndLoad.

(** Witness of X14: the detail page of the tracked application puts the
    January deadline first. *)
Lemma render_sorts_deadlines_in_place_witness :
  exists app' ds',
    JobDetail.application
      (ui (fire (JobDetail.step Store.api Engine.newDate Engine.toISOString)
             (JobDetail.Render 0) (start Examples.tracking_store Examples.job_page)))
    = Some app'
    ∧ deadlines app' = Some ds'
    ∧ ds' ≡ₚ [Examples.march; Examples.january]
    ∧ StronglySorted (not_later Engine.newDate) ds'.
Proof.
  assert (Hv : Forall (valid_date Engine.newDate) [Examples.march; Examples.january]).
  { repeat constructor; by eexists. }
  destruct (render_sorts_deadlines_in_place Store.api Engine.newDate Engine.toISOString
              (start Examples.tracking_store Examples.job_page) 0 Examples.tracked
              [Examples.march; Examples.january] eq_refl eq_refl eq_refl eq_refl Hv)
    as (app' & ds' & H1 & H2 & H3 & H4 & _).
  exists app', ds'. by repeat (split; [assumption|]).
Defined.

(** Witness of X15: the page of an application that does not exist. *)
Lemma failed_load_keeps_what_is_shown_witness :
  JobDetail.application
    (ui (fire (JobDetail.step Store.api Engine.newDate Engine.toISOString) JobDetail.Mount
           (start Examples.tracking_store MoreExamples.missing_page)))
  = None.
Proof.
  exact (proj1 (proj2 (proj2 (proj2 (failed_load_keeps_what_is_shown Store.api Engine.newDate
                 Engine.toISOString "Failed to fetch application"))
           (start Examples.tracking_store MoreExamples.missing_page)
           Examples.tracking_store eq_refl))).
Defined.

(** ** The board and the application form *)

Section Board.
Context {S : Type} (api : Api S) (toISOString : Z -> string).

Local Abbreviation step := (Dashboard.step api toISOString).

Lemma filter_status_split (c : string) (ids : list string) (apps : list Application) :
  c ∉ ids ->
  filter (fun app => status app ∈ c :: ids) apps
  ≡ₚ (Dashboard.getApplicationsByStatus c apps
      ++ filter (fun app => status app ∈ ids) apps)%list.
Proof.
  intros Hc. unfold Dashboard.getApplicationsByStatus.
  induction apps as [|a apps IH]; [done|].
  rewrite !filter_cons.
  destruct (decide (status a = c)) as [Heq|Hne].
  - rewrite decide_True by (rewrite Heq; left).
    rewrite decide_False by (by rewrite Heq). cbn. by rewrite IH.
  - destruct (decide (status a ∈ ids)) as [Hin|Hout].
    + rewrite decide_True by (by right). rewrite IH. apply Permutation_middle.
    + rewrite decide_False; [done|]. by intros [?|?]%elem_of_cons.
Qed.

Lemma columns_concat_perm (ids : list string) (apps : list Application) :
  NoDup ids ->
  concat (map (fun c => Dashboard.getApplicationsByStatus c apps) ids)
  ≡ₚ filter (fun app => status app ∈ ids) apps.
Proof.
  induction 1 as [|c ids Hc Hnd IH].
  - cbn. induction apps as [|a apps IHa]; [done|].
    rewrite filter_cons. rewrite decide_False; [done|]. apply not_elem_of_nil.
  - cbn [map concat]. rewrite filter_status_split by done. by rewrite IH.
Qed.

Lemma in_column (c : string) (app : Application) (apps : list Application) :
  app ∈ Dashboard.getApplicationsByStatus c apps <-> app ∈ apps ∧ status app = c.
Proof. unfold Dashboard.getApplicationsByStatus. rewrite list_elem_of_filter. tauto. Qed.

(** X16.  The board shows an application exactly when its status is one of
    the five column ids, once, in the column of its status, and the card
    colour computed for it is the colour of that column: the fallback colour
    is never used on the board.  An application whose status is [Interview]
    or [Offer], which the detail page offers, is in no column. *)
Theorem board_shows_five_statuses (apps : list Application) :
  concat (map (fun c => Dashboard.getApplicationsByStatus (Dashboard.column_id c) apps)
            Dashboard.statusColumns)
  ≡ₚ filter (fun app => status app ∈ map Dashboard.column_id Dashboard.statusColumns) apps
  ∧ (forall c app,
       c ∈ Dashboard.statusColumns ->
       app ∈ Dashboard.getApplicationsByStatus (Dashboard.column_id c) apps ->
       Dashboard.currentStatusColor Dashboard.statusColumns app = Dashboard.bgColor c)
  ∧ (forall app,
       app ∈ apps ->
       status app ∈ JobDetail.status_options ->
       (forall c, c ∈ Dashboard.statusColumns ->
                  app ∉ Dashboard.getApplicationsByStatus (Dashboard.column_id c) apps)
       <-> status app = "Interview" ∨ status app = "Offer").
Proof.
  split; [|split].
  - apply (columns_concat_perm (map Dashboard.column_id Dashboard.statusColumns)).
    compute_done.
  - intros c app Hc [_ Hs]%in_column.
    unfold Dashboard.currentStatusColor. rewrite Hs.
    repeat (apply elem_of_cons in Hc as [->|Hc]; [reflexivity|]).
    by apply elem_of_nil in Hc.
  - intros app Happ Hs.
    assert (Hcol : (forall c, c ∈ Dashboard.statusColumns ->
                      app ∉ Dashboard.getApplicationsByStatus (Dashboard.column_id c) apps)
                   <-> status app ∉ map Dashboard.column_id Dashboard.statusColumns).
    { split.
      - intros H (c & Hc & Hin)%list_elem_of_fmap.
        apply (H c Hin). by apply in_column.
      - intros H c Hc [_ Hin]%in_column. apply H. apply list_elem_of_fmap. by exists c. }
    rewrite Hcol. clear Hcol Happ.
    repeat (apply elem_of_cons in Hs as [->|Hs]; [compute_done|]).
    by apply elem_of_nil in Hs.
Qed.

(** X17.  A save from a valid form closes and empties the form whatever the
    backend answers: a rejected create or update leaves the list as it was
    and only writes a line on the console, and the data typed in the form is
    gone.  An accepted create appends the new row; an accepted update
    replaces the rows that have the id of the edited application. *)
Theorem save_closes_the_form (now : Z) (w : world S Dashboard.Page) (d : obj) :
  let st := Dashboard.dashboard (ui w) in
  let w' := fire step (Dashboard.ClickSave now) w in
  let body := <["status" := js_or (d !! "status") (VStr "Applied")]> d in
  ApplicationModal.scrapedData (Dashboard.modal (ui w)) = Some d ->
  truthy (d !! "company_name") = true ->
  truthy (d !! "position_title") = true ->
  (Dashboard.modal (ui w')
   = ApplicationModal.mkState ""
       (ApplicationModal.isScrapingUrl (Dashboard.modal (ui w))) None ""
   ∧ Dashboard.showAddModal (Dashboard.dashboard (ui w')) = false
   ∧ Dashboard.editingApp (Dashboard.dashboard (ui w')) = None
   ∧ route w' = route w)
  ∧ (Dashboard.editingApp st = None ->
     forall r s1,
       api_createApplication api (<["date_applied" := VStr (toISOString now)]> body) (srv w)
       = (r, s1) ->
       match r with
       | Ok newApp =>
           Dashboard.applications (Dashboard.dashboard (ui w'))
           = (Dashboard.applications st ++ [newApp])%list
           ∧ console w' = console w
       | Err e =>
           Dashboard.applications (Dashboard.dashboard (ui w')) = Dashboard.applications st
           ∧ console w' = (console w ++ ["Error saving application:" +:+ " " +:+ e])%list
       end)
  ∧ (forall editing,
       Dashboard.editingApp st = Some editing ->
       forall r s1,
         api_updateApplication api (app_id editing) body (srv w) = (r, s1) ->
         match r with
         | Ok updated =>
             Dashboard.applications (Dashboard.dashboard (ui w'))
             = map (fun app => if decide (app_id app = app_id editing) then updated else app)
                 (Dashboard.applications st)
             ∧ console w' = console w
         | Err e =>
             Dashboard.applications (Dashboard.dashboard (ui w')) = Dashboard.applications st
             ∧ console w' = (console w ++ ["Error saving application:" +:+ " " +:+ e])%list
         end).
Proof.
  intros st w' body Hd Hc Ht. subst st w' body.
  unfold fire, run_handler. cbn [Dashboard.step].
  unfold Dashboard.modal_handleSave, ApplicationModal.handleSave.
  rewrite Hd. cbn [ApplicationModal.field mbind option_bind].
  rewrite Hc, Ht. cbn [negb orb].
  unfold Dashboard.handleSaveApplication, ApplicationModal.handleClose,
    Dashboard.handleCloseModal.
  split; [|split].
  - destruct (Dashboard.editingApp (Dashboard.dashboard (ui w))); run; done.
  - intros He r s1 H. rewrite He. unfold_monad. world_simpl. rewrite H.
    destruct r as [newApp|e]; world_simpl; done.
  - intros editing He r s1 H. rewrite He. unfold_monad. world_simpl. rewrite H.
    destruct r as [updated|e]; world_simpl; done.
Qed.

(** X18.  Deleting from the board.  Declining the confirmation changes
    nothing and sends nothing.  A confirmed deletion sends one delete request
    and does not reload the list: when it succeeds the rows with that id
    leave the list and the others keep their order; when it fails the page is
    unchanged and the failure only goes to the console. *)
Theorem board_delete_outcome (appId : Z) (w : world S Dashboard.Page) :
  let st := Dashboard.dashboard (ui w) in
  (Dashboard.handleDeleteApplication api false appId st w).2 = w
  ∧ forall r s1,
      api_deleteApplication api appId (srv w) = (r, s1) ->
      let w' := (Dashboard.handleDeleteApplication api true appId st w).2 in
      sent w w' = [DeleteApplication appId]
      ∧ route w' = route w
      ∧ match r with
        | Ok _ =>
            ui w' = Dashboard.in_dashboard
                      (Dashboard.setApplications
                         (filter (fun app => app_id app ≠ appId) (Dashboard.applications st)))
                      (ui w)
            ∧ Forall (fun app => app_id app ≠ appId)
                (Dashboard.applications (Dashboard.dashboard (ui w')))
            ∧ Dashboard.applications (Dashboard.dashboard (ui w'))
                `sublist_of` Dashboard.applications st
            ∧ console w' = console w
        | Err e =>
            ui w' = ui w
            ∧ console w' = (console w ++ ["Error deleting application:" +:+ " " +:+ e])%list
        end.
Proof.
  intros st. subst st. split; [reflexivity|].
  intros r s1 H w'. subst w'. unfold Dashboard.handleDeleteApplication. cbn [negb].
  unfold_monad. world_simpl. rewrite H. destruct r as [[]|e]; world_simpl.
  - split; [by sent_eval|]. split; [done|]. split; [done|].
    cbn [Dashboard.in_dashboard Dashboard.dashboard Dashboard.setApplications
         Dashboard.applications].
    split; [|split; [|done]].
    + apply Forall_forall. by intros x [? _]%list_elem_of_filter.
    + apply sublist_filter.
  - split; [by sent_eval|]. done.
Qed.

(** X19.  Extracting a posting in the application form and saving it sends
    two requests only: the extraction and one create request that carries
    every extracted field, the status of the extraction or [Applied], and the
    date applied.  No job details and no deadline are created from the form,
    whatever the extraction returned. *)
Theorem form_scrape_then_save (now : Z) (w : world S Dashboard.Page) (data : obj) (s1 : S) :
  let u := ApplicationModal.jobUrl (Dashboard.modal (ui w)) in
  let w1 := fire step Dashboard.ClickScrapeJob w in
  let w2 := fire step (Dashboard.ClickSave now) w1 in
  blank u = false ->
  api_scrapeUrl api u (srv w) = (Ok data, s1) ->
  (sent w w1 = [ScrapeUrl u]
   ∧ Dashboard.modal (ui w1) = ApplicationModal.mkState u false (Some data) ""
   ∧ Dashboard.dashboard (ui w1) = Dashboard.dashboard (ui w))
  ∧ (truthy (data !! "company_name") = true ->
     truthy (data !! "position_title") = true ->
     Dashboard.editingApp (Dashboard.dashboard (ui w)) = None ->
     sent w w2
     = [ScrapeUrl u;
        CreateApplication
          (<["date_applied" := VStr (toISOString now)]>
             (<["status" := js_or (data !! "status") (VStr "Applied")]> data))]).
Proof.
  intros u w1 w2 Hb Hs.
  assert (Hw1 : w1 = World s1 (log w ++ [ScrapeUrl u])
                       (Dashboard.mkPage (Dashboard.dashboard (ui w))
                          (ApplicationModal.mkState u false (Some data) ""))
                       (route w) (console w)).
  { subst w1 u. unfold fire, run_handler. cbn [Dashboard.step].
    unfold Dashboard.modal_handleScrapeUrl, ApplicationModal.handleScrapeUrl.
    rewrite truthy_str_trim, Hb. cbn [negb].
    unfold_monad. world_simpl. rewrite Hs. world_simpl. reflexivity. }
  split.
  - rewrite Hw1. cbn [ui Dashboard.modal Dashboard.dashboard].
    split; [by sent_eval|]. done.
  - intros Hc Ht He. subst w2. rewrite Hw1. clear Hw1 w1.
    unfold fire, run_handler. cbn [Dashboard.step].
    unfold Dashboard.modal_handleSave, ApplicationModal.handleSave.
    cbn [ui Dashboard.modal Dashboard.dashboard ApplicationModal.scrapedData
         ApplicationModal.field mbind option_bind].
    rewrite Hc, Ht. cbn [negb orb].
    unfold Dashboard.handleSaveApplication, ApplicationModal.handleClose,
      Dashboard.handleCloseModal.
    rewrite He. run; sent_eval; reflexivity.
Qed.

End Board.

(** Witness of X16: a card of the board and an application left out. *)
Lemma board_shows_five_statuses_witness :
  Dashboard.currentStatusColor Dashboard.statusColumns MoreExamples.applied = "bg-primary"
  ∧ forall c, c ∈ Dashboard.statusColumns ->
      MoreExamples.interviewing
      ∉ Dashboard.getApplicationsByStatus (Dashboard.column_id c)
          [MoreExamples.applied; MoreExamples.interviewing].
Proof.
  split.
  - apply (proj1 (proj2 (board_shows_five_statuses
                           [MoreExamples.applied; MoreExamples.interviewing]))
             ("Applied", "bg-primary", "btn-primary") MoreExamples.applied).
    + compute_done.
    + compute_done.
  - apply (proj2 (proj2 (board_shows_five_statuses
                           [MoreExamples.applied; MoreExamples.interviewing]))
             MoreExamples.interviewing).
    + compute_done.
    + compute_done.
    + by left.
Defined.

(** Witness of X17: the form of Acme against a backend that refuses. *)
Lemma save_closes_the_form_witness :
  Dashboard.modal
    (ui (fire (Dashboard.step MoreExamples.read_only Engine.toISOString)
           (Dashboard.ClickSave 0)
           (start Store.empty (Examples.form_page (Some Examples.acme_form)))))
  = ApplicationModal.initial
  ∧ Dashboard.showAddModal
      (Dashboard.dashboard
         (ui (fire (Dashboard.step MoreExamples.read_only Engine.toISOString)
                (Dashboard.ClickSave 0)
                (start Store.empty (Examples.form_page (Some Examples.acme_form))))))
    = false.
Proof.
  pose proof (proj1 (save_closes_the_form MoreExamples.read_only Engine.toISOString 0
                       (start Store.empty (Examples.form_page (Some Examples.acme_form)))
                       Examples.acme_form eq_refl eq_refl eq_refl)) as (H1 & H2 & _).
  split; [exact H1|exact H2].
Defined.

(** Witness of X18: a card that the backend refuses to delete stays. *)
Lemma board_delete_outcome_witness :
  ui (Dashboard.handleDeleteApplication MoreExamples.read_only true 3
        (Dashboard.dashboard MoreExamples.board_page)
        (start MoreExamples.board_store MoreExamples.board_page)).2
  = MoreExamples.board_page.
Proof.
  exact (proj1 (proj2 (proj2 (proj2 (board_delete_outcome MoreExamples.read_only 3
                                       (start MoreExamples.board_store MoreExamples.board_page))
                                (Err "Failed to delete application")
                                MoreExamples.board_store eq_refl)))).
Defined.

(** Witness of X19: the posting of TechCorp, extracted and saved. *)
Lemma form_scrape_then_save_witness :
  sent (start (Examples.store_with_page Examples.posting) Examples.scrape_page)
    (fire (Dashboard.step Store.api Engine.toISOString) (Dashboard.ClickSave 0)
       (fire (Dashboard.step Store.api Engine.toISOString) Dashboard.ClickScrapeJob
          (start (Examples.store_with_page Examples.posting) Examples.scrape_page)))
  = [ScrapeUrl Examples.job_link;
     CreateApplication
       (<["date_applied" := VStr "1970-01-01T00:00:00.000Z"]>
          (<["status" := VStr "Applied"]> Examples.posting))].
Proof.
  exact (proj2 (form_scrape_then_save Store.api Engine.toISOString 0
                  (start (Examples.store_with_page Examples.posting) Examples.scrape_page)
                  Examples.posting _ eq_refl eq_refl)
           eq_refl eq_refl eq_refl).
Defined.

(** ** The list of applications: search *)

Section Search.

Lemma prefix_app (q s : string) :
  String.prefix q s = true <-> exists post, s = q +:+ post.
Proof.
  revert s. induction q as [|a q IH]; intros s.
  - destruct s; cbn; (split; [intros _; by eexists|done]).
  - destruct s as [|b s]; cbn.
    + split; [done|]. by intros [post H].
    + destruct (Ascii.ascii_dec a b) as [->|Hne].
      * rewrite IH. split; intros [post H]; exists post; [by rewrite H|by injection H].
      * split; [done|]. intros [post H]. by injection H as -> _.
Qed.

Lemma includes_app (q s : string) :
  Text.includes q s = true <-> exists pre post, s = pre +:+ q +:+ post.
Proof.
  induction s as [|b s IH].
  - cbn [Text.includes]. rewrite orb_false_r, prefix_app. split.
    + intros [post H]. by exists "", post.
    + intros (pre & post & H). destruct pre; [by exists post|done].
  - cbn [Text.includes]. rewrite orb_true_iff, prefix_app, IH. split.
    + intros [[post H]|(pre & post & H)].
      * by exists "", post.
      * exists (String b pre), post. cbn. by rewrite H.
    + intros (pre & post & H). destruct pre as [|a pre].
      * left. by exists post.
      * right. exists pre, post. cbn in H. by injection H.
Qed.

Lemma toLowerCase_empty (s : string) : Text.toLowerCase s = "" <-> s = "".
Proof. by destruct s. Qed.

Lemma truthy_str_lower (q q' : string) :
  Text.toLowerCase q = Text.toLowerCase q' -> truthy_str q = truthy_str q'.
Proof. destruct q, q'; done. Qed.

Local Abbreviation occurs q s :=
  (exists pre post, Text.toLowerCase s = pre +:+ Text.toLowerCase q +:+ post).

(** X20.  The search of the list ignores the case of what is typed: two
    queries that differ only in case select the same applications, under
    every status filter. *)
Theorem search_ignores_case (q q' statusFilter : string) (apps : list Application) :
  Text.toLowerCase q = Text.toLowerCase q' ->
  AllApplications.filterApplications q statusFilter apps
  = AllApplications.filterApplications q' statusFilter apps.
Proof.
  intros H. unfold AllApplications.filterApplications, AllApplications.matches_search.
  rewrite (truthy_str_lower q q' H). by rewrite H.
Qed.

(** X21.  What the filters of the list keep.  With a query typed in, an
    application is kept exactly when it is one of the loaded applications,
    its status is the selected one (or the selection is [all]) and the query
    occurs, case ignored, in its company name, its position title or its
    location.  With no query, only the status filter applies, and with
    neither the list is the loaded one. *)
Theorem filter_keeps_matching_applications (q statusFilter : string)
    (apps : list Application) :
  (q ≠ "" ->
   forall app,
     app ∈ AllApplications.filterApplications q statusFilter apps
     <-> app ∈ apps
         ∧ (statusFilter = "all" ∨ status app = statusFilter)
         ∧ (occurs q (company_name app)
            ∨ occurs q (position_title app)
            ∨ exists l, location app = Some l ∧ occurs q l))
  ∧ AllApplications.filterApplications "" statusFilter apps
    = (if decide (statusFilter = "all") then apps
       else filter (fun app => status app = statusFilter) apps)
  ∧ AllApplications.filterApplications q statusFilter apps `sublist_of` apps.
Proof.
  split; [|split].
  - intros Hq app. unfold AllApplications.filterApplications.
    assert (Ht : truthy_str q = true).
    { unfold truthy_str. by destruct q. }
    rewrite Ht.
    assert (Hm : AllApplications.matches_search q app = true
                 <-> occurs q (company_name app)
                     ∨ occurs q (position_title app)
                     ∨ exists l, location app = Some l ∧ occurs q l).
    { unfold AllApplications.matches_search.
      rewrite !orb_true_iff, !includes_app.
      destruct (location app) as [l|].
      - rewrite andb_true_iff, includes_app. split.
        + intros [[H|H]|[_ H]]; [by left|by right; left|].
          right; right. by exists l.
        + intros [H|[H|(l' & Hl & H)]]; [by left; left|by left; right|].
          injection Hl as <-. right. split; [|done].
          unfold truthy_str. destruct l; [|done].
          destruct H as (pre & post & H). destruct pre; [|done].
          cbn in H. symmetry in H. destruct (Text.toLowerCase q) eqn:E; [|done].
          by apply (proj1 (toLowerCase_empty q)) in E.
      - split.
        + intros [[H|H]|H]; [by left|by right; left|done].
        + intros [H|[H|(l' & Hl & _)]]; [by left; left|by left; right|done]. }
    destruct (String.eqb statusFilter "all") eqn:Es; cbn [negb].
    + apply String.eqb_eq in Es. rewrite list_elem_of_filter, Hm.
      split; [intros [? ?]; split; [done|]; split; [by left|done]|].
      intros (? & _ & ?). done.
    + apply String.eqb_neq in Es. rewrite !list_elem_of_filter, Hm.
      split; [intros (? & ? & ?); split; [done|]; split; [by right|done]|].
      intros (? & [?|?] & ?); done.
  - unfold AllApplications.filterApplications. cbn [truthy_str String.eqb negb].
    destruct (String.eqb statusFilter "all") eqn:Es; cbn [negb].
    + apply String.eqb_eq in Es. by rewrite decide_True.
    + apply String.eqb_neq in Es. by rewrite decide_False.
  - unfold AllApplications.filterApplications.
    destruct (truthy_str q), (negb (String.eqb statusFilter "all")).
    + etrans; apply sublist_filter.
    + apply sublist_filter.
    + apply sublist_filter.
    + done.
Qed.

End Search.

(** Witness of X20: [ACME] and [acme] select the same applications. *)
Lemma search_ignores_case_witness :
  AllApplications.filterApplications "ACME" "all" [Examples.tracked; Examples.other]
  = AllApplications.filterApplications "acme" "all" [Examples.tracked; Examples.other].
Proof.
  exact (search_ignores_case "ACME" "acme" "all" [Examples.tracked; Examples.other] eq_refl).
Defined.

(** Witness of X21: [eeds] finds the application in Leeds. *)
Lemma filter_keeps_matching_applications_witness :
  MoreExamples.applied
  ∈ AllApplications.filterApplications "eeds" "Applied"
      [MoreExamples.applied; MoreExamples.interviewing].
Proof.
  apply (proj1 (filter_keeps_matching_applications "eeds" "Applied"
                  [MoreExamples.applied; MoreExamples.interviewing])).
  - done.
  - split; [by left|]. split; [by right|].
    right; right. exists "Leeds". split; [done|]. by exists "l", "".
Defined.
